(** * The conversion worker of the WhatsApp video converter (src/hd.py)

    A shallow embedding of [ConversionWorker.get_video_metadata] and
    [ConversionWorker.run]: the Python values they handle (JSON documents,
    integers, binary64 floats, strings), the exceptions they raise and
    catch, and the signals and child processes they produce, recorded as a
    trace of events; then the window that receives the signals
    ([DropZoneTree], [VideoConverterApp]) and the start of the program
    ([check_ffmpeg_ffprobe], [main]). *)

From Stdlib Require Import ZArith List String Ascii Bool Lia DecimalString DecimalPos.
From Stdlib Require Import QArith Qround Qpower Lqa Sorted.
From Stdlib Require Import Floats.SpecFloat.
Import ListNotations.
Local Open Scope string_scope.
Local Open Scope Z_scope.

(** ** Exceptions and fallible computations *)

(** The exceptions the worker can meet.  [CalledProcessError] is the only
    class the code names; it carries [str(e)] and [e.stderr].
    [OtherException] stands for what a library call raises besides it
    (FileNotFoundError from subprocess.run, JSONDecodeError from
    json.loads), with its [str(e)]. *)
Inductive exn : Type :=
| CalledProcessError (msg stderr : string)
| KeyError (key : string)
| TypeError (msg : string)
| ValueError (msg : string)
| AttributeError (msg : string)
| ZeroDivisionError (msg : string)
| OverflowError (msg : string)
| OtherException (msg : string).

Inductive result (A : Type) : Type :=
| Return (a : A)
| Raise (e : exn).
Arguments Return {A} a.
Arguments Raise {A} e.

Definition bind {A B : Type} (m : result A) (k : A -> result B) : result B :=
  match m with
  | Return a => k a
  | Raise e => Raise e
  end.

Notation "x <- m ;; k" := (bind m (fun x => k))
  (at level 61, m at next level, right associativity).
Notation "' pat <- m ;; k" := (bind m (fun x => match x with pat => k end))
  (at level 61, pat pattern, m at next level, right associativity).

(** ** Text

    A [str] is held as its UTF-8 encoding, a surrogate that stands alone
    as the three bytes of its code point.  What Python decides by
    character is decided on the code points [Unicode.chars] reads from the
    bytes, with the tables of the Unicode Character Database 14.0.0, the
    one CPython 3.11 carries. *)
Module Unicode.

Definition byte (c : ascii) : Z := Z.of_N (N_of_ascii c).

(** The six bits of a continuation byte. *)
Definition continuation (c : ascii) : option Z :=
  let b := byte c in
  if (128 <=? b) && (b <? 192) then Some (b - 128) else None.

(** The character a text begins with: its code point and the number of
    bytes that encode it.  A byte that begins no well-formed sequence
    belongs to no [str]; it is read as U+FFFD. *)
Definition first_char (c1 : ascii) (s1 : string) : Z * nat :=
  let b1 := byte c1 in
  let stray := (65533, 1%nat) in
  if b1 <? 128 then (b1, 1%nat)
  else
    match s1 with
    | String c2 s2 =>
        match continuation c2 with
        | Some x2 =>
            if (194 <=? b1) && (b1 <? 224) then ((b1 - 192) * 64 + x2, 2%nat)
            else
              match s2 with
              | String c3 s3 =>
                  match continuation c3 with
                  | Some x3 =>
                      let u3 := (b1 - 224) * 4096 + x2 * 64 + x3 in
                      if (224 <=? b1) && (b1 <? 240) && (2048 <=? u3)
                      then (u3, 3%nat)
                      else
                        match s3 with
                        | String c4 _ =>
                            match continuation c4 with
                            | Some x4 =>
                                let u4 := (b1 - 240) * 262144 + x2 * 4096
                                          + x3 * 64 + x4 in
                                if (240 <=? b1) && (65536 <=? u4)
                                   && (u4 <=? 1114111)
                                then (u4, 4%nat)
                                else stray
                            | None => stray
                            end
                        | "" => stray
                        end
                  | None => stray
                  end
              | "" => stray
              end
        | None => stray
        end
    | "" => stray
    end.

(** The characters of a text, each with its code point and the bytes that
    encode it; [skip] bytes of the character before are passed over. *)
Fixpoint chars_from (skip : nat) (s : string) : list (Z * string) :=
  match s with
  | "" => []
  | String c s' =>
      match skip with
      | S k => chars_from k s'
      | O =>
          let '(u, len) := first_char c s' in
          (u, substring 0 len s) :: chars_from (len - 1) s'
      end
  end.

Definition chars (s : string) : list (Z * string) := chars_from 0 s.

Definition codepoints (s : string) : list Z := map fst (chars s).

Definition in_ranges (c : Z) (ranges : list (Z * Z)) : bool :=
  existsb (fun r => (fst r <=? c) && (c <=? snd r)) ranges.

(** Characters beyond ASCII that [str.isspace] takes as white space. *)
Definition white_space : list Z :=
  [ 133; 160; 5760; 8192; 8193; 8194; 8195; 8196; 8197; 8198;
    8199; 8200; 8201; 8202; 8232; 8233; 8239; 8287; 12288 ].

(** The decimal digits beyond ASCII (general category Nd), as ranges that
    begin with a zero: the digit at [c] in the range from [a] has the
    value [(c - a) mod 10]. *)
Definition decimal_digits : list (Z * Z) :=
  [ (1632, 1641); (1776, 1785); (1984, 1993); (2406, 2415); (2534, 2543); (2662, 2671);
    (2790, 2799); (2918, 2927); (3046, 3055); (3174, 3183); (3302, 3311); (3430, 3439);
    (3558, 3567); (3664, 3673); (3792, 3801); (3872, 3881); (4160, 4169); (4240, 4249);
    (6112, 6121); (6160, 6169); (6470, 6479); (6608, 6617); (6784, 6793); (6800, 6809);
    (6992, 7001); (7088, 7097); (7232, 7241); (7248, 7257); (42528, 42537); (43216, 43225);
    (43264, 43273); (43472, 43481); (43504, 43513); (43600, 43609); (44016, 44025); (65296, 65305);
    (66720, 66729); (68912, 68921); (69734, 69743); (69872, 69881); (69942, 69951); (70096, 70105);
    (70384, 70393); (70736, 70745); (70864, 70873); (71248, 71257); (71360, 71369); (71472, 71481);
    (71904, 71913); (72016, 72025); (72784, 72793); (73040, 73049); (73120, 73129); (92768, 92777);
    (92864, 92873); (93008, 93017); (120782, 120831); (123200, 123209); (123632, 123641); (125264, 125273);
    (130032, 130041) ].

(** The characters beyond ASCII that [str.isprintable] refuses (general
    categories Cc, Cf, Cs, Co, Cn, Zl, Zp and Zs), as ranges. *)
Definition not_printable : list (Z * Z) :=
  [ (128, 160); (173, 173); (888, 889); (896, 899); (907, 907); (909, 909);
    (930, 930); (1328, 1328); (1367, 1368); (1419, 1420); (1424, 1424); (1480, 1487);
    (1515, 1518); (1525, 1541); (1564, 1564); (1757, 1757); (1806, 1807); (1867, 1868);
    (1970, 1983); (2043, 2044); (2094, 2095); (2111, 2111); (2140, 2141); (2143, 2143);
    (2155, 2159); (2191, 2199); (2274, 2274); (2436, 2436); (2445, 2446); (2449, 2450);
    (2473, 2473); (2481, 2481); (2483, 2485); (2490, 2491); (2501, 2502); (2505, 2506);
    (2511, 2518); (2520, 2523); (2526, 2526); (2532, 2533); (2559, 2560); (2564, 2564);
    (2571, 2574); (2577, 2578); (2601, 2601); (2609, 2609); (2612, 2612); (2615, 2615);
    (2618, 2619); (2621, 2621); (2627, 2630); (2633, 2634); (2638, 2640); (2642, 2648);
    (2653, 2653); (2655, 2661); (2679, 2688); (2692, 2692); (2702, 2702); (2706, 2706);
    (2729, 2729); (2737, 2737); (2740, 2740); (2746, 2747); (2758, 2758); (2762, 2762);
    (2766, 2767); (2769, 2783); (2788, 2789); (2802, 2808); (2816, 2816); (2820, 2820);
    (2829, 2830); (2833, 2834); (2857, 2857); (2865, 2865); (2868, 2868); (2874, 2875);
    (2885, 2886); (2889, 2890); (2894, 2900); (2904, 2907); (2910, 2910); (2916, 2917);
    (2936, 2945); (2948, 2948); (2955, 2957); (2961, 2961); (2966, 2968); (2971, 2971);
    (2973, 2973); (2976, 2978); (2981, 2983); (2987, 2989); (3002, 3005); (3011, 3013);
    (3017, 3017); (3022, 3023); (3025, 3030); (3032, 3045); (3067, 3071); (3085, 3085);
    (3089, 3089); (3113, 3113); (3130, 3131); (3141, 3141); (3145, 3145); (3150, 3156);
    (3159, 3159); (3163, 3164); (3166, 3167); (3172, 3173); (3184, 3190); (3213, 3213);
    (3217, 3217); (3241, 3241); (3252, 3252); (3258, 3259); (3269, 3269); (3273, 3273);
    (3278, 3284); (3287, 3292); (3295, 3295); (3300, 3301); (3312, 3312); (3315, 3327);
    (3341, 3341); (3345, 3345); (3397, 3397); (3401, 3401); (3408, 3411); (3428, 3429);
    (3456, 3456); (3460, 3460); (3479, 3481); (3506, 3506); (3516, 3516); (3518, 3519);
    (3527, 3529); (3531, 3534); (3541, 3541); (3543, 3543); (3552, 3557); (3568, 3569);
    (3573, 3584); (3643, 3646); (3676, 3712); (3715, 3715); (3717, 3717); (3723, 3723);
    (3748, 3748); (3750, 3750); (3774, 3775); (3781, 3781); (3783, 3783); (3790, 3791);
    (3802, 3803); (3808, 3839); (3912, 3912); (3949, 3952); (3992, 3992); (4029, 4029);
    (4045, 4045); (4059, 4095); (4294, 4294); (4296, 4300); (4302, 4303); (4681, 4681);
    (4686, 4687); (4695, 4695); (4697, 4697); (4702, 4703); (4745, 4745); (4750, 4751);
    (4785, 4785); (4790, 4791); (4799, 4799); (4801, 4801); (4806, 4807); (4823, 4823);
    (4881, 4881); (4886, 4887); (4955, 4956); (4989, 4991); (5018, 5023); (5110, 5111);
    (5118, 5119); (5760, 5760); (5789, 5791); (5881, 5887); (5910, 5918); (5943, 5951);
    (5972, 5983); (5997, 5997); (6001, 6001); (6004, 6015); (6110, 6111); (6122, 6127);
    (6138, 6143); (6158, 6158); (6170, 6175); (6265, 6271); (6315, 6319); (6390, 6399);
    (6431, 6431); (6444, 6447); (6460, 6463); (6465, 6467); (6510, 6511); (6517, 6527);
    (6572, 6575); (6602, 6607); (6619, 6621); (6684, 6685); (6751, 6751); (6781, 6782);
    (6794, 6799); (6810, 6815); (6830, 6831); (6863, 6911); (6989, 6991); (7039, 7039);
    (7156, 7163); (7224, 7226); (7242, 7244); (7305, 7311); (7355, 7356); (7368, 7375);
    (7419, 7423); (7958, 7959); (7966, 7967); (8006, 8007); (8014, 8015); (8024, 8024);
    (8026, 8026); (8028, 8028); (8030, 8030); (8062, 8063); (8117, 8117); (8133, 8133);
    (8148, 8149); (8156, 8156); (8176, 8177); (8181, 8181); (8191, 8207); (8232, 8239);
    (8287, 8303); (8306, 8307); (8335, 8335); (8349, 8351); (8385, 8399); (8433, 8447);
    (8588, 8591); (9255, 9279); (9291, 9311); (11124, 11125); (11158, 11158); (11508, 11512);
    (11558, 11558); (11560, 11564); (11566, 11567); (11624, 11630); (11633, 11646); (11671, 11679);
    (11687, 11687); (11695, 11695); (11703, 11703); (11711, 11711); (11719, 11719); (11727, 11727);
    (11735, 11735); (11743, 11743); (11870, 11903); (11930, 11930); (12020, 12031); (12246, 12271);
    (12284, 12288); (12352, 12352); (12439, 12440); (12544, 12548); (12592, 12592); (12687, 12687);
    (12772, 12783); (12831, 12831); (42125, 42127); (42183, 42191); (42540, 42559); (42744, 42751);
    (42955, 42959); (42962, 42962); (42964, 42964); (42970, 42993); (43053, 43055); (43066, 43071);
    (43128, 43135); (43206, 43213); (43226, 43231); (43348, 43358); (43389, 43391); (43470, 43470);
    (43482, 43485); (43519, 43519); (43575, 43583); (43598, 43599); (43610, 43611); (43715, 43738);
    (43767, 43776); (43783, 43784); (43791, 43792); (43799, 43807); (43815, 43815); (43823, 43823);
    (43884, 43887); (44014, 44015); (44026, 44031); (55204, 55215); (55239, 55242); (55292, 63743);
    (64110, 64111); (64218, 64255); (64263, 64274); (64280, 64284); (64311, 64311); (64317, 64317);
    (64319, 64319); (64322, 64322); (64325, 64325); (64451, 64466); (64912, 64913); (64968, 64974);
    (64976, 65007); (65050, 65055); (65107, 65107); (65127, 65127); (65132, 65135); (65141, 65141);
    (65277, 65280); (65471, 65473); (65480, 65481); (65488, 65489); (65496, 65497); (65501, 65503);
    (65511, 65511); (65519, 65531); (65534, 65535); (65548, 65548); (65575, 65575); (65595, 65595);
    (65598, 65598); (65614, 65615); (65630, 65663); (65787, 65791); (65795, 65798); (65844, 65846);
    (65935, 65935); (65949, 65951); (65953, 65999); (66046, 66175); (66205, 66207); (66257, 66271);
    (66300, 66303); (66340, 66348); (66379, 66383); (66427, 66431); (66462, 66462); (66500, 66503);
    (66518, 66559); (66718, 66719); (66730, 66735); (66772, 66775); (66812, 66815); (66856, 66863);
    (66916, 66926); (66939, 66939); (66955, 66955); (66963, 66963); (66966, 66966); (66978, 66978);
    (66994, 66994); (67002, 67002); (67005, 67071); (67383, 67391); (67414, 67423); (67432, 67455);
    (67462, 67462); (67505, 67505); (67515, 67583); (67590, 67591); (67593, 67593); (67638, 67638);
    (67641, 67643); (67645, 67646); (67670, 67670); (67743, 67750); (67760, 67807); (67827, 67827);
    (67830, 67834); (67868, 67870); (67898, 67902); (67904, 67967); (68024, 68027); (68048, 68049);
    (68100, 68100); (68103, 68107); (68116, 68116); (68120, 68120); (68150, 68151); (68155, 68158);
    (68169, 68175); (68185, 68191); (68256, 68287); (68327, 68330); (68343, 68351); (68406, 68408);
    (68438, 68439); (68467, 68471); (68498, 68504); (68509, 68520); (68528, 68607); (68681, 68735);
    (68787, 68799); (68851, 68857); (68904, 68911); (68922, 69215); (69247, 69247); (69290, 69290);
    (69294, 69295); (69298, 69375); (69416, 69423); (69466, 69487); (69514, 69551); (69580, 69599);
    (69623, 69631); (69710, 69713); (69750, 69758); (69821, 69821); (69827, 69839); (69865, 69871);
    (69882, 69887); (69941, 69941); (69960, 69967); (70007, 70015); (70112, 70112); (70133, 70143);
    (70162, 70162); (70207, 70271); (70279, 70279); (70281, 70281); (70286, 70286); (70302, 70302);
    (70314, 70319); (70379, 70383); (70394, 70399); (70404, 70404); (70413, 70414); (70417, 70418);
    (70441, 70441); (70449, 70449); (70452, 70452); (70458, 70458); (70469, 70470); (70473, 70474);
    (70478, 70479); (70481, 70486); (70488, 70492); (70500, 70501); (70509, 70511); (70517, 70655);
    (70748, 70748); (70754, 70783); (70856, 70863); (70874, 71039); (71094, 71095); (71134, 71167);
    (71237, 71247); (71258, 71263); (71277, 71295); (71354, 71359); (71370, 71423); (71451, 71452);
    (71468, 71471); (71495, 71679); (71740, 71839); (71923, 71934); (71943, 71944); (71946, 71947);
    (71956, 71956); (71959, 71959); (71990, 71990); (71993, 71994); (72007, 72015); (72026, 72095);
    (72104, 72105); (72152, 72153); (72165, 72191); (72264, 72271); (72355, 72367); (72441, 72703);
    (72713, 72713); (72759, 72759); (72774, 72783); (72813, 72815); (72848, 72849); (72872, 72872);
    (72887, 72959); (72967, 72967); (72970, 72970); (73015, 73017); (73019, 73019); (73022, 73022);
    (73032, 73039); (73050, 73055); (73062, 73062); (73065, 73065); (73103, 73103); (73106, 73106);
    (73113, 73119); (73130, 73439); (73465, 73647); (73649, 73663); (73714, 73726); (74650, 74751);
    (74863, 74863); (74869, 74879); (75076, 77711); (77811, 77823); (78895, 82943); (83527, 92159);
    (92729, 92735); (92767, 92767); (92778, 92781); (92863, 92863); (92874, 92879); (92910, 92911);
    (92918, 92927); (92998, 93007); (93018, 93018); (93026, 93026); (93048, 93052); (93072, 93759);
    (93851, 93951); (94027, 94030); (94088, 94094); (94112, 94175); (94181, 94191); (94194, 94207);
    (100344, 100351); (101590, 101631); (101641, 110575); (110580, 110580); (110588, 110588); (110591, 110591);
    (110883, 110927); (110931, 110947); (110952, 110959); (111356, 113663); (113771, 113775); (113789, 113791);
    (113801, 113807); (113818, 113819); (113824, 118527); (118574, 118575); (118599, 118607); (118724, 118783);
    (119030, 119039); (119079, 119080); (119155, 119162); (119275, 119295); (119366, 119519); (119540, 119551);
    (119639, 119647); (119673, 119807); (119893, 119893); (119965, 119965); (119968, 119969); (119971, 119972);
    (119975, 119976); (119981, 119981); (119994, 119994); (119996, 119996); (120004, 120004); (120070, 120070);
    (120075, 120076); (120085, 120085); (120093, 120093); (120122, 120122); (120127, 120127); (120133, 120133);
    (120135, 120137); (120145, 120145); (120486, 120487); (120780, 120781); (121484, 121498); (121504, 121504);
    (121520, 122623); (122655, 122879); (122887, 122887); (122905, 122906); (122914, 122914); (122917, 122917);
    (122923, 123135); (123181, 123183); (123198, 123199); (123210, 123213); (123216, 123535); (123567, 123583);
    (123642, 123646); (123648, 124895); (124903, 124903); (124908, 124908); (124911, 124911); (124927, 124927);
    (125125, 125126); (125143, 125183); (125260, 125263); (125274, 125277); (125280, 126064); (126133, 126208);
    (126270, 126463); (126468, 126468); (126496, 126496); (126499, 126499); (126501, 126502); (126504, 126504);
    (126515, 126515); (126520, 126520); (126522, 126522); (126524, 126529); (126531, 126534); (126536, 126536);
    (126538, 126538); (126540, 126540); (126544, 126544); (126547, 126547); (126549, 126550); (126552, 126552);
    (126554, 126554); (126556, 126556); (126558, 126558); (126560, 126560); (126563, 126563); (126565, 126566);
    (126571, 126571); (126579, 126579); (126584, 126584); (126589, 126589); (126591, 126591); (126602, 126602);
    (126620, 126624); (126628, 126628); (126634, 126634); (126652, 126703); (126706, 126975); (127020, 127023);
    (127124, 127135); (127151, 127152); (127168, 127168); (127184, 127184); (127222, 127231); (127406, 127461);
    (127491, 127503); (127548, 127551); (127561, 127567); (127570, 127583); (127590, 127743); (128728, 128732);
    (128749, 128751); (128765, 128767); (128884, 128895); (128985, 128991); (129004, 129007); (129009, 129023);
    (129036, 129039); (129096, 129103); (129114, 129119); (129160, 129167); (129198, 129199); (129202, 129279);
    (129620, 129631); (129646, 129647); (129653, 129655); (129661, 129663); (129671, 129679); (129709, 129711);
    (129723, 129727); (129734, 129743); (129754, 129759); (129768, 129775); (129783, 129791); (129939, 129939);
    (129995, 130031); (130042, 131071); (173792, 173823); (177977, 177983); (178206, 178207); (183970, 183983);
    (191457, 194559); (195102, 196607); (201547, 917759); (918000, 1114111) ].

(** [Py_UNICODE_ISSPACE], [Py_UNICODE_TODECIMAL] and
    [Py_UNICODE_ISPRINTABLE] on a character beyond ASCII. *)
Definition isspace (c : Z) : bool := existsb (Z.eqb c) white_space.

Definition todecimal (c : Z) : option Z :=
  match find (fun r => (fst r <=? c) && (c <=? snd r)) decimal_digits with
  | Some r => Some ((c - fst r) mod 10)
  | None => None
  end.

Definition isprintable (c : Z) : bool := negb (in_ranges c not_printable).

End Unicode.

Definition hex_digit (n : Z) : string :=
  substring (Z.to_nat n) 1 "0123456789abcdef".

(** [n] in [width] hexadecimal digits, one character each. *)
Fixpoint hex (width : nat) (n : Z) : list string :=
  match width with
  | O => []
  | S w => (hex w (n / 16) ++ [hex_digit (n mod 16)])%list
  end.

Definition backslash : string := String (ascii_of_nat 92) "".

(** What [repr] writes for one character of a [str], between quotes of
    code point [quote]. *)
Definition repr_char (quote : Z) (ch : Z * string) : list string :=
  let '(c, text) := ch in
  if (c =? quote) || (c =? 92) then [backslash; text]
  else if c =? 9 then [backslash; "t"]
  else if c =? 10 then [backslash; "n"]
  else if c =? 13 then [backslash; "r"]
  else if (c <? 32) || (c =? 127) then (backslash :: "x" :: hex 2 c)%list
  else if c <? 127 then [text]
  else if Unicode.isprintable c then [text]
  else if c <=? 255 then (backslash :: "x" :: hex 2 c)%list
  else if c <=? 65535 then (backslash :: "u" :: hex 4 c)%list
  else (backslash :: "U" :: hex 8 c)%list.

(** The characters of [repr(s)] for a [str]: double quotes when the text
    has an apostrophe and no double quote, apostrophes otherwise. *)
Definition repr_chars (s : string) : list string :=
  let cs := Unicode.chars s in
  let quote :=
    if existsb (fun ch => fst ch =? 39) cs
       && negb (existsb (fun ch => fst ch =? 34) cs)
    then 34 else 39 in
  let q := String (ascii_of_nat (Z.to_nat quote)) "" in
  ([q] ++ flat_map (repr_char quote) cs ++ [q])%list.

(** [repr(s)] for a [str]. *)
Definition repr_str (s : string) : string := concat "" (repr_chars s).

(** [%.200R] in an error format: the first 200 characters of [repr(s)]. *)
Definition repr_200 (s : string) : string :=
  concat "" (firstn 200 (repr_chars s)).

(** [str(e)], as the f-string of [get_video_metadata] renders it. *)
Definition exn_str (e : exn) : string :=
  match e with
  | CalledProcessError msg _ => msg
  | KeyError key => repr_str key
  | TypeError msg | ValueError msg | AttributeError msg
  | ZeroDivisionError msg | OverflowError msg | OtherException msg => msg
  end.

Definition is_CalledProcessError (e : exn) : bool :=
  match e with
  | CalledProcessError _ _ => true
  | _ => false
  end.

(** ** Integers as text *)

(** [str(n)] for an [int]. *)
Definition str_int (n : Z) : string := NilZero.string_of_int (Z.to_int n).

(** ** Binary64 floats

    Python's [float] is IEEE 754 binary64: the Standard Library's
    [spec_float] at precision 53 and maximal exponent 1024.  The floats
    the worker stores and compares are canonical (they come out of
    [binary_round_aux]), which is what [SFcompare] expects. *)
Module Float.

Definition prec : Z := 53.
Definition emax : Z := 1024.

Definition float : Type := spec_float.

(** An integer with its exact value, whatever its size, as the operand of
    a division that rounds once. *)
Definition exact (z : Z) : float :=
  match z with
  | Z0 => S754_zero false
  | Zpos p => S754_finite false p 0
  | Zneg p => S754_finite true p 0
  end.

(** [float(z)], and the binary literal [m * 2**e]. *)
Definition of_int (z : Z) : float := binary_normalize prec emax z 0 false.
Definition lit (m e : Z) : float := binary_normalize prec emax m e false.

Definition is_zero (x : float) : bool :=
  match x with
  | S754_zero _ => true
  | _ => false
  end.

(** [a / b] on two [int]s: the exact quotient rounded once to nearest
    even; ZeroDivisionError on a zero divisor, OverflowError when the
    quotient does not fit. *)
Definition quot (a b : Z) : float := SFdiv prec emax (exact a) (exact b).

Definition int_truediv (a b : Z) : result float :=
  if b =? 0 then Raise (ZeroDivisionError "division by zero")
  else match quot a b with
       | S754_infinity _ =>
           Raise (OverflowError "integer division result too large for a float")
       | q => Return q
       end.

(** [x / y] and [x * y] on [float]s. *)
Definition div (x y : float) : result float :=
  if is_zero y then Raise (ZeroDivisionError "float division by zero")
  else Return (SFdiv prec emax x y).

Definition mul (x y : float) : float := SFmul prec emax x y.

(** [x >= y] and [x > y]. *)
Definition ge (x y : float) : bool := SFleb y x.
Definition gt (x y : float) : bool := SFltb y x.

(** [int(x)]: truncation toward zero. *)
Definition to_int (x : float) : result Z :=
  match x with
  | S754_zero _ => Return 0
  | S754_finite s m e =>
      let a := Z.shiftl (Zpos m) e in
      Return (if s then - a else a)
  | S754_infinity _ =>
      Raise (OverflowError "cannot convert float infinity to integer")
  | S754_nan => Raise (ValueError "cannot convert float NaN to integer")
  end.

(** *** [repr(x)]

    The shortest decimal string that reads back as [x] (the closest to [x]
    among the shortest), laid out as CPython does: fixed notation while the
    decimal point falls within [-4 < decpt <= 16], exponent notation
    otherwise, and a trailing [.0] on integral values. *)

Definition rne_div (a b : Z) : Z :=
  let q := a / b in
  match 2 * (a mod b) ?= b with
  | Lt => q
  | Eq => if Z.even q then q else q + 1
  | Gt => q + 1
  end.

(** The float nearest to the decimal [D * 10**q]. *)
Definition of_decimal (D q : Z) : float :=
  if 0 <=? q then of_int (D * 10 ^ q) else quot D (10 ^ (- q)).

(** The decimal exponent [k] of a positive rational: [10^k <= n/d < 10^(k+1)]. *)
Fixpoint dec_exp_up (fuel : nat) (n d k : Z) : Z :=
  match fuel with
  | O => k
  | S f => if d * 10 ^ (k + 1) <=? n then dec_exp_up f n d (k + 1) else k
  end.

Fixpoint dec_exp_down (fuel : nat) (n d k : Z) : Z :=
  match fuel with
  | O => k
  | S f => if n * 10 ^ (- k) <? d then dec_exp_down f n d (k - 1) else k
  end.

Definition dec_exp (n d : Z) : Z :=
  let fuel := Z.to_nat (Z.log2 n + Z.log2 d + 2) in
  if d <=? n then dec_exp_up fuel n d 0 else dec_exp_down fuel n d (-1).

(** The digits [D] and exponent [q] of the shortest decimal [D * 10**q]
    with at least [nd] digits that reads back as [x = n/d]. *)
Fixpoint shortest (fuel : nat) (nd : Z) (x : float) (n d k : Z) : Z * Z :=
  let q := k - nd + 1 in
  let '(a, b) := if 0 <=? q then (n, d * 10 ^ q) else (n * 10 ^ (- q), d) in
  let near := rne_div a b in
  let other := if near =? a / b then a / b + 1 else a / b in
  if SFeqb (of_decimal near q) x then (near, q)
  else if SFeqb (of_decimal other q) x then (other, q)
  else match fuel with
       | O => (near, q)
       | S f => shortest f (nd + 1) x n d k
       end.

Fixpoint strip_zeros (fuel : nat) (D q : Z) : Z * Z :=
  match fuel with
  | O => (D, q)
  | S f => if (D mod 10 =? 0) && (0 <? D) then strip_zeros f (D / 10) (q + 1)
           else (D, q)
  end.

Fixpoint zeros (n : nat) : string :=
  match n with
  | O => ""
  | S n' => "0" ++ zeros n'
  end.

Definition layout (digits : string) (decpt : Z) : string :=
  let len := Z.of_nat (String.length digits) in
  if (decpt <=? -4) || (16 <? decpt) then
    let e := decpt - 1 in
    let mant := match digits with
                | String c "" => String c ""
                | String c rest => String c ("." ++ rest)
                | "" => ""
                end in
    let ee := str_int (Z.abs e) in
    mant ++ "e" ++ (if e <? 0 then "-" else "+")
         ++ (if Z.abs e <? 10 then "0" else "") ++ ee
  else if decpt <=? 0 then "0." ++ zeros (Z.to_nat (- decpt)) ++ digits
  else if decpt <? len then
    substring 0 (Z.to_nat decpt) digits ++ "."
      ++ substring (Z.to_nat decpt) (Z.to_nat (len - decpt)) digits
  else digits ++ zeros (Z.to_nat (decpt - len)) ++ ".0".

Definition repr (x : float) : string :=
  match x with
  | S754_zero s => if s then "-0.0" else "0.0"
  | S754_infinity s => if s then "-inf" else "inf"
  | S754_nan => "nan"
  | S754_finite s m e =>
      let '(n, d) := if 0 <=? e then (Zpos m * 2 ^ e, 1) else (Zpos m, 2 ^ (- e)) in
      let '(D0, q0) := shortest 16 1 (S754_finite false m e) n d (dec_exp n d) in
      let '(D, q) := strip_zeros 20 D0 q0 in
      let digits := str_int D in
      (if s then "-" else "")
        ++ layout digits (Z.of_nat (String.length digits) + q)
  end.

End Float.

(** ** Paths (posixpath) *)

Fixpoint basename_from (acc p : string) : string :=
  match p with
  | "" => acc
  | String c p' =>
      if (c =? "/")%char then basename_from "" p'
      else basename_from (acc ++ String c "") p'
  end.

(** [os.path.basename(p)]: what follows the last slash. *)
Definition basename (p : string) : string := basename_from "" p.

(** [p.rfind(c)]: the last index of [c] in [p], or -1. *)
Fixpoint rfind_from (c : ascii) (p : string) (i last : Z) : Z :=
  match p with
  | "" => last
  | String c' p' => rfind_from c p' (i + 1) (if (c' =? c)%char then i else last)
  end.

Definition rfind (c : ascii) (p : string) : Z := rfind_from c p 0 (-1).

(** The loop of [genericpath._splitext] that skips the leading dots of the
    file name: is there a character other than a dot in
    [p[filenameIndex:dotIndex]]? *)
Fixpoint has_stem (fuel : nat) (p : string) (filenameIndex dotIndex : Z) : bool :=
  match fuel with
  | O => false
  | S f =>
      if filenameIndex <? dotIndex then
        if (substring (Z.to_nat filenameIndex) 1 p =? ".")%string then
          has_stem f p (filenameIndex + 1) dotIndex
        else true
      else false
  end.

(** [os.path.splitext(p)]. *)
Definition splitext (p : string) : string * string :=
  let sepIndex := rfind "/" p in
  let dotIndex := rfind "." p in
  if (sepIndex <? dotIndex) && has_stem (String.length p) p (sepIndex + 1) dotIndex
  then (substring 0 (Z.to_nat dotIndex) p,
        substring (Z.to_nat dotIndex) (String.length p - Z.to_nat dotIndex)%nat p)
  else (p, "").

(** [os.devnull] on a POSIX system. *)
Definition os_devnull : string := "/dev/null".

(** ** JSON documents, as [json.loads] returns them *)

#[local] Set Warnings "-register-all".
Inductive json : Type :=
| JNull
| JBool (b : bool)
| JInt (n : Z)
| JFloat (x : Float.float)
| JStr (s : string)
| JList (items : list json)
| JDict (members : list (string * json)).

(** A dict is listed in the order of the document; where a key is repeated
    the last member wins, as in [json.loads]. *)
Fixpoint dict_find {A : Type} (key : string) (members : list (string * A)) : option A :=
  match members with
  | [] => None
  | (k, v) :: rest =>
      match dict_find key rest with
      | Some v' => Some v'
      | None => if (k =? key)%string then Some v else None
      end
  end.

Definition type_name (v : json) : string :=
  match v with
  | JNull => "NoneType"
  | JBool _ => "bool"
  | JInt _ => "int"
  | JFloat _ => "float"
  | JStr _ => "str"
  | JList _ => "list"
  | JDict _ => "dict"
  end.

(** [v[key]] with a [str] key. *)
Definition subscript (v : json) (key : string) : result json :=
  match v with
  | JDict members =>
      match dict_find key members with
      | Some x => Return x
      | None => Raise (KeyError key)
      end
  | JList _ => Raise (TypeError "list indices must be integers or slices, not str")
  | JStr _ => Raise (TypeError "string indices must be integers, not 'str'")
  | _ => Raise (TypeError ("'" ++ type_name v ++ "' object is not subscriptable"))
  end.

(** [v.get(key, default)]. *)
Definition get (v : json) (key : string) (default : json) : result json :=
  match v with
  | JDict members =>
      match dict_find key members with
      | Some x => Return x
      | None => Return default
      end
  | _ => Raise (AttributeError
                  ("'" ++ type_name v ++ "' object has no attribute 'get'"))
  end.

(** The characters of a [str], each a [str] of its own. *)
Definition chars (s : string) : list json :=
  map (fun ch => JStr (snd ch)) (Unicode.chars s).

(** The items a [for] loop over [v] visits. *)
Definition iterate (v : json) : result (list json) :=
  match v with
  | JList items => Return items
  | JDict members => Return (map (fun kv => JStr (fst kv)) members)
  | JStr s => Return (chars s)
  | _ => Raise (TypeError ("'" ++ type_name v ++ "' object is not iterable"))
  end.

(** *** [int(v)] *)

(** [Py_ISSPACE]: the white space of C. *)
Definition is_space (c : Z) : bool :=
  (c =? 32) || ((9 <=? c) && (c <=? 13)).

Definition is_digit (c : Z) : bool := (48 <=? c) && (c <=? 57).

(** [_PyUnicode_TransformDecimalAndSpaceToASCII] on a text that is not all
    ASCII: a space for a character that is white space, the ASCII digit
    for a decimal digit, and a question mark, with nothing after it, for
    the first character that is neither. *)
Fixpoint transform (cs : list Z) : list Z :=
  match cs with
  | [] => []
  | c :: rest =>
      if c <? 127 then c :: transform rest
      else if Unicode.isspace c then 32 :: transform rest
      else
        match Unicode.todecimal c with
        | Some d => (48 + d) :: transform rest
        | None => [63]
        end
  end.

Definition to_ascii (cs : list Z) : list Z :=
  if forallb (fun c => c <? 128) cs then cs else transform cs.

Fixpoint skip_space (cs : list Z) : list Z :=
  match cs with
  | c :: rest => if is_space c then skip_space rest else cs
  | [] => []
  end.

(** The scan of [PyLong_FromString] over digits and underscores: the
    number of digits, their value and what follows them; nothing when two
    underscores meet or an underscore comes last. *)
Fixpoint scan_digits (after_underscore : bool) (digits acc : Z) (cs : list Z)
  : option (Z * Z * list Z) :=
  match cs with
  | c :: rest =>
      if is_digit c then scan_digits false (digits + 1) (10 * acc + (c - 48)) rest
      else if c =? 95 then
        if after_underscore then None else scan_digits true digits acc rest
      else if after_underscore then None else Some (digits, acc, cs)
  | [] => if after_underscore then None else Some (digits, acc, [])
  end.

(** An optional sign before the digits. *)
Definition sign_and_digits (body : list Z) : bool * list Z :=
  match body with
  | 45 :: rest => (true, rest)
  | 43 :: rest => (false, rest)
  | _ => (false, body)
  end.

Definition leads_with_underscore (body : list Z) : bool :=
  match body with
  | 95 :: _ => true
  | _ => false
  end.

(** [sys.get_int_max_str_digits()], as the interpreter starts. *)
Definition int_max_str_digits : Z := 4300.

(** [int(s)] on a [str], in CPython 3.11: white space, an optional sign,
    decimal digits that single underscores may separate, white space.
    The limit on the number of digits is checked before what follows the
    digits is looked at. *)
Definition int_of_str (s : string) : result Z :=
  let invalid :=
    Raise (ValueError ("invalid literal for int() with base 10: " ++ repr_200 s)) in
  let '(negative, body) :=
    sign_and_digits (skip_space (to_ascii (Unicode.codepoints s))) in
  if leads_with_underscore body then invalid
  else
    match scan_digits false 0 0 body with
    | None => invalid
    | Some (digits, value, rest) =>
        if int_max_str_digits <? digits then
          Raise (ValueError
                   ("Exceeds the limit (" ++ str_int int_max_str_digits
                      ++ " digits) for integer string conversion: value has "
                      ++ str_int digits
                      ++ " digits; use sys.set_int_max_str_digits() to increase the limit"))
        else if digits =? 0 then invalid
        else
          match skip_space rest with
          | [] => Return (if negative then - value else value)
          | _ => invalid
          end
    end.

Definition int (v : json) : result Z :=
  match v with
  | JInt n => Return n
  | JBool b => Return (if b then 1 else 0)
  | JFloat x => Float.to_int x
  | JStr s => int_of_str s
  | _ => Raise (TypeError
                  ("int() argument must be a string, a bytes-like object or a real number, not '"
                     ++ type_name v ++ "'"))
  end.

Definition is_video (kind : json) : bool :=
  match kind with
  | JStr s => (s =? "video")%string
  | _ => false
  end.

(** ** ConversionWorker.get_video_metadata *)

Record metadata : Type := { width : Z; height : Z; rotation : Z }.

Definition nl : string := String "010"%char "".

Definition ffprobe_cmd (file_path : string) : list string :=
  ["ffprobe"; "-v"; "quiet"; "-print_format"; "json"; "-show_streams"; file_path].

(** [next((s for s in streams if s['codec_type'] == 'video'), None)]. *)
Fixpoint first_video (streams : list json) : result (option json) :=
  match streams with
  | [] => Return None
  | s :: rest =>
      kind <- subscript s "codec_type" ;;
      if is_video kind then Return (Some s) else first_video rest
  end.

(** The body of the [try].  [ffprobe] is what lines 49-50 produce: the
    document [json.loads] reads from the tool's output, or the exception
    [subprocess.run(..., check=True)] or [json.loads] raises.  A stream
    that [first_video] returns is a dict with a [codec_type] member, so
    [not video_stream] holds for [None] only. *)
Definition probe (ffprobe : result json) : result (option metadata * option string) :=
  doc <- ffprobe ;;
  streams <- subscript doc "streams" ;;
  items <- iterate streams ;;
  video_stream <- first_video items ;;
  match video_stream with
  | None => Return (None, Some "No video stream found.")
  | Some vs =>
      w <- subscript vs "width" ;;
      width <- int w ;;
      h <- subscript vs "height" ;;
      height <- int h ;;
      tags <- get vs "tags" (JDict []) ;;
      rotate <- get tags "rotate" (JInt 0) ;;
      rotation <- int rotate ;;
      Return (Some {| width := width; height := height; rotation := rotation |},
              None)
  end.

Definition error_detail (file_path : string) (e : exn) : string :=
  let detail := "Failed to get video metadata for " ++ basename file_path
                  ++ "." ++ nl ++ nl ++ "Error: " ++ exn_str e in
  match e with
  | CalledProcessError _ stderr =>
      detail ++ nl ++ nl ++ "FFprobe Output:" ++ nl ++ stderr
  | _ => detail
  end.

Definition get_video_metadata (file_path : string) (ffprobe : result json)
  : option metadata * option string :=
  match probe ffprobe with
  | Return r => r
  | Raise e => (None, Some (error_detail file_path e))
  end.

(** ** ConversionWorker.run *)

(** What the worker does that others can see: the processes it starts, the
    signals it emits, the files it removes. *)
Inductive event : Type :=
| subprocess_run (command : list string)
| update_status (file_path status : string)
| update_progress (progress : Z)
| show_error (title message : string)
| os_remove (f : string)
| finished.

(** What the rest of the system answers while one file is processed: the
    flag [self.is_running] as the iteration reads it, the outcome of the
    three child processes ([Return tt] is exit status 0), and which of the
    statistics files exist. *)
Record world : Type := {
  is_running : bool;
  ffprobe_reply : result json;
  pass1_reply : result unit;
  pass2_reply : result unit;
  path_exists : string -> bool
}.

Definition ratio_map : list (string * Float.float) :=
  [ ("Crop to 16:9 (Widescreen)", Float.quot 16 9);
    ("Crop to 9:16 (Tall/Story)", Float.quot 9 16);
    ("Crop to 1:1 (Square)", Float.lit 1 0);
    ("Crop to 19.5:9 (Modern Phone)",
       SFdiv Float.prec Float.emax (Float.lit 39 (-1)) (Float.of_int 9)) ].

(** Line 80. *)
Definition effective_dims (md : metadata) : Z * Z :=
  if existsb (Z.eqb (rotation md)) [90; 270]
  then (height md, width md)
  else (width md, height md).

(** Lines 82-83: the target size and the filter of the pad mode. *)
Definition pad_plan (width height : Z) : string * Z * Z :=
  let '(target_w, target_h) :=
    if width >=? height then (1280, 720) else (720, 1280) in
  let scale_filter :=
    "scale=w=" ++ str_int target_w ++ ":h=" ++ str_int target_h
      ++ ":force_original_aspect_ratio=decrease,pad=" ++ str_int target_w
      ++ ":" ++ str_int target_h ++ ":(ow-iw)/2:(oh-ih)/2:color=black" in
  (scale_filter, target_w, target_h).

(** Line 87: the target size of a crop mode. *)
Definition target_size (target_ar : Float.float) : result (Z * Z) :=
  if Float.ge target_ar (Float.of_int 1) then
    q <- Float.div (Float.of_int 1280) target_ar ;;
    h <- Float.to_int q ;;
    Return (1280, h)
  else
    w <- Float.to_int (Float.mul (Float.of_int 1280) target_ar) ;;
    Return (w, 1280).

(** Line 88. *)
Definition crop_filter (input_ar target_ar : Float.float) : string :=
  if Float.gt input_ar target_ar
  then "crop=ih*" ++ Float.repr target_ar ++ ":ih"
  else "crop=iw:iw/" ++ Float.repr target_ar.

(** Lines 81-89, on the effective dimensions: the filter and the target
    size. *)
Definition plan (selected_ratio_str : string) (dims : Z * Z)
  : result (string * Z * Z) :=
  let '(width, height) := dims in
  if (selected_ratio_str =? "Keep Original (Pad)")%string then
    Return (pad_plan width height)
  else
    target_ar <- match dict_find selected_ratio_str ratio_map with
                 | Some r => Return r
                 | None => Raise (KeyError selected_ratio_str)
                 end ;;
    input_ar <- Float.int_truediv width height ;;
    '(target_w, target_h) <- target_size target_ar ;;
    let scale_filter :=
      crop_filter input_ar target_ar
        ++ ",scale=" ++ str_int target_w ++ ":" ++ str_int target_h in
    Return (scale_filter, target_w, target_h).

(** Lines 80-89. *)
Definition geometry (selected_ratio_str : string) (md : metadata)
  : result (string * Z * Z) :=
  plan selected_ratio_str (effective_dims md).

Definition common_args (scale_filter : string) : list string :=
  [ "-vf"; scale_filter; "-c:v"; "libx264"; "-preset"; "veryslow"; "-tune"; "film";
    "-profile:v"; "high"; "-level"; "3.0"; "-b:v"; "3100k"; "-maxrate"; "3200k";
    "-bufsize"; "6400k"; "-pix_fmt"; "yuv420p"; "-r"; "60" ].

Definition first_pass_cmd (file_path scale_filter : string) : list string :=
  (["ffmpeg"; "-y"; "-i"; file_path] ++ common_args scale_filter
     ++ ["-an"; "-pass"; "1"; "-f"; "mp4"; os_devnull])%list.

Definition second_pass_cmd (file_path scale_filter output_file : string)
  : list string :=
  (["ffmpeg"; "-y"; "-i"; file_path] ++ common_args scale_filter
     ++ ["-c:a"; "aac"; "-b:a"; "128k"; "-movflags"; "+faststart"; "-pass"; "2";
         output_file])%list.

(** Line 112: [int(((i + 1) / total_files) * 100)]. *)
Definition progress_of (i total_files : Z) : result Z :=
  q <- Float.int_truediv (i + 1) total_files ;;
  Float.to_int (Float.mul q (Float.of_int 100)).

(** The [except subprocess.CalledProcessError] clause: what it emits, and
    the exception that stays pending when the clause does not match. *)
Definition handler (file_path : string) (e : exn) : list event * option exn :=
  match e with
  | CalledProcessError _ stderr =>
      ([ update_status file_path "❌ Error";
         show_error "Conversion Error"
           ("FFmpeg Error for " ++ basename file_path ++ ":" ++ nl ++ stderr) ],
       None)
  | _ => ([], Some e)
  end.

(** Lines 102-110: the two passes. *)
Definition encode (file_path scale_filter output_file : string) (w : world)
  : list event * option exn :=
  let pass1 := [ update_status file_path "🏃 Pass 1...";
                 subprocess_run (first_pass_cmd file_path scale_filter) ] in
  match pass1_reply w with
  | Raise e => let '(evs, pending) := handler file_path e in ((pass1 ++ evs)%list, pending)
  | Return _ =>
      let pass2 :=
        [ update_status file_path "🏁 Pass 2...";
          subprocess_run (second_pass_cmd file_path scale_filter output_file) ] in
      match pass2_reply w with
      | Raise e =>
          let '(evs, pending) := handler file_path e in
          ((pass1 ++ pass2 ++ evs)%list, pending)
      | Return _ =>
          ((pass1 ++ pass2 ++ [update_status file_path "✅ Done"])%list, None)
      end
  end.

(** Lines 111-117: the [finally] clause.  [os.remove] failing with OSError
    is passed over, so a removal shows as the attempt. *)
Definition cleanup (w : world) : list event :=
  flat_map (fun f => if path_exists w f then [os_remove f] else [])
    ["ffmpeg2pass-0.log"; "ffmpeg2pass-0.log.mbtree"].

Definition finally (i total_files : Z) (w : world) (pending : option exn)
  : list event * option exn :=
  match progress_of i total_files with
  | Return progress => (update_progress progress :: cleanup w, pending)
  | Raise e => ([], Some e)
  end.

(** [if error:] on a value that is [None] or a [str]. *)
Definition truthy (error : option string) : bool :=
  match error with
  | Some s => negb (s =? "")%string
  | None => false
  end.

(** One iteration of the loop, lines 71-117, for the file of index [i]:
    the events it produces and the exception that leaves it, if any. *)
Definition process_file (selected_ratio_str : string) (total_files i : Z)
    (file_path : string) (w : world) : list event * option exn :=
  let '(base, _) := splitext file_path in
  let output_file := base ++ "_whatsapp.mp4" in
  let analyzing := [ update_status file_path "⚙️ Analyzing...";
                     subprocess_run (ffprobe_cmd file_path) ] in
  let '(metadata, error) := get_video_metadata file_path (ffprobe_reply w) in
  if truthy error then
    ((analyzing ++
        [ update_status file_path "❌ Analyze Failed";
          show_error "Analysis Error"
            (match error with Some s => s | None => "" end) ])%list,
     None)
  else
    match metadata with
    | None => (analyzing, Some (TypeError "'NoneType' object is not subscriptable"))
    | Some md =>
        match geometry selected_ratio_str md with
        | Raise e => (analyzing, Some e)
        | Return (scale_filter, _, _) =>
            let '(passes, pending) :=
              encode file_path scale_filter output_file w in
            let '(last, out) := finally i total_files w pending in
            ((analyzing ++ passes ++ last)%list, out)
        end
    end.

(** The [for] loop from index [i] on; [env k] is the world while the file
    of index [k] is processed. *)
Fixpoint run_from (selected_ratio_str : string) (total_files : Z)
    (env : nat -> world) (i : nat) (files : list string)
  : list event * option exn :=
  match files with
  | [] => ([], None)
  | file_path :: rest =>
      if negb (is_running (env i)) then ([], None)
      else
        let '(evs, out) :=
          process_file selected_ratio_str total_files (Z.of_nat i) file_path (env i) in
        match out with
        | Some e => (evs, Some e)
        | None =>
            let '(evs', out') :=
              run_from selected_ratio_str total_files env (S i) rest in
            ((evs ++ evs')%list, out')
        end
  end.

Record ConversionWorker : Type := {
  files_to_process : list string;
  selected_ratio_str : string
}.

(** [run]: the events in order, and the exception that ends the thread if
    one leaves the loop ([None] when [run] returns). *)
Definition run (self : ConversionWorker) (env : nat -> world)
  : list event * option exn :=
  let total_files := Z.of_nat (List.length (files_to_process self)) in
  let '(evs, out) :=
    run_from (selected_ratio_str self) total_files env 0 (files_to_process self) in
  match out with
  | Some e => (evs, Some e)
  | None => ((evs ++ [finished])%list, None)
  end.

(** ** DropZoneTree *)

(** A row of the tree: the texts of its two columns, the path stored under
    [UserRole] in column 0, and the foreground of column 1 once one is
    set. *)
Record item : Type := {
  label : string;
  status : string;
  data : string;
  foreground : option string
}.

(** [dragEnterEvent] and [dragMoveEvent]: what the event is told. *)
Inductive drag_answer : Type := acceptProposedAction | ignore.

Definition dragEnterEvent (hasUrls : bool) : drag_answer :=
  if hasUrls then acceptProposedAction else ignore.

Definition dragMoveEvent (hasUrls : bool) : drag_answer :=
  if hasUrls then acceptProposedAction else ignore.

(** [QTreeWidgetItem([os.path.basename(file_path), "Queued"])] with its
    data set. *)
Definition queued_item (file_path : string) : item :=
  {| label := basename file_path;
     status := "Queued";
     data := file_path;
     foreground := None |}.

(** The [any(...)] of line 147. *)
Definition exists_in (file_path : string) (tree : list item) : bool :=
  existsb (fun it => (data it =? file_path)%string) tree.

(** [dropEvent]: [urls] are the local files of the dropped URLs
    ([url.toLocalFile()], empty for a URL that is no local file), [isfile]
    is [os.path.isfile]. *)
Fixpoint dropEvent (isfile : string -> bool) (urls : list string)
    (tree : list item) : list item :=
  match urls with
  | [] => tree
  | file_path :: rest =>
      dropEvent isfile rest
        (if isfile file_path then
           if negb (exists_in file_path tree)
           then (tree ++ [queued_item file_path])%list
           else tree
         else tree)
  end.

(** ** VideoConverterApp *)

Inductive dialog : Type :=
| information (title text : string)
| critical (title text : string).

(** The entries of the combo box, lines 182-186. *)
Definition aspect_ratio_items : list string :=
  [ "Keep Original (Pad)"; "Crop to 16:9 (Widescreen)";
    "Crop to 9:16 (Tall/Story)"; "Crop to 1:1 (Square)";
    "Crop to 19.5:9 (Modern Phone)" ].

(** The window: the tree, the current index of the combo box, the progress
    bar, the two buttons, the message of the status bar, the message boxes
    shown so far (the latest last) and the worker started last. *)
Record VideoConverterApp : Type := {
  file_list_tree : list item;
  aspect_ratio_choice : nat;
  progress_value : Z;
  progress_visible : bool;
  convert_button : bool;
  clear_button : bool;
  statusBar : string;
  dialogs : list dialog;
  worker : option ConversionWorker
}.

(** [setup_ui]: an empty tree, the first entry selected, the bar hidden
    and reset, both buttons enabled. *)
Definition setup_ui : VideoConverterApp :=
  {| file_list_tree := [];
     aspect_ratio_choice := 0;
     progress_value := -1;
     progress_visible := false;
     convert_button := true;
     clear_button := true;
     statusBar := "Ready. Drag files to begin.";
     dialogs := [];
     worker := None |}.

(** [aspect_ratio_choice.currentText()]. *)
Definition currentText (self : VideoConverterApp) : string :=
  nth (aspect_ratio_choice self) aspect_ratio_items "".

(** [progress_bar.setValue(value)] on a bar of range 0..100: a value out
    of the range is ignored. *)
Definition setValue (value : Z) (self : VideoConverterApp) : VideoConverterApp :=
  {| file_list_tree := file_list_tree self;
     aspect_ratio_choice := aspect_ratio_choice self;
     progress_value :=
       if (0 <=? value) && (value <=? 100) then value else progress_value self;
     progress_visible := progress_visible self;
     convert_button := convert_button self;
     clear_button := clear_button self;
     statusBar := statusBar self;
     dialogs := dialogs self;
     worker := worker self |}.

(** The list comprehension of lines 248-250. *)
Definition queued_files (tree : list item) : list string :=
  map data (filter (fun it => (status it =? "Queued")%string) tree).

Definition start_conversion (self : VideoConverterApp) : VideoConverterApp :=
  let files_to_process := queued_files (file_list_tree self) in
  match files_to_process with
  | [] =>
      {| file_list_tree := file_list_tree self;
         aspect_ratio_choice := aspect_ratio_choice self;
         progress_value := progress_value self;
         progress_visible := progress_visible self;
         convert_button := convert_button self;
         clear_button := clear_button self;
         statusBar := statusBar self;
         dialogs :=
           (dialogs self
              ++ [information "No Files"
                    "Please add new video files to the list first."])%list;
         worker := worker self |}
  | _ =>
      let self := setValue 0 self in
      {| file_list_tree := file_list_tree self;
         aspect_ratio_choice := aspect_ratio_choice self;
         progress_value := progress_value self;
         progress_visible := true;
         convert_button := false;
         clear_button := false;
         statusBar := statusBar self;
         dialogs := dialogs self;
         worker := Some {| files_to_process := files_to_process;
                           selected_ratio_str := currentText self |} |}
  end.

(** [sub in s] on two [str]. *)
Fixpoint contains (sub s : string) : bool :=
  prefix sub s ||
  match s with
  | "" => false
  | String _ s' => contains sub s'
  end.

(** Lines 272-274. *)
Definition status_color (status : string) : string :=
  if contains "✅" status then "#4CAF50"
  else if contains "❌" status then "#F44336"
  else "#FFFFFF".

(** The loop of [on_update_status] over the rows: the first row with the
    path gets the text and the colour, and the loop breaks. *)
Fixpoint set_status (file_path status : string) (tree : list item) : list item :=
  match tree with
  | [] => []
  | it :: rest =>
      if (data it =? file_path)%string then
        {| label := label it;
           status := status;
           data := data it;
           foreground := Some (status_color status) |} :: rest
      else it :: set_status file_path status rest
  end.

Definition on_update_status (file_path status : string)
    (self : VideoConverterApp) : VideoConverterApp :=
  {| file_list_tree := set_status file_path status (file_list_tree self);
     aspect_ratio_choice := aspect_ratio_choice self;
     progress_value := progress_value self;
     progress_visible := progress_visible self;
     convert_button := convert_button self;
     clear_button := clear_button self;
     statusBar := statusBar self;
     dialogs := dialogs self;
     worker := worker self |}.

Definition on_show_error (title message : string)
    (self : VideoConverterApp) : VideoConverterApp :=
  {| file_list_tree := file_list_tree self;
     aspect_ratio_choice := aspect_ratio_choice self;
     progress_value := progress_value self;
     progress_visible := progress_visible self;
     convert_button := convert_button self;
     clear_button := clear_button self;
     statusBar := statusBar self;
     dialogs := (dialogs self ++ [critical title message])%list;
     worker := worker self |}.

Definition on_conversion_finished (self : VideoConverterApp) : VideoConverterApp :=
  {| file_list_tree := file_list_tree self;
     aspect_ratio_choice := aspect_ratio_choice self;
     progress_value := progress_value self;
     progress_visible := progress_visible self;
     convert_button := true;
     clear_button := true;
     statusBar := "🎉 All conversions complete!";
     dialogs := dialogs self;
     worker := worker self |}.

Definition clear_list (self : VideoConverterApp) : VideoConverterApp :=
  {| file_list_tree := [];
     aspect_ratio_choice := aspect_ratio_choice self;
     progress_value := progress_value self;
     progress_visible := false;
     convert_button := convert_button self;
     clear_button := clear_button self;
     statusBar := "List cleared. Ready for new files.";
     dialogs := dialogs self;
     worker := worker self |}.

(** The window's [dropEvent] is that of its tree. *)
Definition drop (isfile : string -> bool) (urls : list string)
    (self : VideoConverterApp) : VideoConverterApp :=
  {| file_list_tree := dropEvent isfile urls (file_list_tree self);
     aspect_ratio_choice := aspect_ratio_choice self;
     progress_value := progress_value self;
     progress_visible := progress_visible self;
     convert_button := convert_button self;
     clear_button := clear_button self;
     statusBar := statusBar self;
     dialogs := dialogs self;
     worker := worker self |}.

(** The connections of lines 261-264: what the window does with an event
    of the worker.  Only the four signals reach it. *)
Definition deliver (self : VideoConverterApp) (ev : event) : VideoConverterApp :=
  match ev with
  | update_status file_path status => on_update_status file_path status self
  | update_progress progress => setValue progress self
  | show_error title message => on_show_error title message self
  | finished => on_conversion_finished self
  | subprocess_run _ | os_remove _ => self
  end.

(** The signals of a trace, handled in the order of their emission. *)
Definition handle (self : VideoConverterApp) (evs : list event) : VideoConverterApp :=
  fold_left deliver evs self.

(** ** check_ffmpeg_ffprobe and main *)

(** What [subprocess.run([tool, "-version"], check=True, ...)] does. *)
Inductive tool_reply : Type :=
| tool_exit_0
| tool_CalledProcessError
| tool_FileNotFoundError
| tool_raises (e : exn).

(** The second tool is run only when the first one returned. *)
Definition check_ffmpeg_ffprobe (ffmpeg ffprobe : tool_reply) : result bool :=
  match ffmpeg with
  | tool_exit_0 =>
      match ffprobe with
      | tool_exit_0 => Return true
      | tool_CalledProcessError | tool_FileNotFoundError => Return false
      | tool_raises e => Raise e
      end
  | tool_CalledProcessError | tool_FileNotFoundError => Return false
  | tool_raises e => Raise e
  end.

(** [main]: the message box, or the window shown. *)
Inductive startup : Type :=
| dependency_not_found (d : dialog)
| window_shown (window : VideoConverterApp).

Definition main (ffmpeg ffprobe : tool_reply) : result startup :=
  ok <- check_ffmpeg_ffprobe ffmpeg ffprobe ;;
  if negb ok then
    Return (dependency_not_found
              (critical "Dependency Not Found"
                 "FFmpeg and FFprobe are not in your system's PATH. Please install FFmpeg."))
  else Return (window_shown setup_ui).

(** * Definitions for the proofs *)

(** ** Rounding to binary64, on rationals *)
Module Rounding.
Import Float.

(** The record a right shift works on, for the quotient [N / D]: the
    integer part, whether the remainder reaches the half, whether it lies
    strictly off zero and off the half. *)
Definition rec_of (N D : Z) : shr_record :=
  {| shr_m := N / D;
     shr_r := D <=? 2 * (N mod D);
     shr_s := negb (N mod D =? 0) && negb (2 * (N mod D) =? D) |}.

Definition pow2 (e : Z) : Q := (2 ^ e)%Q.

Definition rnd (y : Q) : Z :=
  let f := Qfloor y in
  match (y - inject_Z f ?= 1 # 2)%Q with
  | Lt => f
  | Eq => if Z.even f then f else f + 1
  | Gt => f + 1
  end.

(** The float of mantissa [m] at exponent [E], where [m <= 2^53]. *)
Definition pack (s : bool) (m E : Z) : float :=
  if m =? 0 then S754_zero s
  else
    let '(m', E') := if m =? 2 ^ 53 then (2 ^ 52, E + 1) else (m, E) in
    if E' <=? 971 then S754_finite s (Z.to_pos m') E' else S754_infinity s.

Definition val (f : float) : Q :=
  match f with
  | S754_finite s m e =>
      (inject_Z (if s then Zneg m else Zpos m) * pow2 e)%Q
  | _ => 0%Q
  end.

Definition nonneg_finite (f : float) : Prop :=
  match f with
  | S754_zero _ => True
  | S754_finite s _ _ => s = false
  | _ => False
  end.

(** [E] is the exponent binary64 gives a number of magnitude [x]. *)
Definition canonic (x : Q) (E : Z) : Prop :=
  (x < pow2 (E + 53))%Q /\
  (E = -1074 \/ (-1074 < E /\ (pow2 (E + 52) <= x)%Q)).

(** [f] is the non-negative float nearest to [x], ties to even. *)
Definition rounded (x : Q) (f : float) : Prop :=
  nonneg_finite f /\
  exists E, canonic x E /\
            (val f == inject_Z (rnd (x / pow2 E)) * pow2 E)%Q.

End Rounding.

(** ** Reading a trace *)

(** The encoder commands a trace starts, in order. *)
Definition encode_calls (evs : list event) : list (list string) :=
  flat_map (fun ev => match ev with
                      | subprocess_run (prog :: args) =>
                          if (prog =? "ffmpeg")%string then [(prog :: args)%list]
                          else []
                      | _ => []
                      end) evs.

(** The progress values a trace reports, in order. *)
Definition progress_events (evs : list event) : list Z :=
  flat_map (fun ev => match ev with
                      | update_progress p => [p]
                      | _ => []
                      end) evs.

(** What a file whose analysis fails leaves in the trace. *)
Definition analysis_failure_events (file_path detail : string) : list event :=
  [ update_status file_path "⚙️ Analyzing...";
    subprocess_run (ffprobe_cmd file_path);
    update_status file_path "❌ Analyze Failed";
    show_error "Analysis Error" detail ].


(** ** The spec's vocabulary *)

(** The exact ratio [num/den] of each crop mode (19.5:9 is 39/18). *)
Definition crop_ratio : list (string * (Z * Z)) :=
  [ ("Crop to 16:9 (Widescreen)", (16, 9));
    ("Crop to 9:16 (Tall/Story)", (9, 16));
    ("Crop to 1:1 (Square)", (1, 1));
    ("Crop to 19.5:9 (Modern Phone)", (39, 18)) ].

(** Rounding the quotient [a/b] to the nearest integer. *)
Definition spec_round (a b : Z) : Z := Float.rne_div a b.

(** The target size as the spec words it:
    [(1280, round(1280/R))] when [R >= 1], [(round(1280*R), 1280)]
    otherwise, for [R = num/den]. *)
Definition spec_target (num den : Z) : Z * Z :=
  if den <=? num then (1280, spec_round (1280 * den) num)
  else (spec_round (1280 * num) den, 1280).

(** The progress as the spec words it: [round(100*i/n)]. *)
Definition spec_progress (i n : Z) : Z := spec_round (100 * i) n.

(** The filters of the encoder the worker names: a crop to an output
    width and height given as expressions over the input size [iw], [ih];
    a scale to a size; a scale that fits into a size and keeps the aspect
    ratio; a pad to a size with the picture centred; the chain of two
    filters. *)
Definition ff_crop (out_w out_h : string) : string :=
  "crop=" ++ out_w ++ ":" ++ out_h.
Definition ff_scale (w h : Z) : string :=
  "scale=" ++ str_int w ++ ":" ++ str_int h.
Definition ff_scale_to_fit (w h : Z) : string :=
  "scale=w=" ++ str_int w ++ ":h=" ++ str_int h
    ++ ":force_original_aspect_ratio=decrease".
Definition ff_pad_centered (w h : Z) (color : string) : string :=
  "pad=" ++ str_int w ++ ":" ++ str_int h ++ ":(ow-iw)/2:(oh-ih)/2:color=" ++ color.
Definition ff_then (first second : string) : string := first ++ "," ++ second.

(** The modes the caller can select. *)
Definition valid_mode (selected_ratio_str : string) : Prop :=
  selected_ratio_str = "Keep Original (Pad)" \/
  In selected_ratio_str (map fst ratio_map).

(** Dimensions as the data model has them: positive, and of a size a
    binary64 quotient can hold. *)
Definition well_formed (md : metadata) : Prop :=
  0 < width md < 2 ^ 1023 /\ 0 < height md < 2 ^ 1023.

(** How often a trace signals the end of the batch. *)
Definition count_finished (evs : list event) : nat :=
  List.length (filter (fun ev => match ev with finished => true | _ => false end) evs).


(** [members] is the first video stream of the document [doc]. *)
Definition video_stream_of (doc : json) (members : list (string * json)) : Prop :=
  exists streams items,
    subscript doc "streams" = Return streams /\
    iterate streams = Return items /\
    first_video items = Return (Some (JDict members)).

(** The stream has the member [key], and [int] reads it as [n]. *)
Definition int_field (members : list (string * json)) (key : string) (n : Z) : Prop :=
  exists v, dict_find key members = Some v /\ int v = Return n.

(** The stream has no rotate tag / has the rotate tag [v]. *)
Definition rotate_absent (members : list (string * json)) : Prop :=
  dict_find "tags" members = None \/
  exists tags, dict_find "tags" members = Some (JDict tags) /\
               dict_find "rotate" tags = None.

Definition rotate_present (members : list (string * json)) (v : json) : Prop :=
  exists tags, dict_find "tags" members = Some (JDict tags) /\
               dict_find "rotate" tags = Some v.

(** ** Sample inputs *)
Module Sample.

(** A probe document: an audio stream, then a 1920x1080 video stream with
    the given tags member, if any. *)
Definition video (tags : list (string * json)) : list (string * json) :=
  ([ ("codec_type", JStr "video"); ("width", JInt 1920); ("height", JInt 1080) ]
     ++ tags)%list.

Definition doc (tags : list (string * json)) : json :=
  JDict [ ("streams", JList [ JDict [("codec_type", JStr "audio")];
                              JDict (video tags) ]) ].

Definition rotated (value : string) : list (string * json) :=
  [ ("tags", JDict [("rotate", JStr value)]) ].

(** The worlds of a file that converts, of a file without video stream,
    and of a file whose first pass fails. *)
Definition converts : world :=
  {| is_running := true;
     ffprobe_reply := Return (doc []);
     pass1_reply := Return tt;
     pass2_reply := Return tt;
     path_exists := fun _ => true |}.

Definition no_video : world :=
  {| is_running := true;
     ffprobe_reply := Return (JDict [("streams", JList [])]);
     pass1_reply := Return tt;
     pass2_reply := Return tt;
     path_exists := fun _ => false |}.


Definition three_files : ConversionWorker :=
  {| files_to_process := ["/videos/a.mp4"; "/videos/b.mov"; "/videos/c.mkv"];
     selected_ratio_str := "Keep Original (Pad)" |}.

Definition stopped : world :=
  {| is_running := false;
     ffprobe_reply := Return (doc []);
     pass1_reply := Return tt;
     pass2_reply := Return tt;
     path_exists := fun _ => false |}.

(** The flag is cleared while the first of three files is processed. *)
Definition stop_after_first (i : nat) : world :=
  match i with
  | O => converts
  | _ => stopped
  end.

(** The second of three files has no video stream. *)
Definition second_fails (i : nat) : world :=
  match i with
  | 1%nat => no_video
  | _ => converts
  end.

End Sample.


(** ** The iterations of a batch *)



(** ** More sample inputs *)
Module Scene.


Definition no_encoder : world :=
  {| is_running := true;
     ffprobe_reply := Return (Sample.doc []);
     pass1_reply :=
       Raise (OtherException "[Errno 2] No such file or directory: 'ffmpeg'");
     pass2_reply := Return tt;
     path_exists := fun _ => false |}.

(** The encoder is lost between the two passes. *)
Definition encoder_lost : world :=
  {| is_running := true;
     ffprobe_reply := Return (Sample.doc []);
     pass1_reply := Return tt;
     pass2_reply :=
       Raise (OtherException "[Errno 2] No such file or directory: 'ffmpeg'");
     path_exists := fun _ => true |}.

(** A probe that reports a video stream of height zero. *)
Definition flat : world :=
  {| is_running := true;
     ffprobe_reply :=
       Return (JDict [ ("streams",
                        JList [ JDict [ ("codec_type", JStr "video");
                                        ("width", JInt 1920);
                                        ("height", JInt 0) ] ]) ]);
     pass1_reply := Return tt;
     pass2_reply := Return tt;
     path_exists := fun _ => false |}.

Definition audio : json := JDict [("codec_type", JStr "audio")].

(** An audio stream, a video stream, and something that is no stream. *)
Definition mixed : json :=
  JDict [ ("streams", JList [ audio; JDict (Sample.video []); JNull ]) ].

(** A video stream without height, after an audio stream. *)
Definition no_height : list (string * json) :=
  [ ("codec_type", JStr "video"); ("width", JInt 1920) ].

(** The window after two files were dropped on it, and the worker a
    start then makes. *)
Definition two_dropped : VideoConverterApp :=
  drop (fun _ => true) ["/videos/a.mp4"; "/videos/b.mov"] setup_ui.

Definition two_files : ConversionWorker :=
  {| files_to_process := ["/videos/a.mp4"; "/videos/b.mov"];
     selected_ratio_str := "Keep Original (Pad)" |}.

End Scene.

(** ** More readings of a trace *)

(** The status texts a trace reports, in order, and its error events. *)
Definition status_texts (evs : list event) : list string :=
  flat_map (fun ev => match ev with
                      | update_status _ s => [s]
                      | _ => []
                      end) evs.

Definition error_events (evs : list event) : list (string * string) :=
  flat_map (fun ev => match ev with
                      | show_error title message => [(title, message)]
                      | _ => []
                      end) evs.

(** The paths the status events of a trace are about. *)
Definition status_paths (evs : list event) : list string :=
  flat_map (fun ev => match ev with
                      | update_status f _ => [f]
                      | _ => []
                      end) evs.

(** The six texts the worker reports. *)
Definition worker_statuses : list string :=
  [ "⚙️ Analyzing..."; "❌ Analyze Failed"; "🏃 Pass 1..."; "🏁 Pass 2...";
    "✅ Done"; "❌ Error" ].



(** ** Streams of a probe document *)

(** A stream that names its kind, and the kind is not / is ['video']. *)
Definition other_stream (s : json) : Prop :=
  exists kind, subscript s "codec_type" = Return kind /\ is_video kind = false.

Definition is_video_stream (s : json) : Prop :=
  exists kind, subscript s "codec_type" = Return kind /\ is_video kind = true.

(** A probe document with the given streams. *)
Definition has_streams (doc : json) (streams : list json) : Prop :=
  subscript doc "streams" = Return (JList streams).


(** ** Rows of the tree *)

(** The first row of the tree with the path, as the loops of [dropEvent]
    and [on_update_status] find it. *)
Definition find_row (file_path : string) (tree : list item) : option item :=
  find (fun it => (data it =? file_path)%string) tree.


(** The row with another status text and the colour of that text. *)
Definition with_status (s : string) (it : item) : item :=
  {| label := label it;
     status := s;
     data := data it;
     foreground := Some (status_color s) |}.


(** ** The text of an integer *)

(** The code points of the digits of a decimal number. *)
Fixpoint digit_codes (d : Decimal.uint) : list Z :=
  match d with
  | Decimal.Nil => []
  | Decimal.D0 l => 48 :: digit_codes l
  | Decimal.D1 l => 49 :: digit_codes l
  | Decimal.D2 l => 50 :: digit_codes l
  | Decimal.D3 l => 51 :: digit_codes l
  | Decimal.D4 l => 52 :: digit_codes l
  | Decimal.D5 l => 53 :: digit_codes l
  | Decimal.D6 l => 54 :: digit_codes l
  | Decimal.D7 l => 55 :: digit_codes l
  | Decimal.D8 l => 56 :: digit_codes l
  | Decimal.D9 l => 57 :: digit_codes l
  end.

(** The number of digits [str(n)] writes. *)
Definition digits_of (n : Z) : Z := Z.of_nat (String.length (str_int (Z.abs n))).

(** ** Dropped paths *)

(** The paths of a list, each where it first occurs. *)
Fixpoint first_occurrences (l : list string) : list string :=
  match l with
  | [] => []
  | f :: rest =>
      f :: filter (fun g => negb (g =? f)%string) (first_occurrences rest)
  end.

(** * Binary64 arithmetic

    What [SFdiv] and [SFmul] compute, in terms of the rationals: the
    nearest binary64 number, from which the facts about line 112 follow. *)
Module FloatFacts.
Import Float Rounding.

Lemma digits2_pos_size p : digits2_pos p = Pos.size p.
Proof. induction p; simpl; congruence. Qed.

Lemma Zdigits2_bounds m :
  0 < m -> 2 ^ (Zdigits2 m - 1) <= m < 2 ^ Zdigits2 m.
Proof.
  intros Hm. destruct m as [|p|p]; try lia. simpl Zdigits2.
  rewrite digits2_pos_size.
  pose proof (Pos.size_gt p) as Hgt. pose proof (Pos.size_le p) as Hle.
  split.
  - assert (H : (2 ^ Pos.size p <= p~0)%positive) by exact Hle.
    apply Pos2Z.pos_le_pos in H. rewrite Pos2Z.inj_pow in H.
    replace (Z.pos (Pos.size p)) with (Z.succ (Z.pos (Pos.size p) - 1)) in H by lia.
    rewrite Z.pow_succ_r in H by lia. lia.
  - apply Pos2Z.pos_lt_pos in Hgt. rewrite Pos2Z.inj_pow in Hgt. exact Hgt.
Qed.

Lemma Zdigits2_nonneg m : 0 <= Zdigits2 m.
Proof. destruct m; simpl; lia. Qed.

Lemma shr_1_nonneg m r s :
  0 <= m ->
  shr_1 {| shr_m := m; shr_r := r; shr_s := s |}
  = {| shr_m := m / 2; shr_r := Z.odd m; shr_s := r || s |}.
Proof.
  intros Hm. destruct m as [|p|p]; try lia; [reflexivity|].
  destruct p as [p|p|]; simpl shr_1.
  - f_equal. rewrite (Pos2Z.pos_xI p).
    apply Z.div_unique_pos with (r := 1); lia.
  - f_equal. rewrite (Pos2Z.pos_xO p).
    apply Z.div_unique_pos with (r := 0); lia.
  - reflexivity.
Qed.

Lemma shr_1_rec_of N D :
  0 <= N -> 0 < D -> shr_1 (rec_of N D) = rec_of N (2 * D).
Proof.
  intros HN HD. unfold rec_of.
  assert (Hq : 0 <= N / D) by (apply Z.div_pos; lia).
  rewrite shr_1_nonneg by exact Hq.
  pose proof (Z.div_mod N D ltac:(lia)) as E.
  pose proof (Z.mod_pos_bound N D HD) as B.
  pose proof (Z.div_mod (N / D) 2 ltac:(lia)) as E2.
  pose proof (Z.mod_pos_bound (N / D) 2 ltac:(lia)) as B2.
  set (q := N / D) in *. set (rho := N mod D) in *.
  set (q2 := q / 2) in *. set (b := q mod 2) in *.
  assert (Hdiv : N / (2 * D) = q2).
  { symmetry. apply Z.div_unique_pos with (r := b * D + rho); nia. }
  assert (Hmod : N mod (2 * D) = b * D + rho).
  { symmetry. apply Z.mod_unique_pos with (q := q2); nia. }
  rewrite Hdiv, Hmod.
  assert (Hodd : Z.odd q = (b =? 1)).
  { rewrite Zodd_mod. fold b. reflexivity. }
  rewrite Hodd.
  assert (Hb : b = 0 \/ b = 1) by lia.
  clearbody q rho q2 b.
  destruct Hb as [-> | ->];
    [change (0 =? 1) with false | change (1 =? 1) with true];
    rewrite ?Z.mul_0_l, ?Z.mul_1_l, ?Z.add_0_l; f_equal.
  - symmetry. apply Z.leb_gt. lia.
  - destruct (Z.leb_spec D (2 * rho)); destruct (Z.eqb_spec rho 0);
      destruct (Z.eqb_spec (2 * rho) D);
      destruct (Z.eqb_spec (2 * rho) (2 * D)); simpl;
      first [reflexivity | exfalso; lia].
  - symmetry. apply Z.leb_le. lia.
  - destruct (Z.leb_spec D (2 * rho)); destruct (Z.eqb_spec rho 0);
      destruct (Z.eqb_spec (2 * rho) D); destruct (Z.eqb_spec (D + rho) 0);
      destruct (Z.eqb_spec (2 * (D + rho)) (2 * D)); simpl;
      first [reflexivity | exfalso; lia].
Qed.

Lemma iter_pos_rec_of p : forall N D,
  0 <= N -> 0 < D ->
  iter_pos shr_1 p (rec_of N D) = rec_of N (D * 2 ^ Zpos p).
Proof.
  induction p as [p IH|p IH|]; intros N D HN HD; cbn [iter_pos].
  - assert (0 < 2 ^ Z.pos p) by (apply Z.pow_pos_nonneg; lia).
    rewrite shr_1_rec_of, IH, IH by nia.
    apply (f_equal (rec_of N)). rewrite (Pos2Z.pos_xI p).
    replace (2 * Z.pos p + 1) with (Z.pos p + Z.pos p + 1) by lia.
    rewrite !Z.pow_add_r by lia. change (2 ^ 1) with 2. ring.
  - assert (0 < 2 ^ Z.pos p) by (apply Z.pow_pos_nonneg; lia).
    rewrite IH, IH by nia.
    apply (f_equal (rec_of N)). rewrite (Pos2Z.pos_xO p).
    replace (2 * Z.pos p) with (Z.pos p + Z.pos p) by lia.
    rewrite !Z.pow_add_r by lia. ring.
  - rewrite shr_1_rec_of by lia. apply (f_equal (rec_of N)). change (2 ^ 1) with 2. ring.
Qed.

Lemma shr_rec_of N D e n :
  0 <= N -> 0 < D ->
  shr (rec_of N D) e n = (rec_of N (D * 2 ^ Z.max n 0), e + Z.max n 0).
Proof.
  intros HN HD. destruct n as [|p|p]; simpl shr.
  - rewrite Z.mul_1_r, Z.add_0_r. reflexivity.
  - rewrite iter_pos_rec_of by assumption. reflexivity.
  - rewrite Z.mul_1_r, Z.add_0_r. reflexivity.
Qed.

(** *** Rounding a rational to the nearest integer, ties to even *)

Lemma pow2_pos e : (0 < pow2 e)%Q.
Proof. apply Qpower_0_lt. reflexivity. Qed.

Lemma pow2_add a b : (pow2 (a + b) == pow2 a * pow2 b)%Q.
Proof. apply Qpower_plus. discriminate. Qed.

Lemma pow2_le a b : a <= b -> (pow2 a <= pow2 b)%Q.
Proof. intros H. apply Qpower_le_compat_l; [exact H | discriminate]. Qed.

Lemma pow2_lt a b : a < b -> (pow2 a < pow2 b)%Q.
Proof. intros H. apply Qpower_lt_compat_l; [exact H | reflexivity]. Qed.

Lemma pow2_Z e : 0 <= e -> (pow2 e == inject_Z (2 ^ e))%Q.
Proof. intros H. unfold pow2. rewrite Zpower_Qpower by exact H. reflexivity. Qed.

Lemma pow2_0 : (pow2 0 == 1)%Q.
Proof. reflexivity. Qed.

Lemma pow2_sub a b : (pow2 (a - b) == pow2 a / pow2 b)%Q.
Proof.
  pose proof (pow2_pos b). pose proof (pow2_add (a - b) b) as E.
  replace (a - b + b) with a in E by ring.
  rewrite E. field. lra.
Qed.

Lemma rnd_morph x y : (x == y)%Q -> rnd x = rnd y.
Proof.
  intros E. unfold rnd. rewrite (Qfloor_comp x y E).
  assert (H : (x - inject_Z (Qfloor y) == y - inject_Z (Qfloor y))%Q)
    by (rewrite E; reflexivity).
  rewrite (Qcompare_comp _ _ H _ _ (Qeq_refl _)). reflexivity.
Qed.

Lemma rnd_floor y : Qfloor y <= rnd y <= Qfloor y + 1.
Proof.
  unfold rnd. destruct (_ ?= _)%Q; [destruct (Z.even _)| |]; lia.
Qed.

Lemma rnd_mono x y : (x <= y)%Q -> rnd x <= rnd y.
Proof.
  intros Hxy.
  pose proof (Qfloor_resp_le _ _ Hxy) as Hf.
  pose proof (rnd_floor x) as Bx. pose proof (rnd_floor y) as By.
  destruct (Z.eq_dec (Qfloor x) (Qfloor y)) as [Ef | Nf]; [|lia].
  unfold rnd in *. rewrite <- Ef in *.
  set (f := Qfloor x) in *. clearbody f.
  destruct (Qcompare_spec (x - inject_Z f) (1 # 2));
    destruct (Qcompare_spec (y - inject_Z f) (1 # 2));
    destruct (Z.even f); try lia; exfalso; lra.
Qed.

Lemma rnd_Z k : rnd (inject_Z k) = k.
Proof.
  unfold rnd. rewrite Qfloor_Z.
  destruct (Qcompare_spec (inject_Z k - inject_Z k) (1 # 2)); try reflexivity;
    exfalso; lra.
Qed.

Lemma rnd_le_Z y k : (y <= inject_Z k)%Q -> rnd y <= k.
Proof. intros H. rewrite <- (rnd_Z k). apply rnd_mono, H. Qed.

Lemma rnd_ge_Z y k : (inject_Z k <= y)%Q -> k <= rnd y.
Proof. intros H. rewrite <- (rnd_Z k). apply rnd_mono, H. Qed.

Lemma Qcompare_half a d :
  0 < d -> (inject_Z a / inject_Z d ?= 1 # 2)%Q = (2 * a ?= d).
Proof.
  intros Hd. destruct d as [|d|d]; try lia.
  unfold Qcompare, Qdiv, Qinv, Qmult, inject_Z. simpl Qnum. simpl Qden.
  rewrite Z.mul_1_r. simpl (1 * _)%positive.
  rewrite Z.mul_1_l. f_equal. lia.
Qed.

Lemma Qdiv_floor_rem N D :
  0 < D ->
  (inject_Z N / inject_Z D - inject_Z (N / D) == inject_Z (N mod D) / inject_Z D)%Q.
Proof.
  intros HD. pose proof (Z.div_mod N D ltac:(lia)) as E.
  assert (HQ : (inject_Z N == inject_Z D * inject_Z (N / D) + inject_Z (N mod D))%Q).
  { rewrite <- inject_Z_mult, <- inject_Z_plus, <- E. reflexivity. }
  rewrite HQ. field.
  intros H0. unfold Qeq in H0. simpl in H0. lia.
Qed.

Lemma rne_div_rnd N D :
  0 < D -> rne_div N D = rnd (inject_Z N / inject_Z D).
Proof.
  intros HD. unfold rne_div, rnd.
  rewrite <- Zdiv_Qdiv.
  rewrite (Qcompare_comp _ _ (Qdiv_floor_rem N D HD) (1 # 2) (1 # 2) (Qeq_refl _)).
  rewrite Qcompare_half by exact HD. reflexivity.
Qed.

(** *** What [binary_round_aux] computes *)

Lemma fexp_eq e : fexp prec emax e = Z.max (e - 53) (-1074).
Proof. reflexivity. Qed.

Lemma rne_div_bounds N D :
  0 < D -> N / D <= rne_div N D <= N / D + 1.
Proof.
  intros HD. unfold rne_div.
  destruct (_ ?= _); [destruct (Z.even _)| |]; lia.
Qed.

Lemma round_nearest_even_rec_of N D :
  0 < D ->
  round_nearest_even (shr_m (rec_of N D)) (loc_of_shr_record (rec_of N D))
  = rne_div N D.
Proof.
  intros HD. unfold rec_of, rne_div, loc_of_shr_record, round_nearest_even.
  cbn [shr_m].
  pose proof (Z.mod_pos_bound N D HD) as B.
  set (rho := N mod D) in *. clearbody rho.
  destruct (Z.compare_spec (2 * rho) D);
    destruct (Z.leb_spec D (2 * rho)); destruct (Z.eqb_spec rho 0);
    destruct (Z.eqb_spec (2 * rho) D); cbn [negb andb];
    first [reflexivity | exfalso; lia].
Qed.

Lemma rec_of_exact m : 0 <= m -> shr_record_of_loc m loc_Exact = rec_of m 1.
Proof.
  intros Hm. unfold rec_of, shr_record_of_loc.
  rewrite Z.div_1_r, Z.mod_1_r. reflexivity.
Qed.

Lemma Zdigits2_le m k : 0 <= k -> 0 <= m < 2 ^ k -> Zdigits2 m <= k.
Proof.
  intros Hk [H0 Hm]. destruct (Z.eq_dec m 0) as [-> | Hnz]; [simpl; lia|].
  pose proof (Zdigits2_bounds m ltac:(lia)) as [Hlo _].
  pose proof (Zdigits2_nonneg m).
  destruct (Z.le_gt_cases (Zdigits2 m) k) as [|Hgt]; [assumption|exfalso].
  assert (2 ^ k <= 2 ^ (Zdigits2 m - 1)) by (apply Z.pow_le_mono_r; lia).
  lia.
Qed.

Lemma Zdigits2_ge m k : 0 <= k -> 2 ^ k <= m -> k + 1 <= Zdigits2 m.
Proof.
  intros Hk Hm.
  assert (0 < 2 ^ k) by (apply Z.pow_pos_nonneg; lia).
  pose proof (Zdigits2_bounds m ltac:(lia)) as [_ Hhi].
  destruct (Z.le_gt_cases (k + 1) (Zdigits2 m)) as [|Hgt]; [assumption|exfalso].
  assert (2 ^ Zdigits2 m <= 2 ^ k) by (apply Z.pow_le_mono_r; lia).
  lia.
Qed.

Theorem binary_round_aux_rec_of s N D e lx :
  0 <= N -> 0 < D ->
  shr_record_of_loc (N / D) lx = rec_of N D ->
  e <= fexp prec emax (Zdigits2 (N / D) + e) ->
  let E := fexp prec emax (Zdigits2 (N / D) + e) in
  binary_round_aux prec emax s (N / D) e lx
  = pack s (rne_div N (D * 2 ^ (E - e))) E
  /\ 0 <= rne_div N (D * 2 ^ (E - e)) <= 2 ^ 53.
Proof.
  intros HN HD Hloc HeE E.
  assert (HEmin : -1074 <= E) by (unfold E; rewrite fexp_eq; lia).
  assert (HEd : Zdigits2 (N / D) + e - 53 <= E) by (unfold E; rewrite fexp_eq; lia).
  assert (Hp : 0 < 2 ^ (E - e)) by (apply Z.pow_pos_nonneg; lia).
  set (D' := D * 2 ^ (E - e)).
  assert (HD' : 0 < D') by (unfold D'; nia).
  (* the rounded mantissa stays within 2^53 *)
  assert (Hlt : N / D' < 2 ^ 53).
  { apply Z.div_lt_upper_bound; [exact HD'|].
    pose proof (Zdigits2_nonneg (N / D)) as Hd0.
    assert (HNd : N < D * 2 ^ Zdigits2 (N / D)).
    { destruct (Z.eq_dec (N / D) 0) as [E0 | Hnz].
      - rewrite E0. simpl. pose proof (Z.div_small_iff N D ltac:(lia)) as [H' _].
        specialize (H' E0). lia.
      - assert (0 <= N / D) by (apply Z.div_pos; lia).
        pose proof (Zdigits2_bounds (N / D) ltac:(lia)) as [_ Hhi].
        pose proof (Z.div_mod N D ltac:(lia)). pose proof (Z.mod_pos_bound N D HD).
        nia. }
    assert (Hpow : 2 ^ Zdigits2 (N / D) <= 2 ^ (E - e + 53))
      by (apply Z.pow_le_mono_r; lia).
    unfold D'. replace (D * 2 ^ (E - e) * 2 ^ 53) with (D * 2 ^ (E - e + 53)).
    2:{ rewrite Z.pow_add_r by lia. ring. }
    nia. }
  assert (Hge : 0 <= N / D') by (apply Z.div_pos; lia).
  pose proof (rne_div_bounds N D' HD') as Hb.
  split; [|lia].
  unfold binary_round_aux, shr_fexp.
  rewrite Hloc, shr_rec_of by assumption.
  fold E. rewrite Z.max_l by lia.
  replace (e + (E - e)) with E by ring. fold D'.
  rewrite round_nearest_even_rec_of by exact HD'.
  set (m := rne_div N D') in *. clearbody m.
  rewrite rec_of_exact by lia.
  rewrite shr_rec_of by lia.
  rewrite fexp_eq. unfold pack.
  destruct (Z.eqb_spec m 0) as [-> | Hm0].
  - simpl Zdigits2. rewrite Z.max_r by lia. reflexivity.
  - destruct (Z.eqb_spec m (2 ^ 53)) as [-> | Hm53].
    + change (Zdigits2 (2 ^ 53)) with 54.
      replace (Z.max (54 + E - 53) (-1074) - E) with 1 by lia.
      change (Z.max 1 0) with 1. unfold rec_of. cbn [shr_m].
      change (2 ^ 53 / (1 * 2 ^ 1)) with (2 ^ 52).
      change (2 ^ 52) with (Z.pos (Z.to_pos (2 ^ 52))) at 1.
      reflexivity.
    + assert (Hdm : Zdigits2 m <= 53) by (apply Zdigits2_le; lia).
      rewrite (Z.max_r (_ - E) 0) by lia.
      unfold rec_of. cbn [shr_m]. change (1 * 2 ^ 0) with 1.
      rewrite Z.div_1_r, Z.add_0_r.
      destruct m as [|p|p]; try lia. reflexivity.
Qed.

Lemma new_location_rec_of N D :
  0 < D -> shr_record_of_loc (N / D) (new_location D (N mod D)) = rec_of N D.
Proof.
  intros HD. pose proof (Z.mod_pos_bound N D HD) as B.
  unfold rec_of, new_location, new_location_even, new_location_odd.
  set (rho := N mod D) in *. clearbody rho.
  destruct (Z.even D) eqn:Ev.
  - destruct (Z.eqb_spec rho 0) as [-> | Hr].
    + cbn [shr_record_of_loc]. rewrite (proj2 (Z.leb_gt D (2 * 0))) by lia.
      reflexivity.
    + destruct (Z.compare_spec (2 * rho) D); cbn [shr_record_of_loc];
        destruct (Z.leb_spec D (2 * rho)); destruct (Z.eqb_spec (2 * rho) D);
        first [reflexivity | exfalso; lia].
  - assert (Hodd : Z.odd D = true) by (rewrite <- Z.negb_even, Ev; reflexivity).
    apply Z.odd_spec in Hodd. destruct Hodd as [j Hj].
    destruct (Z.eqb_spec rho 0) as [-> | Hr].
    + cbn [shr_record_of_loc]. rewrite (proj2 (Z.leb_gt D (2 * 0))) by lia.
      reflexivity.
    + destruct (Z.compare_spec (2 * rho + 1) D); cbn [shr_record_of_loc];
        destruct (Z.leb_spec D (2 * rho)); destruct (Z.eqb_spec (2 * rho) D);
        first [reflexivity | exfalso; lia].
Qed.

(** The division of two positive integers, as [SFdiv] carries it out. *)
Theorem SFdiv_exact sx sy (p q : positive) :
  exists N e,
    0 < N /\ e <= 0 /\ N = Zpos p * 2 ^ (- e) /\
    e <= fexp prec emax (Zdigits2 (N / Zpos q) + e) /\
    SFdiv prec emax (S754_finite sx p 0) (S754_finite sy q 0)
    = binary_round_aux prec emax (xorb sx sy) (N / Zpos q) e
        (new_location (Zpos q) (N mod Zpos q)).
Proof.
  set (d1 := Zdigits2 (Zpos p)). set (d2 := Zdigits2 (Zpos q)).
  set (e := Z.min (fexp prec emax (d1 + 0 - (d2 + 0))) (0 - 0)).
  assert (He0 : e <= 0) by (unfold e; lia).
  assert (Hpow : 0 < 2 ^ (- e)) by (apply Z.pow_pos_nonneg; lia).
  exists (Zpos p * 2 ^ (- e)), e.
  split; [nia|]. split; [exact He0|]. split; [reflexivity|]. split.
  - rewrite fexp_eq. unfold e at 1. rewrite fexp_eq.
    destruct (Z.le_gt_cases (d1 + 0 - (d2 + 0) - 53) (-1074)) as [Hsub | Hnorm].
    + lia.
    + (* the quotient has at least 53 digits *)
      assert (He : e = Z.min (d1 - d2 - 53) 0) by (unfold e; rewrite fexp_eq; lia).
      pose proof (Zdigits2_bounds (Zpos p) ltac:(lia)) as [Hp1 _].
      pose proof (Zdigits2_bounds (Zpos q) ltac:(lia)) as [_ Hq2].
      fold d1 in Hp1. fold d2 in Hq2.
      assert (Hd1 : 1 <= d1) by (unfold d1; simpl; lia).
      assert (Hd2 : 1 <= d2) by (unfold d2; simpl; lia).
      assert (Hk : 0 <= d1 - 1 - e - d2) by lia.
      assert (Hdig : d1 - 1 - e - d2 + 1 <= Zdigits2 (Zpos p * 2 ^ (- e) / Zpos q)).
      { apply Zdigits2_ge; [exact Hk|].
        apply Z.div_le_lower_bound; [lia|].
        assert (Hsplit : 2 ^ (d1 - 1) * 2 ^ (- e)
                         = 2 ^ d2 * 2 ^ (d1 - 1 - e - d2)).
        { rewrite <- !Z.pow_add_r by lia. f_equal. lia. }
        assert (0 < 2 ^ (d1 - 1 - e - d2)) by (apply Z.pow_pos_nonneg; lia).
        nia. }
      lia.
  - unfold SFdiv, SFdiv_core_binary. fold d1 d2 e.
    replace (0 - 0 - e) with (- e) by lia.
    assert (Hm : match - e with
                 | 0 => Z.pos p
                 | Z.pos _ => Z.shiftl (Z.pos p) (- e)
                 | Z.neg _ => 0
                 end = Zpos p * 2 ^ (- e)).
    { destruct (- e) as [|k|k] eqn:Ek; try lia.
      rewrite Z.shiftl_mul_pow2 by lia. reflexivity. }
    rewrite Hm.
    unfold Z.div, Z.modulo.
    destruct (Z.div_eucl (Z.pos p * 2 ^ (- e)) (Z.pos q)) as [qq rr].
    reflexivity.
Qed.

(** *** The value of a float, and rounding as a relation on values *)

Lemma pow2_neq0 e : ~ (pow2 e == 0)%Q.
Proof. pose proof (pow2_pos e). lra. Qed.

Lemma pow2_lt_inv a b : (pow2 a < pow2 b)%Q -> a < b.
Proof.
  intros H. destruct (Z.lt_ge_cases a b) as [|Hge]; [assumption|exfalso].
  pose proof (pow2_le b a Hge). lra.
Qed.

Lemma inject_Z_pos_neq0 D : 0 < D -> ~ (inject_Z D == 0)%Q.
Proof. intros HD H0. unfold Qeq in H0. simpl in H0. lia. Qed.

Lemma inject_Z_pos D : 0 < D -> (0 < inject_Z D)%Q.
Proof. intros HD. unfold Qlt. simpl. lia. Qed.

Lemma Qdiv_Z_lt N D k :
  0 < D -> N < D * k -> (inject_Z N / inject_Z D < inject_Z k)%Q.
Proof.
  intros HD H. apply Qlt_shift_div_r.
  - apply inject_Z_pos, HD.
  - rewrite <- inject_Z_mult, <- Zlt_Qlt. lia.
Qed.

Lemma Qdiv_Z_ge N D k :
  0 < D -> D * k <= N -> (inject_Z k <= inject_Z N / inject_Z D)%Q.
Proof.
  intros HD H. apply Qle_shift_div_l.
  - apply inject_Z_pos, HD.
  - rewrite <- inject_Z_mult, <- Zle_Qle. lia.
Qed.

Lemma canonic_morph x y E : (x == y)%Q -> canonic x E -> canonic y E.
Proof.
  intros Exy [H1 H2]. split; [rewrite <- Exy; exact H1|].
  destruct H2 as [H2 | [H2 H3]]; [left; exact H2 | right; split; [exact H2|]].
  rewrite <- Exy. exact H3.
Qed.

Lemma rounded_morph x y f : (x == y)%Q -> rounded x f -> rounded y f.
Proof.
  intros Exy [Hf [E [Hc Hv]]]. split; [exact Hf|]. exists E. split.
  - exact (canonic_morph _ _ _ Exy Hc).
  - rewrite Hv. rewrite (rnd_morph (x / pow2 E) (y / pow2 E)); [reflexivity|].
    rewrite Exy. reflexivity.
Qed.

Lemma canonic_le x y E1 E2 :
  canonic x E1 -> canonic y E2 -> (x <= y)%Q -> E1 <= E2.
Proof.
  intros [Hx1 Hx2] [Hy1 Hy2] Hxy.
  destruct Hx2 as [-> | [Hx2 Hx3]].
  - destruct Hy2 as [-> | [Hy2 _]]; lia.
  - assert (H : (pow2 (E1 + 52) < pow2 (E2 + 53))%Q) by lra.
    apply pow2_lt_inv in H. lia.
Qed.

Lemma canonic_bound x E : canonic x E -> (x < pow2 1023)%Q -> E <= 970.
Proof.
  intros [_ [-> | [_ H]]] Hx; [lia|].
  assert (H' : (pow2 (E + 52) < pow2 1023)%Q) by lra.
  apply pow2_lt_inv in H'. lia.
Qed.

(** Rounding is monotone. *)
Theorem rounded_mono x y f g :
  rounded x f -> rounded y g -> (x <= y)%Q -> (val f <= val g)%Q.
Proof.
  intros [_ [E1 [Hc1 Hv1]]] [_ [E2 [Hc2 Hv2]]] Hxy.
  rewrite Hv1, Hv2.
  pose proof (canonic_le _ _ _ _ Hc1 Hc2 Hxy) as HE.
  pose proof (pow2_pos E1) as P1. pose proof (pow2_pos E2) as P2.
  destruct (Z.eq_dec E1 E2) as [<- | Hne].
  - apply Qmult_le_compat_r; [|lra].
    rewrite <- Zle_Qle. apply rnd_mono.
    apply Qmult_le_compat_r; [exact Hxy|].
    apply Qlt_le_weak, Qinv_lt_0_compat, P1.
  - destruct Hc1 as [Hx1 Hx2].
    destruct Hc2 as [_ [-> | [_ Hy3]]];
      [exfalso; destruct Hx2 as [? | [? _]]; lia|].
    assert (H1 : rnd (x / pow2 E1) <= 2 ^ 53).
    { apply rnd_le_Z. apply Qle_shift_div_r; [exact P1|].
      rewrite <- pow2_Z by lia. rewrite <- pow2_add.
      replace (53 + E1) with (E1 + 53) by ring. lra. }
    assert (H2 : 2 ^ 52 <= rnd (y / pow2 E2)).
    { apply rnd_ge_Z. apply Qle_shift_div_l; [exact P2|].
      rewrite <- pow2_Z by lia. rewrite <- pow2_add.
      replace (52 + E2) with (E2 + 52) by ring. lra. }
    rewrite Zle_Qle in H1, H2. rewrite <- !pow2_Z in H1, H2 by lia.
    apply Qle_trans with (pow2 53 * pow2 E1)%Q.
    { apply Qmult_le_compat_r; [exact H1|lra]. }
    apply Qle_trans with (pow2 52 * pow2 E2)%Q.
    2:{ apply Qmult_le_compat_r; [exact H2|lra]. }
    rewrite <- !pow2_add. apply pow2_le. lia.
Qed.

Lemma val_pack m E :
  0 <= m <= 2 ^ 53 -> E <= 970 ->
  nonneg_finite (pack false m E) /\
  (val (pack false m E) == inject_Z m * pow2 E)%Q.
Proof.
  intros Hm HE. unfold pack.
  destruct (Z.eqb_spec m 0) as [-> | Hm0].
  - split; [exact I|]. cbn [val]. change (inject_Z 0) with 0%Q.
    rewrite Qmult_0_l. reflexivity.
  - destruct (Z.eqb_spec m (2 ^ 53)) as [-> | Hm53].
    + rewrite (proj2 (Z.leb_le (E + 1) 971)) by lia.
      split; [reflexivity|]. cbn [val].
      change (Z.pos (Z.to_pos (2 ^ 52))) with (2 ^ 52).
      rewrite <- !pow2_Z by lia. rewrite <- !pow2_add.
      replace (52 + (E + 1)) with (53 + E) by ring. reflexivity.
    + rewrite (proj2 (Z.leb_le E 971)) by lia.
      split; [reflexivity|]. cbn [val]. rewrite Z2Pos.id by lia. reflexivity.
Qed.

Lemma round_aux_Q N D e :
  0 <= N -> 0 < D ->
  e <= fexp prec emax (Zdigits2 (N / D) + e) ->
  let E := fexp prec emax (Zdigits2 (N / D) + e) in
  let x := (inject_Z N / inject_Z D * pow2 e)%Q in
  rne_div N (D * 2 ^ (E - e)) = rnd (x / pow2 E) /\ canonic x E.
Proof.
  intros HN HD HeE E x.
  assert (HEmin : -1074 <= E) by (unfold E; rewrite fexp_eq; lia).
  assert (HEd : Zdigits2 (N / D) + e - 53 <= E) by (unfold E; rewrite fexp_eq; lia).
  assert (HEmax : E = -1074 \/ (-1074 < E /\ E = Zdigits2 (N / D) + e - 53))
    by (unfold E; rewrite fexp_eq; lia).
  assert (Hp : 0 < 2 ^ (E - e)) by (apply Z.pow_pos_nonneg; lia).
  pose proof (pow2_pos e) as Pe. pose proof (pow2_pos E) as PE.
  pose proof (inject_Z_pos D HD) as PD.
  pose proof (Zdigits2_nonneg (N / D)) as Hd0.
  assert (Hq0 : 0 <= N / D) by (apply Z.div_pos; lia).
  pose proof (Z.div_mod N D ltac:(lia)) as Edm.
  pose proof (Z.mod_pos_bound N D HD) as Bm.
  split.
  - rewrite rne_div_rnd by nia. apply rnd_morph.
    rewrite inject_Z_mult, <- pow2_Z by lia.
    rewrite pow2_sub. unfold x. field. repeat split; lra.
  - split.
    + (* below the next binade *)
      assert (HNd : N < D * 2 ^ Zdigits2 (N / D)).
      { destruct (Z.eq_dec (N / D) 0) as [E0 | Hnz].
        - rewrite E0 in *. simpl. lia.
        - pose proof (Zdigits2_bounds (N / D) ltac:(lia)) as [_ Hhi]. nia. }
      pose proof (Qdiv_Z_lt _ _ _ HD HNd) as Hlt.
      rewrite <- pow2_Z in Hlt by lia.
      apply Qlt_le_trans with (pow2 (Zdigits2 (N / D)) * pow2 e)%Q.
      * unfold x. apply Qmult_lt_compat_r; assumption.
      * rewrite <- pow2_add. apply pow2_le. lia.
    + destruct HEmax as [HE | [HE1 HE2]]; [left; exact HE | right].
      split; [exact HE1|].
      assert (Hnz : N / D <> 0).
      { intros E0. rewrite E0 in HE2. simpl in HE2. lia. }
      pose proof (Zdigits2_bounds (N / D) ltac:(lia)) as [Hlo _].
      assert (Hge : D * 2 ^ (Zdigits2 (N / D) - 1) <= N) by nia.
      pose proof (Qdiv_Z_ge _ _ _ HD Hge) as Hle.
      assert (1 <= Zdigits2 (N / D)).
      { destruct (N / D); simpl; lia. }
      rewrite <- pow2_Z in Hle by lia.
      apply Qle_trans with (pow2 (Zdigits2 (N / D) - 1) * pow2 e)%Q.
      * rewrite <- pow2_add. apply pow2_le. lia.
      * unfold x. apply Qmult_le_compat_r; [exact Hle|lra].
Qed.

Theorem binary_round_aux_rounded N D e lx :
  0 <= N -> 0 < D ->
  shr_record_of_loc (N / D) lx = rec_of N D ->
  e <= fexp prec emax (Zdigits2 (N / D) + e) ->
  (inject_Z N / inject_Z D * pow2 e < pow2 1023)%Q ->
  rounded (inject_Z N / inject_Z D * pow2 e)
          (binary_round_aux prec emax false (N / D) e lx).
Proof.
  intros HN HD Hloc HeE Hx.
  destruct (binary_round_aux_rec_of false N D e lx HN HD Hloc HeE) as [Hr Hm].
  destruct (round_aux_Q N D e HN HD HeE) as [Hrnd Hc].
  pose proof (canonic_bound _ _ Hc Hx) as HE.
  destruct (val_pack _ _ Hm HE) as [Hnf Hv].
  rewrite Hr. split; [exact Hnf|].
  eexists. split; [exact Hc|]. rewrite Hv, Hrnd. reflexivity.
Qed.

(** [a / b] on positive integers rounds the exact quotient. *)
Theorem quot_rounded (p q : positive) :
  (inject_Z (Zpos p) / inject_Z (Zpos q) < pow2 1023)%Q ->
  rounded (inject_Z (Zpos p) / inject_Z (Zpos q)) (quot (Zpos p) (Zpos q)).
Proof.
  intros Hx. unfold quot, exact.
  destruct (SFdiv_exact false false p q) as (N & e & HN & He & EN & HeE & ->).
  cbn [xorb].
  assert (Hp : 0 < 2 ^ (- e)) by (apply Z.pow_pos_nonneg; lia).
  assert (Ex : (inject_Z N / inject_Z (Zpos q) * pow2 e
                == inject_Z (Zpos p) / inject_Z (Zpos q))%Q).
  { rewrite EN, inject_Z_mult, <- pow2_Z by lia.
    pose proof (pow2_add (- e) e) as Ea.
    replace (- e + e) with 0 in Ea by ring. rewrite pow2_0 in Ea.
    pose proof (inject_Z_pos (Zpos q) ltac:(lia)).
    transitivity (inject_Z (Zpos p) / inject_Z (Zpos q) * (pow2 (- e) * pow2 e))%Q.
    - field. lra.
    - rewrite <- Ea. field. lra. }
  apply (rounded_morph _ _ _ Ex).
  apply binary_round_aux_rounded;
    [lia | lia | apply new_location_rec_of; lia | exact HeE
    | rewrite Ex; exact Hx].
Qed.

(** [x * y] for a non-negative [x] and a positive normal [y]. *)
Theorem SFmul_rounded f (m2 : positive) e2 :
  nonneg_finite f -> 2 ^ 52 <= Zpos m2 ->
  (val f * val (S754_finite false m2 e2) < pow2 1023)%Q ->
  rounded (val f * val (S754_finite false m2 e2))
          (SFmul prec emax f (S754_finite false m2 e2)).
Proof.
  intros Hf Hm2 Hx. destruct f as [s| | |s m1 e1]; try contradiction.
  - cbn [SFmul val]. split; [exact I|]. exists (-1074). split.
    + split; [|left; reflexivity].
      pose proof (pow2_pos (-1074 + 53)). lra.
    + cbn [val].
      rewrite (rnd_morph _ (inject_Z 0))
        by (change (inject_Z 0) with 0%Q; field; apply pow2_neq0).
      rewrite rnd_Z. change (inject_Z 0) with 0%Q.
      rewrite !Qmult_0_l. reflexivity.
  - cbn [nonneg_finite] in Hf. subst s. cbn [SFmul xorb].
    set (N := Zpos (m1 * m2)).
    assert (HN : 2 ^ 52 <= N) by (unfold N; nia).
    assert (Ex : (inject_Z N / inject_Z 1 * pow2 (e1 + e2)
                  == val (S754_finite false m1 e1) * val (S754_finite false m2 e2))%Q).
    { cbn [val]. unfold N. rewrite Pos2Z.inj_mul, inject_Z_mult, pow2_add.
      field. }
    rewrite <- (Z.div_1_r N).
    apply (rounded_morph _ _ _ Ex).
    apply binary_round_aux_rounded; [lia | lia | | | rewrite Ex; exact Hx].
    + rewrite Z.div_1_r. apply rec_of_exact. lia.
    + rewrite Z.div_1_r, fexp_eq.
      pose proof (Zdigits2_ge N 52 ltac:(lia) HN). lia.
Qed.

Lemma val_nonneg f : nonneg_finite f -> (0 <= val f)%Q.
Proof.
  destruct f as [s| | |s m e]; cbn; intros H; try lra.
  subst s. pose proof (pow2_pos e).
  pose proof (inject_Z_pos (Zpos m) ltac:(lia)). nra.
Qed.

(** [int(x)] is the floor of a non-negative float. *)
Theorem to_int_val f :
  nonneg_finite f -> to_int f = Return (Qfloor (val f)).
Proof.
  destruct f as [s| | |s m e]; cbn [nonneg_finite]; intros H; try contradiction.
  - reflexivity.
  - subst s. cbn [to_int val]. f_equal.
    destruct (Z.le_gt_cases 0 e) as [He | He].
    + rewrite Z.shiftl_mul_pow2 by exact He.
      rewrite pow2_Z by exact He. rewrite <- inject_Z_mult.
      symmetry. apply Qfloor_Z.
    + rewrite <- (Z.opp_involutive e) at 1.
      rewrite Z.shiftl_opp_r, Z.shiftr_div_pow2 by lia.
      rewrite Zdiv_Qdiv. apply Qfloor_comp.
      rewrite <- pow2_Z by lia.
      pose proof (pow2_add (- e) e) as Ea.
      replace (- e + e) with 0 in Ea by ring. rewrite pow2_0 in Ea.
      pose proof (pow2_pos (- e)). pose proof (pow2_pos e).
      apply Qeq_sym.
      transitivity (inject_Z (Z.pos m) * pow2 e * (pow2 (- e) / pow2 (- e)))%Q.
      * field. lra.
      * transitivity (inject_Z (Z.pos m) * (pow2 (- e) * pow2 e) / pow2 (- e))%Q.
        -- field. lra.
        -- rewrite <- Ea. field. lra.
Qed.

Lemma rounded_unique x f g : rounded x f -> rounded x g -> (val f == val g)%Q.
Proof.
  intros Hf Hg. apply Qle_antisym; eapply rounded_mono; eauto; lra.
Qed.

Lemma one_rounded : rounded 1 (quot 1 1) /\ (val (quot 1 1) == 1)%Q.
Proof.
  split; [|vm_compute; reflexivity].
  apply (rounded_morph (inject_Z 1 / inject_Z 1)); [reflexivity|].
  apply quot_rounded.
  apply Qlt_le_trans with (pow2 1); [reflexivity|]. apply pow2_le. lia.
Qed.

Lemma hundred_val : (val (of_int 100) == 100)%Q.
Proof. vm_compute. reflexivity. Qed.

Lemma pow2_1023_big : (100 < pow2 1023)%Q.
Proof.
  apply Qlt_le_trans with (pow2 7); [reflexivity|]. apply pow2_le. lia.
Qed.

(** The quotient [a / n] of line 112, for [1 <= a <= n]. *)
Lemma ratio_rounded a n :
  1 <= a <= n ->
  exists q, int_truediv a n = Return q /\
            rounded (inject_Z a / inject_Z n) q /\ (val q <= 1)%Q.
Proof.
  intros Han.
  destruct a as [|p|p]; try lia. destruct n as [|p'|p']; try lia.
  assert (Hx1 : (inject_Z (Z.pos p) / inject_Z (Z.pos p') <= 1)%Q).
  { apply Qle_shift_div_r; [apply inject_Z_pos; lia|].
    rewrite Qmult_1_l, <- Zle_Qle. lia. }
  assert (Hr : rounded (inject_Z (Z.pos p) / inject_Z (Z.pos p'))
                       (quot (Z.pos p) (Z.pos p'))).
  { apply quot_rounded. pose proof pow2_1023_big. lra. }
  exists (quot (Z.pos p) (Z.pos p')). split; [|split].
  - unfold int_truediv. cbn [Z.eqb].
    destruct Hr as [Hnf _].
    destruct (quot (Z.pos p) (Z.pos p')); cbn in Hnf; try contradiction; reflexivity.
  - exact Hr.
  - destruct one_rounded as [H1 E1]. rewrite <- E1.
    eapply rounded_mono; eauto.
Qed.

(** The product [q * 100] of line 112. *)
Lemma percent_rounded q :
  nonneg_finite q -> (val q <= 1)%Q ->
  rounded (val q * 100) (mul q (of_int 100)).
Proof.
  intros Hq Hle.
  change (of_int 100) with (S754_finite false 7036874417766400 (-46)).
  pose proof hundred_val as H100.
  change (of_int 100) with (S754_finite false 7036874417766400 (-46)) in H100.
  pose proof (val_nonneg q Hq) as H0.
  apply (rounded_morph (val q * val (S754_finite false 7036874417766400 (-46)))).
  { rewrite H100. reflexivity. }
  apply SFmul_rounded; [exact Hq | vm_compute; discriminate |].
  rewrite H100. pose proof pow2_1023_big. nra.
Qed.

(** [progress_of] returns, and what it returns. *)
Theorem progress_of_rounded i n :
  0 <= i < n ->
  exists q r,
    rounded (inject_Z (i + 1) / inject_Z n) q /\ (val q <= 1)%Q /\
    rounded (val q * 100) r /\
    progress_of i n = Return (Qfloor (val r)).
Proof.
  intros Hin.
  destruct (ratio_rounded (i + 1) n ltac:(lia)) as (q & Eq & Hq & Hq1).
  exists q, (mul q (of_int 100)).
  pose proof (percent_rounded q (proj1 Hq) Hq1) as Hr.
  repeat split; try assumption; try apply Hq; try apply Hr.
  unfold progress_of. rewrite Eq. cbn [bind].
  apply to_int_val. apply Hr.
Qed.

Theorem progress_of_bounds i n p :
  0 <= i < n -> progress_of i n = Return p -> 0 <= p <= 100.
Proof.
  intros Hin Hp.
  destruct (progress_of_rounded i n Hin) as (q & r & Hq & Hq1 & Hr & E).
  rewrite E in Hp. injection Hp as <-.
  destruct one_rounded as [H1 E1].
  pose proof (percent_rounded (quot 1 1) (proj1 H1) ltac:(lra)) as H100.
  assert (Hv : (val (mul (quot 1 1) (of_int 100)) == 100)%Q)
    by (vm_compute; reflexivity).
  pose proof (val_nonneg q (proj1 Hq)) as Hq0.
  assert (Hle : (val r <= 100)%Q).
  { rewrite <- Hv. eapply rounded_mono; eauto. nra. }
  pose proof (val_nonneg r (proj1 Hr)) as Hr0.
  split.
  - change 0 with (Qfloor 0). apply Qfloor_resp_le, Hr0.
  - change 100 with (Qfloor 100). apply Qfloor_resp_le, Hle.
Qed.

Theorem progress_of_mono i j n p p' :
  0 <= i <= j -> j < n ->
  progress_of i n = Return p -> progress_of j n = Return p' -> p <= p'.
Proof.
  intros Hij Hjn Hp Hp'.
  destruct (progress_of_rounded i n ltac:(lia)) as (q & r & Hq & _ & Hr & E).
  destruct (progress_of_rounded j n ltac:(lia)) as (q' & r' & Hq' & _ & Hr' & E').
  rewrite E in Hp. rewrite E' in Hp'. injection Hp as <-. injection Hp' as <-.
  apply Qfloor_resp_le.
  eapply rounded_mono; eauto.
  apply Qmult_le_compat_r; [|lra].
  eapply rounded_mono; eauto.
  apply Qmult_le_compat_r.
  - rewrite <- Zle_Qle. lia.
  - apply Qlt_le_weak, Qinv_lt_0_compat, inject_Z_pos. lia.
Qed.

Theorem progress_of_last n : 0 < n -> progress_of (n - 1) n = Return 100.
Proof.
  intros Hn.
  destruct (progress_of_rounded (n - 1) n ltac:(lia)) as (q & r & Hq & _ & Hr & E).
  rewrite E. f_equal.
  destruct one_rounded as [H1 E1].
  assert (Hx : (inject_Z (n - 1 + 1) / inject_Z n == 1)%Q).
  { replace (n - 1 + 1) with n by ring. field.
    apply inject_Z_pos_neq0, Hn. }
  pose proof (rounded_unique _ _ _ (rounded_morph _ _ _ Hx Hq) H1) as Eq1.
  rewrite E1 in Eq1.
  pose proof (percent_rounded (quot 1 1) (proj1 H1) ltac:(lra)) as H100.
  assert (Hv : (val (mul (quot 1 1) (of_int 100)) == 100)%Q)
    by (vm_compute; reflexivity).
  assert (Hxr : (val q * 100 == val (quot 1 1) * 100)%Q) by (rewrite Eq1, E1; reflexivity).
  pose proof (rounded_unique _ _ _ (rounded_morph _ _ _ Hxr Hr) H100) as Er.
  rewrite Hv in Er. rewrite (Qfloor_comp _ _ Er). reflexivity.
Qed.

(** *** Integer division returns on dimensions of any realistic size *)

Lemma pack_finite s m E :
  0 <= m <= 2 ^ 53 -> E <= 970 ->
  match pack s m E with
  | S754_infinity _ | S754_nan => False
  | _ => True
  end.
Proof.
  intros Hm HE. unfold pack.
  destruct (Z.eqb_spec m 0); [exact I|].
  destruct (Z.eqb_spec m (2 ^ 53)).
  - rewrite (proj2 (Z.leb_le (E + 1) 971)) by lia. exact I.
  - rewrite (proj2 (Z.leb_le E 971)) by lia. exact I.
Qed.

Lemma SFdiv_exact_finite sx sy (p q : positive) :
  Zpos p < 2 ^ 1023 ->
  match SFdiv prec emax (S754_finite sx p 0) (S754_finite sy q 0) with
  | S754_infinity _ | S754_nan => False
  | _ => True
  end.
Proof.
  intros Hp.
  destruct (SFdiv_exact sx sy p q) as (N & e & HN & He & EN & HeE & ->).
  assert (Hpow : 0 < 2 ^ (- e)) by (apply Z.pow_pos_nonneg; lia).
  destruct (binary_round_aux_rec_of (xorb sx sy) N (Zpos q) e
              (new_location (Zpos q) (N mod Zpos q))
              ltac:(lia) ltac:(lia) (new_location_rec_of N (Zpos q) ltac:(lia)) HeE)
    as [-> Hm].
  destruct (round_aux_Q N (Zpos q) e ltac:(lia) ltac:(lia) HeE) as [_ Hc].
  apply pack_finite; [exact Hm|].
  apply (canonic_bound _ _ Hc).
  pose proof (pow2_pos e) as Pe.
  pose proof (inject_Z_pos (Zpos q) ltac:(lia)) as Pq.
  assert (Ex : (inject_Z N / inject_Z (Zpos q) * pow2 e
                == inject_Z (Zpos p) / inject_Z (Zpos q))%Q).
  { rewrite EN, inject_Z_mult, <- pow2_Z by lia.
    pose proof (pow2_add (- e) e) as Ea.
    replace (- e + e) with 0 in Ea by ring. rewrite pow2_0 in Ea.
    transitivity (inject_Z (Zpos p) / inject_Z (Zpos q) * (pow2 (- e) * pow2 e))%Q.
    - field. lra.
    - rewrite <- Ea. field. lra. }
  rewrite Ex.
  apply Qlt_le_trans with (inject_Z (2 ^ 1023)).
  - apply Qdiv_Z_lt; [lia|].
    assert (0 < 2 ^ 1023) by (apply Z.pow_pos_nonneg; lia). nia.
  - rewrite pow2_Z by lia. apply Qle_refl.
Qed.

Theorem int_truediv_returns a b :
  b <> 0 -> Z.abs a < 2 ^ 1023 -> exists q, int_truediv a b = Return q.
Proof.
  intros Hb Ha. unfold int_truediv.
  rewrite (proj2 (Z.eqb_neq b 0) Hb). unfold quot.
  destruct a as [|p|p]; destruct b as [|q|q]; try congruence; cbn [exact].
  1,2: eexists; reflexivity.
  all: match goal with
       | |- context [SFdiv _ _ (S754_finite ?sx ?p 0) (S754_finite ?sy ?q 0)] =>
           pose proof (SFdiv_exact_finite sx sy p q ltac:(lia)) as Hfin;
           destruct (SFdiv prec emax (S754_finite sx p 0) (S754_finite sy q 0));
           try contradiction; eexists; reflexivity
       end.
Qed.

End FloatFacts.

(** * The worker *)
Import Rounding FloatFacts.

(** ** The loop, one iteration at a time *)

Lemma run_from_cons ratio total env i file rest :
  is_running (env i) = true ->
  run_from ratio total env i (file :: rest)
  = match process_file ratio total (Z.of_nat i) file (env i) with
    | (evs, Some e) => (evs, Some e)
    | (evs, None) =>
        ((evs ++ fst (run_from ratio total env (S i) rest))%list,
         snd (run_from ratio total env (S i) rest))
    end.
Proof.
  intros Hrun. cbn [run_from]. rewrite Hrun. cbn [negb].
  destruct (process_file _ _ _ _ _) as [evs [e|]]; [reflexivity|].
  destruct (run_from _ _ _ _ _). reflexivity.
Qed.

Lemma error_detail_nonempty file e : (error_detail file e =? "")%string = false.
Proof. destruct e; reflexivity. Qed.

(** One step through a chain of binds: the computation at its head
    returns or raises, the stream looked for is there or not. *)
Ltac bind_step :=
  match goal with
  | |- context [bind ?m _] => destruct m; cbn [bind]
  | |- context [match ?o with Some _ => _ | None => _ end] => destruct o
  end.

(** The three ways the probe ends. *)
Lemma probe_cases reply :
  (exists md, probe reply = Return (Some md, None)) \/
  probe reply = Return (None, Some "No video stream found.") \/
  (exists e, probe reply = Raise e).
Proof. unfold probe. repeat bind_step; eauto. Qed.

(** The analysis ends with metadata and no error, or with no metadata and
    an error text that [if error:] takes as true. *)
Lemma get_video_metadata_cases file reply :
  (exists detail, get_video_metadata file reply = (None, Some detail) /\
                  truthy (Some detail) = true) \/
  (exists md, get_video_metadata file reply = (Some md, None)).
Proof.
  unfold get_video_metadata.
  destruct (probe_cases reply) as [(md & ->) | [-> | (e & ->)]].
  - right. eauto.
  - left. eexists. split; reflexivity.
  - left. eexists. split; [reflexivity|]. cbn [truthy].
    rewrite error_detail_nonempty. reflexivity.
Qed.

Lemma get_video_metadata_failure file reply :
  fst (get_video_metadata file reply) = None ->
  exists detail,
    get_video_metadata file reply = (None, Some detail) /\
    truthy (Some detail) = true.
Proof.
  intros Hfail.
  destruct (get_video_metadata_cases file reply) as [H | (md & Hg)];
    [exact H|].
  rewrite Hg in Hfail. discriminate Hfail.
Qed.

Lemma process_file_analysis_failure ratio total i file w detail :
  get_video_metadata file (ffprobe_reply w) = (None, Some detail) ->
  truthy (Some detail) = true ->
  process_file ratio total i file w = (analysis_failure_events file detail, None).
Proof.
  intros Hg Ht. unfold process_file.
  destruct (splitext file) as [base ext]. rewrite Hg, Ht. reflexivity.
Qed.



(** ** A failure stays with its file *)

(** C1. A file whose analysis fails (the probe raises, or the document has
    no video stream) leaves exactly the Analyzing status, the probe, the
    Analyze Failed status and an error event in the trace: no encoder
    run; and the loop goes on with the files that follow. *)
Theorem analysis_failure_is_isolated ratio total env i file rest :
  is_running (env i) = true ->
  fst (get_video_metadata file (ffprobe_reply (env i))) = None ->
  exists detail,
    snd (get_video_metadata file (ffprobe_reply (env i))) = Some detail /\
    encode_calls (analysis_failure_events file detail) = [] /\
    run_from ratio total env i (file :: rest)
    = ((analysis_failure_events file detail
          ++ fst (run_from ratio total env (S i) rest))%list,
       snd (run_from ratio total env (S i) rest)).
Proof.
  intros Hrun Hfail.
  destruct (get_video_metadata_failure _ _ Hfail) as (detail & Hg & Ht).
  exists detail. split; [rewrite Hg; reflexivity|]. split; [reflexivity|].
  rewrite run_from_cons by exact Hrun.
  rewrite (process_file_analysis_failure _ _ _ _ _ _ Hg Ht). reflexivity.
Qed.

Lemma progress_of_returns i n :
  0 <= i < n -> exists p, progress_of i n = Return p /\ 0 <= p <= 100.
Proof.
  intros Hin.
  destruct (progress_of_rounded i n Hin) as (q & r & _ & _ & _ & E).
  eexists. split; [exact E|]. exact (progress_of_bounds i n _ Hin E).
Qed.

Lemma process_file_encoded ratio total i file w md scale_filter tw th :
  get_video_metadata file (ffprobe_reply w) = (Some md, None) ->
  geometry ratio md = Return (scale_filter, tw, th) ->
  process_file ratio total i file w
  = let '(passes, pending) :=
      encode file scale_filter (fst (splitext file) ++ "_whatsapp.mp4") w in
    let '(last, out) := finally i total w pending in
    (([ update_status file "⚙️ Analyzing..."; subprocess_run (ffprobe_cmd file) ]
        ++ passes ++ last)%list, out).
Proof.
  intros Hg Hp. unfold process_file.
  destruct (splitext file) as [base ext]. rewrite Hg. cbn [truthy fst].
  rewrite Hp. reflexivity.
Qed.


(** ** The geometry *)

Lemma ratio_map_cases mode R :
  dict_find mode ratio_map = Some R ->
  (mode =? "Keep Original (Pad)")%string = false /\
  exists num den,
    dict_find mode crop_ratio = Some (num, den) /\
    target_size R
    = Return (if den <=? num then 1280 else 1280 * num / den,
              if den <=? num then 1280 * den / num else 1280).
Proof.
  unfold ratio_map, crop_ratio. cbn [dict_find].
  destruct (String.eqb_spec "Crop to 19.5:9 (Modern Phone)" mode) as [<- | N1].
  { intros H. injection H as <-. split; [reflexivity|].
    exists 39, 18. split; [reflexivity|]. vm_compute. reflexivity. }
  destruct (String.eqb_spec "Crop to 1:1 (Square)" mode) as [<- | N2].
  { intros H. injection H as <-. split; [reflexivity|].
    exists 1, 1. split; [reflexivity|]. vm_compute. reflexivity. }
  destruct (String.eqb_spec "Crop to 9:16 (Tall/Story)" mode) as [<- | N3].
  { intros H. injection H as <-. split; [reflexivity|].
    exists 9, 16. split; [reflexivity|]. vm_compute. reflexivity. }
  destruct (String.eqb_spec "Crop to 16:9 (Widescreen)" mode) as [<- | N4].
  { intros H. injection H as <-. split; [reflexivity|].
    exists 16, 9. split; [reflexivity|]. vm_compute. reflexivity. }
  discriminate.
Qed.

Lemma crop_ratio_cases mode num den :
  dict_find mode crop_ratio = Some (num, den) ->
  exists R, dict_find mode ratio_map = Some R.
Proof.
  unfold ratio_map, crop_ratio. cbn [dict_find].
  destruct (String.eqb_spec "Crop to 19.5:9 (Modern Phone)" mode); [eexists; reflexivity|].
  destruct (String.eqb_spec "Crop to 1:1 (Square)" mode); [eexists; reflexivity|].
  destruct (String.eqb_spec "Crop to 9:16 (Tall/Story)" mode); [eexists; reflexivity|].
  destruct (String.eqb_spec "Crop to 16:9 (Widescreen)" mode); [eexists; reflexivity|].
  discriminate.
Qed.

Lemma plan_crop mode R w h input_ar tw th :
  (mode =? "Keep Original (Pad)")%string = false ->
  dict_find mode ratio_map = Some R ->
  Float.int_truediv w h = Return input_ar ->
  target_size R = Return (tw, th) ->
  plan mode (w, h)
  = Return (crop_filter input_ar R ++ ",scale=" ++ str_int tw ++ ":" ++ str_int th,
            tw, th).
Proof.
  intros Hpad HR Hdiv Ht.
  unfold plan. rewrite Hpad, HR. cbn [bind]. rewrite Hdiv. cbn [bind].
  rewrite Ht. reflexivity.
Qed.


(** C5. The dimensions the planner works on are (height, width) for a
    rotation of 90 or 270 and (width, height) for a rotation of 0 or
    180. *)
Theorem effective_dims_by_rotation (mode : string) (w h : Z) :
  effective_dims {| width := w; height := h; rotation := 90 |} = (h, w) /\
  effective_dims {| width := w; height := h; rotation := 270 |} = (h, w) /\
  effective_dims {| width := w; height := h; rotation := 0 |} = (w, h) /\
  effective_dims {| width := w; height := h; rotation := 180 |} = (w, h) /\
  (forall md, geometry mode md = plan mode (effective_dims md)).
Proof. repeat split. Qed.

(** C7. In the pad mode the target is 1280x720 when the effective width
    is at least the effective height and 720x1280 otherwise, and the
    filter is a scale that fits into the target and keeps the aspect
    ratio, then a pad to the target, centred, in black. *)
Theorem pad_mode_plan (md : metadata) :
  geometry "Keep Original (Pad)" md
  = let '(w, h) := effective_dims md in
    let '(tw, th) := if h <=? w then (1280, 720) else (720, 1280) in
    Return (ff_then (ff_scale_to_fit tw th) (ff_pad_centered tw th "black"),
            tw, th).
Proof.
  unfold geometry, plan. destruct (effective_dims md) as [w h].
  cbn [String.eqb Ascii.eqb Bool.eqb]. unfold pad_plan.
  rewrite Z.geb_leb. destruct (h <=? w); reflexivity.
Qed.

(** C6. In a crop mode of ratio R, with the input ratio the quotient of
    the effective width by the effective height: when the input ratio
    exceeds R the filter crops the width to [ih*R] and keeps the height
    [ih]; otherwise it crops the height to [iw/R] and keeps the width
    [iw]; a scale to the target size follows. *)
Theorem crop_mode_filter mode R (md : metadata) input_ar :
  dict_find mode ratio_map = Some R ->
  Float.int_truediv (fst (effective_dims md)) (snd (effective_dims md))
  = Return input_ar ->
  exists tw th,
    target_size R = Return (tw, th) /\
    geometry mode md
    = Return (ff_then
                (if Float.gt input_ar R
                 then ff_crop ("ih*" ++ Float.repr R) "ih"
                 else ff_crop "iw" ("iw/" ++ Float.repr R))
                (ff_scale tw th),
              tw, th).
Proof.
  intros HR Hdiv. unfold geometry.
  destruct (effective_dims md) as [w h]. cbn [fst snd] in Hdiv.
  destruct (ratio_map_cases mode R HR) as (Hpad & num & den & _ & Ht).
  eexists _, _. split; [exact Ht|].
  rewrite (plan_crop _ _ _ _ _ _ _ Hpad HR Hdiv Ht).
  unfold crop_filter. destruct (Float.gt input_ar R); reflexivity.
Qed.

(** C4, as the code has it: the target size of a crop mode of ratio
    [R = num/den] is (1280, 1280/R) when R >= 1 and (1280*R, 1280)
    otherwise, the quotient and the product cut to their integer part:
    1280x720, 720x1280, 1280x1280 and 1280x590 for the four modes. *)
Theorem crop_mode_target_truncates mode num den (md : metadata) :
  dict_find mode crop_ratio = Some (num, den) ->
  well_formed md ->
  exists scale_filter,
    geometry mode md
    = Return (scale_filter,
              if den <=? num then 1280 else 1280 * num / den,
              if den <=? num then 1280 * den / num else 1280).
Proof.
  intros Hc [Hw Hh]. unfold geometry.
  assert (Hd : snd (effective_dims md) <> 0 /\ Z.abs (fst (effective_dims md)) < 2 ^ 1023).
  { unfold effective_dims. destruct (existsb _ _); cbn [fst snd]; lia. }
  destruct (effective_dims md) as [w h]. cbn [fst snd] in Hd.
  destruct (crop_ratio_cases mode num den Hc) as [R HR].
  destruct (ratio_map_cases mode R HR) as (Hpad & num' & den' & Hc' & Ht).
  rewrite Hc in Hc'. injection Hc' as <- <-.
  destruct (int_truediv_returns w h (proj1 Hd) (proj2 Hd)) as [q Hq].
  eexists. exact (plan_crop mode R w h q _ _ Hpad HR Hq Ht).
Qed.

(** C4, as the claim has it, fails on the 19.5:9 mode: the claim gives a
    height of round(590.77) = 591, the planner gives 590. *)
Lemma crop_target_is_not_rounded :
  let md := {| width := 1920; height := 1080; rotation := 0 |} in
  geometry "Crop to 19.5:9 (Modern Phone)" md
  = Return ("crop=iw:iw/2.1666666666666665,scale=1280:590", 1280, 590) /\
  spec_target 39 18 = (1280, 591) /\
  forall f tw th,
    geometry "Crop to 19.5:9 (Modern Phone)" md = Return (f, tw, th) ->
    (tw, th) <> spec_target 39 18.
Proof.
  assert (E : geometry "Crop to 19.5:9 (Modern Phone)"
                {| width := 1920; height := 1080; rotation := 0 |}
              = Return ("crop=iw:iw/2.1666666666666665,scale=1280:590", 1280, 590))
    by (vm_compute; reflexivity).
  cbv zeta. split; [exact E|]. split; [vm_compute; reflexivity|].
  intros f tw th H. rewrite E in H. injection H as <- <- <-.
  vm_compute. discriminate.
Qed.

(** ** The probe *)

Lemma probe_video_stream doc members w h :
  video_stream_of doc members ->
  int_field members "width" w -> int_field members "height" h ->
  probe (Return doc)
  = (tags <- get (JDict members) "tags" (JDict []) ;;
     rotate <- get tags "rotate" (JInt 0) ;;
     rotation <- int rotate ;;
     Return (Some {| width := w; height := h; rotation := rotation |}, None)).
Proof.
  intros (streams & items & Hs & Hi & Hv) (vw & Hw & Ew) (vh & Hh & Eh).
  unfold probe. cbn [bind]. rewrite Hs. cbn [bind]. rewrite Hi. cbn [bind].
  rewrite Hv. cbn [bind subscript]. rewrite Hw. cbn [bind]. rewrite Ew.
  cbn [bind]. rewrite Hh. cbn [bind]. rewrite Eh. reflexivity.
Qed.

Lemma probe_rotate_present doc members w h v :
  video_stream_of doc members ->
  int_field members "width" w -> int_field members "height" h ->
  rotate_present members v ->
  probe (Return doc)
  = (rotation <- int v ;;
     Return (Some {| width := w; height := h; rotation := rotation |}, None)).
Proof.
  intros Hv Hw Hh (tags & Ht & Hr).
  rewrite (probe_video_stream doc members w h Hv Hw Hh).
  cbn [get]. rewrite Ht. cbn [bind get]. rewrite Hr. reflexivity.
Qed.

(** C8, as the code has it: on a document with a video stream whose width
    and height read as integers, the rotation is 0 and the probe succeeds
    when the rotate tag is absent; when the tag is there and [int] rejects
    it, the probe fails with the error text and no metadata. *)
Theorem rotation_default_and_unparsable file doc members w h :
  video_stream_of doc members ->
  int_field members "width" w -> int_field members "height" h ->
  (rotate_absent members ->
   get_video_metadata file (Return doc)
   = (Some {| width := w; height := h; rotation := 0 |}, None)) /\
  (forall v e,
     rotate_present members v -> int v = Raise e ->
     get_video_metadata file (Return doc) = (None, Some (error_detail file e))).
Proof.
  intros Hv Hw Hh. split.
  - intros Habs. unfold get_video_metadata.
    rewrite (probe_video_stream doc members w h Hv Hw Hh). cbn [get].
    destruct Habs as [Ht | (tags & Ht & Hr)]; rewrite Ht; cbn [bind get].
    + reflexivity.
    + rewrite Hr. reflexivity.
  - intros v e Hp He. unfold get_video_metadata.
    rewrite (probe_rotate_present doc members w h v Hv Hw Hh Hp), He.
    reflexivity.
Qed.

(** C8, as the claim has it, fails on a rotate tag that is not a number:
    the probe does not succeed with rotation 0, it fails. *)
Lemma unparsable_rotation_fails_the_probe :
  let members := [ ("codec_type", JStr "video"); ("width", JInt 1920);
                   ("height", JInt 1080);
                   ("tags", JDict [("rotate", JStr "abc")]) ] in
  let doc := JDict [("streams", JList [JDict members])] in
  video_stream_of doc members /\
  rotate_present members (JStr "abc") /\
  int (JStr "abc")
  = Raise (ValueError "invalid literal for int() with base 10: 'abc'") /\
  fst (get_video_metadata "/videos/clip.mp4" (Return doc)) = None /\
  get_video_metadata "/videos/clip.mp4" (Return doc)
  <> (Some {| width := 1920; height := 1080; rotation := 0 |}, None).
Proof.
  cbv zeta. split; [|split; [|split; [|split]]].
  - eexists _, _. repeat split; reflexivity.
  - eexists. split; reflexivity.
  - reflexivity.
  - reflexivity.
  - vm_compute. discriminate.
Qed.

(** C10. Whatever integer the rotate tag reads as, the probe succeeds and
    returns it as it is, and the planner swaps width and height exactly
    when it is 90 or 270: any other value, -90 or 45 say, leaves the raw
    dimensions. *)
Theorem rotation_is_not_validated file doc members w h v r :
  video_stream_of doc members ->
  int_field members "width" w -> int_field members "height" h ->
  rotate_present members v -> int v = Return r ->
  get_video_metadata file (Return doc)
  = (Some {| width := w; height := h; rotation := r |}, None) /\
  effective_dims {| width := w; height := h; rotation := r |}
  = (if (r =? 90) || (r =? 270) then (h, w) else (w, h)).
Proof.
  intros Hv Hw Hh Hp Hr. split.
  - unfold get_video_metadata.
    rewrite (probe_rotate_present doc members w h v Hv Hw Hh Hp), Hr.
    reflexivity.
  - unfold effective_dims. cbn [existsb rotation width height].
    rewrite orb_false_r. reflexivity.
Qed.

(** ** The loop as a whole *)

Lemma progress_events_app evs evs' :
  progress_events (evs ++ evs') = (progress_events evs ++ progress_events evs')%list.
Proof. unfold progress_events. apply flat_map_app. Qed.

Lemma count_finished_app evs evs' :
  count_finished (evs ++ evs') = (count_finished evs + count_finished evs')%nat.
Proof. unfold count_finished. rewrite filter_app, length_app. reflexivity. Qed.

Lemma encode_progress file f out w :
  progress_events (fst (encode file f out w)) = [].
Proof.
  unfold encode, handler.
  destruct (pass1_reply w) as [[]|e1];
    [destruct (pass2_reply w) as [[]|e2]; [|destruct e2] | destruct e1];
    reflexivity.
Qed.

Lemma cleanup_progress w : progress_events (cleanup w) = [].
Proof.
  unfold cleanup. cbn [flat_map].
  destruct (path_exists w "ffmpeg2pass-0.log");
    destruct (path_exists w "ffmpeg2pass-0.log.mbtree"); reflexivity.
Qed.

Section Batch.

Variable ratio : string.
Variable n : Z.
Variable env : nat -> world.

(** Whatever happens in an iteration, it does not signal the end of the
    batch, and it reports at most one progress value, that of line 112. *)
Lemma process_file_shape i file w :
  count_finished (fst (process_file ratio n i file w)) = 0%nat /\
  (progress_events (fst (process_file ratio n i file w)) = [] \/
   exists p, progress_events (fst (process_file ratio n i file w)) = [p] /\
             progress_of i n = Return p).
Proof.
  unfold process_file.
  destruct (splitext file) as [base ext].
  destruct (get_video_metadata file (ffprobe_reply w)) as [metadata error].
  destruct (truthy error); [split; [reflexivity | left; reflexivity]|].
  destruct metadata as [md|]; [|split; [reflexivity | left; reflexivity]].
  destruct (geometry ratio md) as [[[f tw] th]|e];
    [|split; [reflexivity | left; reflexivity]].
  unfold encode, finally, handler, cleanup. cbn [flat_map].
  destruct (pass1_reply w) as [[]|e1];
    [destruct (pass2_reply w) as [[]|e2]; [|destruct e2] | destruct e1];
    destruct (progress_of i n) as [p|e'];
    destruct (path_exists w "ffmpeg2pass-0.log");
    destruct (path_exists w "ffmpeg2pass-0.log.mbtree");
    (split; [reflexivity | first [left; reflexivity
                                 | right; eexists; split; reflexivity]]).
Qed.

(** The progress values of the loop from index [i] on are non-decreasing,
    and each is the value of line 112 at an index from [i] on. *)
Lemma run_from_progress files : forall i,
  Z.of_nat (i + List.length files) <= n ->
  let ps := progress_events (fst (run_from ratio n env i files)) in
  StronglySorted Z.le ps /\
  Forall (fun p => exists k, Z.of_nat i <= k < n /\ progress_of k n = Return p) ps.
Proof.
  induction files as [|file rest IH]; intros i Hlen; cbn [run_from].
  - split; constructor.
  - cbn [List.length] in Hlen.
    destruct (is_running (env i)); cbn [negb]; [|split; constructor].
    pose proof (process_file_shape (Z.of_nat i) file (env i)) as [_ Hp].
    destruct (process_file ratio n (Z.of_nat i) file (env i)) as [evs out].
    cbn [fst] in Hp.
    destruct (IH (S i) ltac:(lia)) as [Hs Hf].
    destruct (run_from ratio n env (S i) rest) as [evs' out'] eqn:Erest.
    cbn [fst] in Hs, Hf.
    assert (Hhead : StronglySorted Z.le (progress_events evs) /\
                    Forall (fun p => exists k, Z.of_nat i <= k < n /\
                                               progress_of k n = Return p)
                           (progress_events evs)).
    { destruct Hp as [-> | (p & -> & Ep)]; [split; constructor|].
      split; [repeat constructor|].
      constructor; [|constructor]. exists (Z.of_nat i). split; [lia | exact Ep]. }
    destruct out as [e|]; cbn [fst]; [exact Hhead|].
    rewrite progress_events_app.
    destruct Hp as [-> | (p & -> & Ep)]; cbn [app].
    + split; [exact Hs|].
      eapply Forall_impl; [|exact Hf].
      intros p' (k & Hk & Ek). exists k. split; [lia | exact Ek].
    + split.
      * constructor; [exact Hs|].
        eapply Forall_impl; [|exact Hf].
        intros p' (k & Hk & Ek).
        apply (progress_of_mono (Z.of_nat i) k n p p'); [lia | lia | exact Ep | exact Ek].
      * constructor; [exists (Z.of_nat i); split; [lia | exact Ep]|].
        eapply Forall_impl; [|exact Hf].
        intros p' (k & Hk & Ek). exists k. split; [lia | exact Ek].
Qed.

Hypothesis Hmode : valid_mode ratio.




End Batch.

(** C3, as the code has it.  The progress values of a batch are
    non-decreasing; and for the file of index [i] (file [i+1] of [n]), once
    its analysis succeeded, whatever becomes of the two passes, the
    iteration reports one progress value: [int(((i+1)/n)*100)], the
    binary64 quotient times 100, rounded to binary64 and cut to its
    integer part. *)
Theorem progress_is_truncated_and_monotone (self : ConversionWorker)
    (env : nat -> world) :
  let n := Z.of_nat (List.length (files_to_process self)) in
  StronglySorted Z.le (progress_events (fst (run self env))) /\
  forall i file md plan,
    nth_error (files_to_process self) i = Some file ->
    get_video_metadata file (ffprobe_reply (env i)) = (Some md, None) ->
    geometry (selected_ratio_str self) md = Return plan ->
    exists p q r,
      progress_events
        (fst (process_file (selected_ratio_str self) n (Z.of_nat i) file (env i)))
      = [p] /\
      progress_of (Z.of_nat i) n = Return p /\
      rounded (inject_Z (Z.of_nat i + 1) / inject_Z n) q /\
      rounded (val q * 100) r /\
      p = Qfloor (val r).
Proof.
  intros n. split.
  - unfold run. fold n.
    pose proof (run_from_progress (selected_ratio_str self) n env
                  (files_to_process self) 0%nat ltac:(unfold n; lia)) as [Hs _].
    destruct (run_from _ n env 0 _) as [evs [e|]]; cbn [fst] in *; [exact Hs|].
    rewrite progress_events_app. cbn [progress_events flat_map app].
    rewrite app_nil_r. exact Hs.
  - intros i file md [[f tw] th] Hnth Hg Hplan.
    assert (Hi : (i < List.length (files_to_process self))%nat)
      by (apply nth_error_Some; congruence).
    destruct (progress_of_rounded (Z.of_nat i) n ltac:(unfold n; lia))
      as (q & r & Hq & _ & Hr & Ep).
    exists (Qfloor (val r)), q, r.
    split; [|split; [exact Ep | split; [exact Hq | split; [exact Hr | reflexivity]]]].
    rewrite (process_file_encoded _ _ _ _ _ _ _ _ _ Hg Hplan).
    pose proof (encode_progress file f (fst (splitext file) ++ "_whatsapp.mp4") (env i)) as He.
    destruct (encode file f _ (env i)) as [passes pending]. cbn [fst] in He.
    unfold finally. rewrite Ep. cbn [fst].
    rewrite !progress_events_app, He. cbn [progress_events flat_map app].
    fold (progress_events (cleanup (env i))). rewrite cleanup_progress.
    reflexivity.
Qed.



(** C3, as the claim has it, fails.  In a batch of three files that all
    convert, the second progress value is 66, not round(200/3) = 67.  When
    the analysis of the second file fails, no progress value is reported
    for it.  Nor is the value the integer part of the exact quotient: file
    29 of 100 reports 28; and two files in a row can report the same
    value, as files 2 and 3 of 200 do. *)
Lemma progress_is_not_rounded :
  progress_events (fst (run Sample.three_files (fun _ => Sample.converts)))
  = [33; 66; 100] /\
  map (fun i => spec_progress i 3) [1; 2; 3] = [33; 67; 100] /\
  nth_error (progress_events
               (fst (run Sample.three_files (fun _ => Sample.converts)))) 1
  <> Some (spec_progress 2 3) /\
  progress_events (fst (run Sample.three_files Sample.second_fails)) = [33; 100] /\
  (progress_of 28 100 = Return 28 /\ 100 * 29 / 100 = 29) /\
  (progress_of 1 200 = Return 1 /\ progress_of 2 200 = Return 1).
Proof.
  split; [vm_compute; reflexivity|].
  split; [vm_compute; reflexivity|].
  split; [vm_compute; discriminate|].
  split; [vm_compute; reflexivity|].
  split; split; vm_compute; reflexivity.
Qed.

(** ** The scenarios of the specification *)

Example scenario_square_crop :
  geometry "Crop to 1:1 (Square)"
    {| width := 1920; height := 1080; rotation := 0 |}
  = Return ("crop=ih*1.0:ih,scale=1280:1280", 1280, 1280).
Proof. vm_compute. reflexivity. Qed.

Example scenario_rotated_pad :
  geometry "Keep Original (Pad)"
    {| width := 1080; height := 1920; rotation := 90 |}
  = Return ("scale=w=1280:h=720:force_original_aspect_ratio=decrease,pad=1280:720:(ow-iw)/2:(oh-ih)/2:color=black",
            1280, 720).
Proof. vm_compute. reflexivity. Qed.

Example scenario_crop_filters :
  map (fun mode => geometry mode {| width := 1920; height := 1080; rotation := 0 |})
    (map fst ratio_map)
  = [ Return ("crop=iw:iw/1.7777777777777777,scale=1280:720", 1280, 720);
      Return ("crop=ih*0.5625:ih,scale=720:1280", 720, 1280);
      Return ("crop=ih*1.0:ih,scale=1280:1280", 1280, 1280);
      Return ("crop=iw:iw/2.1666666666666665,scale=1280:590", 1280, 590) ].
Proof. vm_compute. reflexivity. Qed.

Example scenario_no_video_stream :
  process_file "Keep Original (Pad)" 3 1 "/videos/b.mov" Sample.no_video
  = (analysis_failure_events "/videos/b.mov" "No video stream found.", None).
Proof. vm_compute. reflexivity. Qed.

Example scenario_early_termination :
  run Sample.three_files Sample.stop_after_first
  = ((fst (process_file "Keep Original (Pad)" 3 0 "/videos/a.mp4" Sample.converts)
        ++ [finished])%list,
     None).
Proof. vm_compute. reflexivity. Qed.

(** ** The claims at sample inputs *)

Lemma analysis_failure_is_isolated_witness :
  is_running (Sample.second_fails 1) = true /\
  fst (get_video_metadata "/videos/b.mov"
         (ffprobe_reply (Sample.second_fails 1))) = None /\
  exists detail,
    snd (get_video_metadata "/videos/b.mov"
           (ffprobe_reply (Sample.second_fails 1))) = Some detail /\
    encode_calls (analysis_failure_events "/videos/b.mov" detail) = [] /\
    run_from "Keep Original (Pad)" 3 Sample.second_fails 1
      ["/videos/b.mov"; "/videos/c.mkv"]
    = ((analysis_failure_events "/videos/b.mov" detail
          ++ fst (run_from "Keep Original (Pad)" 3 Sample.second_fails 2
                    ["/videos/c.mkv"]))%list,
       snd (run_from "Keep Original (Pad)" 3 Sample.second_fails 2
              ["/videos/c.mkv"])).
Proof.
  split; [reflexivity|]. split; [reflexivity|].
  apply analysis_failure_is_isolated; reflexivity.
Defined.


Lemma progress_is_truncated_and_monotone_witness :
  exists p q r,
    progress_events
      (fst (process_file "Keep Original (Pad)" 3 1 "/videos/b.mov" Sample.converts))
    = [p] /\
    progress_of 1 3 = Return p /\
    rounded (inject_Z (1 + 1) / inject_Z 3) q /\
    rounded (val q * 100) r /\
    p = Qfloor (val r).
Proof.
  apply (proj2 (progress_is_truncated_and_monotone Sample.three_files
                  (fun _ => Sample.converts))
           1%nat "/videos/b.mov"
           {| width := 1920; height := 1080; rotation := 0 |}
           (pad_plan 1920 1080)).
  - reflexivity.
  - vm_compute. reflexivity.
  - vm_compute. reflexivity.
Defined.

Lemma crop_mode_target_truncates_witness :
  dict_find "Crop to 19.5:9 (Modern Phone)" crop_ratio = Some (39, 18) /\
  well_formed {| width := 1080; height := 1920; rotation := 90 |} /\
  exists scale_filter,
    geometry "Crop to 19.5:9 (Modern Phone)"
      {| width := 1080; height := 1920; rotation := 90 |}
    = Return (scale_filter, 1280, 590).
Proof.
  assert (Hwf : well_formed {| width := 1080; height := 1920; rotation := 90 |}).
  { unfold well_formed. cbn [width height].
    assert (2 ^ 11 <= 2 ^ 1023) by (apply Z.pow_le_mono_r; lia).
    change (2 ^ 11) with 2048 in *. lia. }
  split; [reflexivity|]. split; [exact Hwf|].
  exact (crop_mode_target_truncates "Crop to 19.5:9 (Modern Phone)" 39 18
           {| width := 1080; height := 1920; rotation := 90 |} eq_refl Hwf).
Defined.

Lemma crop_mode_filter_witness :
  exists tw th,
    target_size (Float.lit 1 0) = Return (tw, th) /\
    geometry "Crop to 1:1 (Square)"
      {| width := 1920; height := 1080; rotation := 0 |}
    = Return (ff_then
                (if Float.gt (Float.quot 1920 1080) (Float.lit 1 0)
                 then ff_crop ("ih*" ++ Float.repr (Float.lit 1 0)) "ih"
                 else ff_crop "iw" ("iw/" ++ Float.repr (Float.lit 1 0)))
                (ff_scale tw th),
              tw, th).
Proof.
  apply (crop_mode_filter "Crop to 1:1 (Square)" (Float.lit 1 0)
           {| width := 1920; height := 1080; rotation := 0 |}
           (Float.quot 1920 1080)).
  - reflexivity.
  - vm_compute. reflexivity.
Defined.

Lemma rotation_default_and_unparsable_witness :
  get_video_metadata "/videos/a.mp4" (Return (Sample.doc []))
  = (Some {| width := 1920; height := 1080; rotation := 0 |}, None) /\
  get_video_metadata "/videos/a.mp4"
    (Return (Sample.doc (Sample.rotated "ninety")))
  = (None,
     Some (error_detail "/videos/a.mp4"
             (ValueError "invalid literal for int() with base 10: 'ninety'"))).
Proof.
  split.
  - apply (proj1 (rotation_default_and_unparsable "/videos/a.mp4"
                    (Sample.doc []) (Sample.video []) 1920 1080
                    ltac:(eexists _, _; repeat split; reflexivity)
                    ltac:(eexists; split; reflexivity)
                    ltac:(eexists; split; reflexivity))).
    left. reflexivity.
  - apply (proj2 (rotation_default_and_unparsable "/videos/a.mp4"
                    (Sample.doc (Sample.rotated "ninety"))
                    (Sample.video (Sample.rotated "ninety")) 1920 1080
                    ltac:(eexists _, _; repeat split; reflexivity)
                    ltac:(eexists; split; reflexivity)
                    ltac:(eexists; split; reflexivity))
             (JStr "ninety")).
    + eexists. split; reflexivity.
    + reflexivity.
Defined.

Lemma rotation_is_not_validated_witness :
  get_video_metadata "/videos/a.mp4"
    (Return (Sample.doc (Sample.rotated "-90")))
  = (Some {| width := 1920; height := 1080; rotation := -90 |}, None) /\
  effective_dims {| width := 1920; height := 1080; rotation := -90 |}
  = (if (-90 =? 90) || (-90 =? 270) then (1080, 1920) else (1920, 1080)).
Proof.
  apply (rotation_is_not_validated "/videos/a.mp4"
           (Sample.doc (Sample.rotated "-90"))
           (Sample.video (Sample.rotated "-90")) 1920 1080 (JStr "-90") (-90)).
  - eexists _, _. repeat split; reflexivity.
  - eexists. split; reflexivity.
  - eexists. split; reflexivity.
  - eexists. split; reflexivity.
  - reflexivity.
Defined.


(** * More on the worker *)

(** Every event of the loop comes from the iteration of some file that the
    loop reached with the flag set. *)
Lemma run_from_In ratio n env files : forall i ev,
  In ev (fst (run_from ratio n env i files)) ->
  exists k file,
    nth_error files k = Some file /\
    is_running (env (i + k)%nat) = true /\
    In ev (fst (process_file ratio n (Z.of_nat (i + k)) file (env (i + k)%nat))).
Proof.
  induction files as [|file rest IH]; intros i ev; cbn [run_from fst].
  - intros [].
  - destruct (is_running (env i)) eqn:Hrun; cbn [negb]; [|intros []].
    destruct (process_file ratio n (Z.of_nat i) file (env i)) as [evs out] eqn:Ep.
    assert (Hhead : In ev evs ->
                    exists k f, nth_error (file :: rest) k = Some f /\
                      is_running (env (i + k)%nat) = true /\
                      In ev (fst (process_file ratio n (Z.of_nat (i + k)) f
                                    (env (i + k)%nat)))).
    { intros Hin. exists 0%nat, file. rewrite Nat.add_0_r, Ep.
      repeat split; assumption. }
    destruct out as [e|]; cbn [fst]; [exact Hhead|].
    destruct (run_from ratio n env (S i) rest) as [evs' out'] eqn:Er.
    cbn [fst]. intros Hin. apply in_app_or in Hin. destruct Hin as [Hin | Hin].
    + exact (Hhead Hin).
    + specialize (IH (S i) ev). rewrite Er in IH.
      destruct (IH Hin) as (k & f & Hk & Hr & Hi).
      exists (S k), f. replace (i + S k)%nat with (S i + k)%nat by lia.
      repeat split; assumption.
Qed.

Lemma run_from_count_finished ratio n env files : forall i,
  count_finished (fst (run_from ratio n env i files)) = 0%nat.
Proof.
  induction files as [|file rest IH]; intros i; cbn [run_from].
  - reflexivity.
  - destruct (is_running (env i)); cbn [negb]; [|reflexivity].
    pose proof (process_file_shape ratio n (Z.of_nat i) file (env i)) as [Hc _].
    destruct (process_file ratio n (Z.of_nat i) file (env i)) as [evs [e|]];
      cbn [fst] in *; [exact Hc|].
    specialize (IH (S i)).
    destruct (run_from ratio n env (S i) rest) as [evs' out']. cbn [fst] in *.
    rewrite count_finished_app, Hc, IH. reflexivity.
Qed.

Lemma finished_or_not (self : ConversionWorker) (env : nat -> world) :
  match snd (run self env) with
  | None => exists evs, fst (run self env) = (evs ++ [finished])%list /\
                        count_finished evs = 0%nat
  | Some _ => count_finished (fst (run self env)) = 0%nat
  end.
Proof.
  unfold run.
  pose proof (run_from_count_finished (selected_ratio_str self)
                (Z.of_nat (List.length (files_to_process self))) env
                (files_to_process self) 0%nat) as Hc.
  destruct (run_from _ _ env 0 _) as [evs [e|]]; cbn [fst snd] in *.
  - exact Hc.
  - exists evs. split; [reflexivity | exact Hc].
Qed.

(** X1. [finished] is signalled exactly when [run] returns: then it is
    the last event and the only one of its kind; when an exception leaves
    the loop, the trace has none. *)
Theorem finished_iff_run_returns (self : ConversionWorker) (env : nat -> world) :
  (snd (run self env) = None <-> In finished (fst (run self env))) /\
  count_finished (fst (run self env)) = match snd (run self env) with Some _ => 0 | None => 1 end%nat /\
  (snd (run self env) = None -> last (fst (run self env)) finished = finished).
Proof.
  pose proof (finished_or_not self env) as H.
  assert (Hno : forall evs, count_finished evs = 0%nat -> ~ In finished evs).
  { induction evs as [|ev evs IH]; [intros _ []|].
    intros Hc [-> | Hin]; [discriminate Hc|].
    apply IH; [|exact Hin]. destruct ev; try discriminate Hc; exact Hc. }
  destruct (snd (run self env)) as [e|].
  - split; [|split; [exact H | discriminate]].
    split; [discriminate|]. intros Hin. exfalso. exact (Hno _ H Hin).
  - destruct H as (evs & -> & Hc).
    split; [|split].
    + split; [|reflexivity]. intros _. apply in_or_app. right. left. reflexivity.
    + rewrite count_finished_app, Hc. reflexivity.
    + intros _. apply last_last.
Qed.

Lemma run_from_progress_count ratio n env files : forall i,
  (List.length (progress_events (fst (run_from ratio n env i files)))
   <= List.length files)%nat.
Proof.
  induction files as [|file rest IH]; intros i; cbn [run_from].
  - cbn. lia.
  - destruct (is_running (env i)); cbn [negb]; [|cbn; lia].
    pose proof (process_file_shape ratio n (Z.of_nat i) file (env i)) as [_ Hp].
    destruct (process_file ratio n (Z.of_nat i) file (env i)) as [evs [e|]];
      cbn [fst] in *.
    + destruct Hp as [-> | (p & -> & _)]; cbn; lia.
    + specialize (IH (S i)).
      destruct (run_from ratio n env (S i) rest) as [evs' out']. cbn [fst] in *.
      rewrite progress_events_app, length_app.
      destruct Hp as [-> | (p & -> & _)]; cbn [List.length]; lia.
Qed.

(** X2. Whatever happens in a batch, every progress value it reports lies
    between 0 and 100, and there are at most as many as files. *)
Theorem progress_stays_in_range (self : ConversionWorker) (env : nat -> world) :
  Forall (fun p => 0 <= p <= 100) (progress_events (fst (run self env))) /\
  (List.length (progress_events (fst (run self env)))
   <= List.length (files_to_process self))%nat.
Proof.
  unfold run.
  set (n := Z.of_nat (List.length (files_to_process self))).
  pose proof (run_from_progress (selected_ratio_str self) n env
                (files_to_process self) 0%nat ltac:(unfold n; lia)) as [_ Hf].
  pose proof (run_from_progress_count (selected_ratio_str self) n env
                (files_to_process self) 0%nat) as Hl.
  assert (Hr : Forall (fun p => 0 <= p <= 100)
                 (progress_events (fst (run_from (selected_ratio_str self) n env 0
                                          (files_to_process self))))).
  { eapply Forall_impl; [|exact Hf].
    intros p (k & Hk & Ek). apply (progress_of_bounds k n p); [lia | exact Ek]. }
  destruct (run_from _ n env 0 _) as [evs [e|]]; cbn [fst] in *.
  - split; assumption.
  - rewrite progress_events_app. cbn [progress_events flat_map app].
    rewrite app_nil_r. split; assumption.
Qed.

(** X3. Once an iteration finds the flag cleared, the files from there on
    leave no trace: the loop over the whole list is the loop over the
    files before it. *)
Theorem stop_flag_ends_the_loop ratio n env pre rest : forall i,
  is_running (env (i + List.length pre)%nat) = false ->
  run_from ratio n env i (pre ++ rest) = run_from ratio n env i pre.
Proof.
  induction pre as [|file pre IH]; intros i Hstop.
  - cbn [List.length] in Hstop. rewrite Nat.add_0_r in Hstop.
    destruct rest as [|f rest]; [reflexivity|].
    cbn [app run_from]. rewrite Hstop. reflexivity.
  - cbn [app run_from].
    destruct (is_running (env i)); cbn [negb]; [|reflexivity].
    destruct (process_file ratio n (Z.of_nat i) file (env i)) as [evs [e|]];
      [reflexivity|].
    rewrite (IH (S i)); [reflexivity|].
    cbn [List.length] in Hstop.
    replace (S i + List.length pre)%nat with (i + S (List.length pre))%nat by lia.
    exact Hstop.
Qed.

(** The cases of an iteration: the analysis fails; it leaves no metadata
    and no error; the plan raises; or the two passes are tried. *)
Ltac iteration_cases ratio n i file w :=
  unfold process_file;
  destruct (splitext file) as [base ext];
  destruct (get_video_metadata file (ffprobe_reply w)) as [metadata error] eqn:Hg;
  destruct (truthy error) eqn:Ht;
  [| destruct metadata as [md|];
     [ destruct (geometry ratio md) as [[[f tw] th]|e] eqn:Hplan;
       [ unfold encode, finally, handler, cleanup; cbn [flat_map];
         destruct (pass1_reply w) as [[]|e1] eqn:H1;
         [ destruct (pass2_reply w) as [[]|e2] eqn:H2; [|destruct e2] | destruct e1 ];
         destruct (progress_of i n) as [p|e'];
         destruct (path_exists w "ffmpeg2pass-0.log");
         destruct (path_exists w "ffmpeg2pass-0.log.mbtree")
       | ]
     | ] ].

Lemma process_file_done ratio n i file w f0 :
  In (update_status f0 "✅ Done") (fst (process_file ratio n i file w)) ->
  f0 = file /\
  pass1_reply w = Return tt /\ pass2_reply w = Return tt /\
  exists md, get_video_metadata file (ffprobe_reply w) = (Some md, None).
Proof.
  iteration_cases ratio n i file w; cbn [fst app In];
    intros Hin;
    repeat match goal with
           | H : _ \/ _ |- _ => destruct H as [H | H]
           | H : False |- _ => destruct H
           | H : update_status _ _ = update_status _ _ |- _ =>
               first [discriminate H | injection H as <-]
           | H : _ = update_status _ _ |- _ => discriminate H
           end.
  all: repeat split; try reflexivity.
  all: pose proof (get_video_metadata_cases file (ffprobe_reply w)) as Hcases;
    rewrite Hg in Hcases;
    destruct Hcases as [(d & Hd & _) | (md' & Hd)]; [discriminate Hd|];
    exists md'; exact Hd.
Qed.

(** X4. A file is reported Done only by an iteration on that path whose
    analysis succeeded and whose two passes both exited with status 0. *)
Theorem done_means_both_passes_succeeded (self : ConversionWorker)
    (env : nat -> world) (file : string) :
  In (update_status file "✅ Done") (fst (run self env)) ->
  exists k md,
    nth_error (files_to_process self) k = Some file /\
    is_running (env k) = true /\
    get_video_metadata file (ffprobe_reply (env k)) = (Some md, None) /\
    pass1_reply (env k) = Return tt /\
    pass2_reply (env k) = Return tt.
Proof.
  unfold run.
  set (n := Z.of_nat (List.length (files_to_process self))).
  pose proof (run_from_In (selected_ratio_str self) n env (files_to_process self)
                0%nat (update_status file "✅ Done")) as HIn.
  destruct (run_from _ n env 0 _) as [evs [e|]]; cbn [fst] in *; intros Hin.
  - destruct (HIn Hin) as (k & f & Hk & Hr & Hi). cbn [Nat.add] in *.
    destruct (process_file_done _ _ _ _ _ _ Hi) as (-> & H1 & H2 & md & Hg).
    exists k, md. repeat split; assumption.
  - apply in_app_or in Hin. destruct Hin as [Hin | [Hin | []]]; [|discriminate Hin].
    destruct (HIn Hin) as (k & f & Hk & Hr & Hi). cbn [Nat.add] in *.
    destruct (process_file_done _ _ _ _ _ _ Hi) as (-> & H1 & H2 & md & Hg).
    exists k, md. repeat split; assumption.
Qed.

(** X5. The statuses of an iteration all carry its path and come in one
    order.  When no exception leaves it, they are one of four sequences,
    with one error event for each of the three that fail and none for the
    one that ends in Done.  When an exception leaves it, they are a
    beginning of the successful sequence and no error event is emitted. *)
Theorem iteration_statuses_are_ordered ratio n i file w :
  0 <= i < n ->
  let evs := fst (process_file ratio n i file w) in
  Forall (eq file) (status_paths evs) /\
  match snd (process_file ratio n i file w) with
  | None =>
      In (status_texts evs, map fst (error_events evs))
        [ (["⚙️ Analyzing..."; "❌ Analyze Failed"], ["Analysis Error"]);
          (["⚙️ Analyzing..."; "🏃 Pass 1..."; "❌ Error"], ["Conversion Error"]);
          (["⚙️ Analyzing..."; "🏃 Pass 1..."; "🏁 Pass 2..."; "❌ Error"],
           ["Conversion Error"]);
          (["⚙️ Analyzing..."; "🏃 Pass 1..."; "🏁 Pass 2..."; "✅ Done"], []) ]
  | Some _ =>
      error_events evs = [] /\
      In (status_texts evs)
        [ ["⚙️ Analyzing..."];
          ["⚙️ Analyzing..."; "🏃 Pass 1..."];
          ["⚙️ Analyzing..."; "🏃 Pass 1..."; "🏁 Pass 2..."] ]
  end.
Proof.
  intros Hi.
  destruct (progress_of_returns i n Hi) as (p0 & Ep & _).
  cbv zeta.
  iteration_cases ratio n i file w; try discriminate Ep;
    cbn [fst snd app status_paths status_texts error_events flat_map map];
    (split; [repeat constructor|]); cbn [In]; auto 10.
Qed.


(** X7. An exception of a pass that is no CalledProcessError (the encoder
    cannot be started, say), in the first pass or in the second, is not
    handled: no Error status and no error event; the [finally] clause
    still reports the progress and removes the statistics files; then the
    exception leaves [run], the files that follow are not touched and
    [finished] is not signalled. *)
Theorem unexpected_exception_escapes
    ratio total env i file rest md scale_filter tw th e :
  is_running (env i) = true ->
  Z.of_nat i < total ->
  get_video_metadata file (ffprobe_reply (env i)) = (Some md, None) ->
  geometry ratio md = Return (scale_filter, tw, th) ->
  is_CalledProcessError e = false ->
  pass1_reply (env i) = Raise e \/
  (pass1_reply (env i) = Return tt /\ pass2_reply (env i) = Raise e) ->
  exists progress,
    progress_of (Z.of_nat i) total = Return progress /\
    run_from ratio total env i (file :: rest)
    = (([ update_status file "⚙️ Analyzing...";
          subprocess_run (ffprobe_cmd file);
          update_status file "🏃 Pass 1...";
          subprocess_run (first_pass_cmd file scale_filter) ]
        ++ match pass1_reply (env i) with
           | Return _ =>
               [ update_status file "🏁 Pass 2...";
                 subprocess_run
                   (second_pass_cmd file scale_filter
                      (fst (splitext file) ++ "_whatsapp.mp4")) ]
           | Raise _ => []
           end
        ++ [update_progress progress] ++ cleanup (env i))%list,
       Some e).
Proof.
  intros Hrun Hi Hg Hp He Hpass.
  destruct (progress_of_returns (Z.of_nat i) total ltac:(lia)) as (p & Ep & _).
  exists p. split; [exact Ep|].
  rewrite run_from_cons by exact Hrun.
  rewrite (process_file_encoded _ _ _ _ _ _ _ _ _ Hg Hp).
  unfold encode. destruct Hpass as [H1 | (H1 & H2)].
  - rewrite H1. unfold finally. rewrite Ep.
    destruct e; try discriminate He; reflexivity.
  - rewrite H1, H2. unfold finally. rewrite Ep.
    destruct e; try discriminate He; reflexivity.
Qed.

(** X8. In a crop mode, a file whose effective height is zero makes the
    division of line 86 raise ZeroDivisionError outside any [try]: the
    iteration has only reported Analyzing, no encoder is run, and the
    exception leaves [run] without [finished].  The pad mode divides
    nothing and plans for any dimensions. *)
Theorem zero_height_ends_a_crop_batch ratio R total env i file rest md :
  dict_find ratio ratio_map = Some R ->
  is_running (env i) = true ->
  get_video_metadata file (ffprobe_reply (env i)) = (Some md, None) ->
  snd (effective_dims md) = 0 ->
  run_from ratio total env i (file :: rest)
  = ([ update_status file "⚙️ Analyzing...";
       subprocess_run (ffprobe_cmd file) ],
     Some (ZeroDivisionError "division by zero")).
Proof.
  intros HR Hrun Hg Hz.
  destruct (ratio_map_cases ratio R HR) as (Hpad & _).
  rewrite run_from_cons by exact Hrun.
  unfold process_file. destruct (splitext file) as [base ext].
  rewrite Hg. cbn [truthy]. unfold geometry.
  destruct (effective_dims md) as [w h]. cbn [snd] in Hz. subst h.
  unfold plan. rewrite Hpad, HR. reflexivity.
Qed.

(** X9. A mode that is neither the pad mode nor a key of [ratio_map]
    makes line 85 raise KeyError at the first file that passes the
    analysis; the exception leaves [run]. *)
Theorem unknown_mode_raises_KeyError ratio total env i file rest md :
  ratio <> "Keep Original (Pad)" ->
  dict_find ratio ratio_map = None ->
  is_running (env i) = true ->
  get_video_metadata file (ffprobe_reply (env i)) = (Some md, None) ->
  run_from ratio total env i (file :: rest)
  = ([ update_status file "⚙️ Analyzing...";
       subprocess_run (ffprobe_cmd file) ],
     Some (KeyError ratio)).
Proof.
  intros Hpad HR Hrun Hg.
  rewrite run_from_cons by exact Hrun.
  unfold process_file. destruct (splitext file) as [base ext].
  rewrite Hg. cbn [truthy]. unfold geometry.
  destruct (effective_dims md) as [w h].
  unfold plan. rewrite (proj2 (String.eqb_neq _ _) Hpad), HR. reflexivity.
Qed.

(** What one event of the worker may be, for a batch [files]: a status of
    the six on a path of the batch, the probe or a pass of the encoder on
    a path of the batch (the second pass writing next to its input), the
    removal of a statistics file of the encoder, a progress, an error
    event, the end of the batch. *)
Lemma process_file_events ratio n i file w ev :
  In ev (fst (process_file ratio n i file w)) ->
  match ev with
  | update_status f s => f = file /\ In s worker_statuses
  | subprocess_run command =>
      command = ffprobe_cmd file \/
      exists scale_filter,
        command = first_pass_cmd file scale_filter \/
        command = second_pass_cmd file scale_filter
                    (fst (splitext file) ++ "_whatsapp.mp4")
  | os_remove f => In f ["ffmpeg2pass-0.log"; "ffmpeg2pass-0.log.mbtree"]
  | show_error title _ => In title ["Analysis Error"; "Conversion Error"]
  | update_progress _ => True
  | finished => False
  end.
Proof.
  iteration_cases ratio n i file w; cbn [fst app In];
    intros Hin;
    repeat match goal with
           | H : _ \/ _ |- _ => destruct H as [H | H]
           | H : False |- _ => destruct H
           | H : _ = ev |- _ => subst ev
           end;
    cbn [worker_statuses In]; auto 10; eauto 10.
Qed.

(** X10. What the worker never does: every program it starts is ffprobe
    or one of the two encoder passes on a path of its batch, the second
    pass writing [<base>_whatsapp.mp4]; every file it removes is one of
    the two statistics files of the encoder; every status is one of the
    six texts, on a path of its batch. *)
Theorem worker_touches_only_its_batch (self : ConversionWorker) (env : nat -> world) :
  Forall
    (fun ev =>
       match ev with
       | update_status f s =>
           In f (files_to_process self) /\ In s worker_statuses
       | subprocess_run command =>
           exists file, In file (files_to_process self) /\
             (command = ffprobe_cmd file \/
              exists scale_filter,
                command = first_pass_cmd file scale_filter \/
                command = second_pass_cmd file scale_filter
                            (fst (splitext file) ++ "_whatsapp.mp4"))
       | os_remove f => In f ["ffmpeg2pass-0.log"; "ffmpeg2pass-0.log.mbtree"]
       | show_error title _ => In title ["Analysis Error"; "Conversion Error"]
       | update_progress _ | finished => True
       end)
    (fst (run self env)).
Proof.
  apply Forall_forall. intros ev Hin.
  assert (Hloop : ev = finished \/
                  In ev (fst (run_from (selected_ratio_str self)
                                (Z.of_nat (List.length (files_to_process self)))
                                env 0 (files_to_process self)))).
  { unfold run in Hin.
    destruct (run_from _ _ env 0 _) as [evs [e|]]; cbn [fst] in *; [auto|].
    apply in_app_or in Hin. destruct Hin as [Hin | [<- | []]]; auto. }
  destruct Hloop as [-> | Hloop]; [exact I|].
  destruct (run_from_In _ _ _ _ _ _ Hloop) as (k & file & Hk & _ & Hev).
  apply nth_error_In in Hk.
  apply process_file_events in Hev.
  destruct ev; auto.
  - exists file. auto.
  - destruct Hev as (-> & Hs). auto.
Qed.

(** ** Paths *)

Lemma rfind_from_range c p : forall i last,
  rfind_from c p i last = last \/
  (i <= rfind_from c p i last < i + Z.of_nat (String.length p) /\
   String.get (Z.to_nat (rfind_from c p i last - i)) p = Some c).
Proof.
  induction p as [|c' p IH]; intros i last; cbn [rfind_from String.length].
  - left. reflexivity.
  - destruct (IH (i + 1) (if (c' =? c)%char then i else last))
      as [-> | (Hr & Hget)].
    + destruct (Ascii.eqb_spec c' c) as [-> | _]; [right | left; reflexivity].
      split; [lia|]. rewrite Z.sub_diag. reflexivity.
    + right. split; [lia|].
      replace (Z.to_nat (rfind_from c p (i + 1)
                           (if (c' =? c)%char then i else last) - i))
        with (S (Z.to_nat (rfind_from c p (i + 1)
                             (if (c' =? c)%char then i else last) - (i + 1))))
        by lia.
      exact Hget.
Qed.

Lemma rfind_range c p :
  rfind c p = -1 \/
  (0 <= rfind c p < Z.of_nat (String.length p) /\
   String.get (Z.to_nat (rfind c p)) p = Some c).
Proof.
  unfold rfind. destruct (rfind_from_range c p 0 (-1)) as [H | (Hr & Hget)];
    [left; exact H | right].
  rewrite Z.sub_0_r in Hget. split; [lia | exact Hget].
Qed.

Lemma substring_split p : forall n,
  (n <= String.length p)%nat ->
  substring 0 n p ++ substring n (String.length p - n) p = p.
Proof.
  induction p as [|c p IH]; intros [|n] Hn; cbn [String.length] in *;
    try reflexivity; try lia.
  - cbn [substring Nat.sub append]. f_equal.
    clear. induction p as [|c' p IH]; [reflexivity|].
    cbn [String.length substring]. f_equal. exact IH.
  - cbn [substring Nat.sub append]. f_equal. apply IH. lia.
Qed.

Lemma substring_from_get p : forall n c,
  String.get n p = Some c ->
  exists rest, substring n (String.length p - n) p = String c rest.
Proof.
  induction p as [|c' p IH]; intros [|n] c Hget; cbn [String.get] in Hget;
    try discriminate Hget.
  - injection Hget as ->. cbn [String.length Nat.sub substring]. eauto.
  - cbn [String.length Nat.sub substring]. apply IH. exact Hget.
Qed.

(** [splitext] cuts the path in two: the halves put together are the
    path, and the extension is empty or begins with its dot. *)
Lemma splitext_splits p :
  fst (splitext p) ++ snd (splitext p) = p /\
  (snd (splitext p) = "" \/ exists rest, snd (splitext p) = String "." rest).
Proof.
  unfold splitext.
  destruct ((rfind "/" p <? rfind "." p)
            && has_stem (String.length p) p (rfind "/" p + 1) (rfind "." p))
    eqn:Hcut; cbn [fst snd].
  - apply andb_true_iff in Hcut. destruct Hcut as (Hlt & _).
    apply Z.ltb_lt in Hlt.
    destruct (rfind_range "." p) as [Hdot | (Hr & Hget)].
    + destruct (rfind_range "/" p) as [Hsep | (Hs & _)]; lia.
    + split.
      * apply substring_split. lia.
      * right. apply substring_from_get. exact Hget.
  - split; [|left; reflexivity].
    clear. induction p as [|c p IH]; [reflexivity|].
    cbn [append]. f_equal. exact IH.
Qed.

Lemma append_inv_head (a b c : string) : a ++ b = a ++ c -> b = c.
Proof.
  induction a as [|x a IH]; cbn [append]; intros H; [exact H|].
  injection H as H. apply IH. exact H.
Qed.

(** X11. The output of a file is never the file itself: [<base>] and the
    extension make up the path, the extension is empty or begins with a
    dot, so [<base>_whatsapp.mp4] is another path. *)
Theorem output_is_not_the_input (file_path : string) :
  let output_file := fst (splitext file_path) ++ "_whatsapp.mp4" in
  output_file <> file_path /\
  prefix (fst (splitext file_path)) file_path = true /\
  (snd (splitext file_path) = "" \/
   exists rest, snd (splitext file_path) = String "." rest).
Proof.
  cbv zeta.
  destruct (splitext_splits file_path) as (Hsplit & Hext).
  split; [|split; [|exact Hext]].
  - intros Heq. rewrite <- Hsplit in Heq at 2.
    apply append_inv_head in Heq.
    destruct Hext as [He | (rest & He)]; rewrite He in Heq; discriminate Heq.
  - rewrite <- Hsplit at 2.
    generalize (fst (splitext file_path)) (snd (splitext file_path)).
    clear. induction s as [|c s IH]; intros t; cbn [append prefix].
    + destruct t; reflexivity.
    + destruct (ascii_dec c c) as [_|Hne]; [apply IH | contradiction].
Qed.

(** * More on the analysis *)

Lemma first_video_skips pre : forall rest,
  Forall other_stream pre ->
  first_video (pre ++ rest) = first_video rest.
Proof.
  induction pre as [|s pre IH]; intros rest Hpre; [reflexivity|].
  inversion Hpre as [|? ? (kind & Hk & Hv) Hpre']; subst.
  cbn [app first_video]. rewrite Hk. cbn [bind]. rewrite Hv.
  apply IH. exact Hpre'.
Qed.

Lemma first_video_takes vs post :
  is_video_stream vs ->
  first_video (vs :: post) = Return (Some vs).
Proof.
  intros (kind & Hk & Hv). cbn [first_video]. rewrite Hk. cbn [bind].
  rewrite Hv. reflexivity.
Qed.

Lemma probe_first_video_stream doc pre vs post :
  has_streams doc (pre ++ vs :: post) ->
  Forall other_stream pre ->
  is_video_stream vs ->
  probe (Return doc) = probe (Return (JDict [("streams", JList [vs])])).
Proof.
  intros Hdoc Hpre Hvs.
  unfold probe, has_streams in *. cbn [bind].
  rewrite Hdoc. cbn [bind iterate subscript dict_find String.eqb Ascii.eqb
                       Bool.eqb].
  rewrite (first_video_skips pre _ Hpre).
  rewrite !(first_video_takes vs _ Hvs). reflexivity.
Qed.

(** X12. The analysis reads the first video stream and nothing after it:
    when the streams before it name a kind other than video, the result
    for the whole document is the result for a document with that stream
    alone, whatever follows it (further video streams, streams without a
    kind, values that are no streams at all). *)
Theorem analysis_reads_the_first_video_stream file doc pre vs post :
  has_streams doc (pre ++ vs :: post) ->
  Forall other_stream pre ->
  is_video_stream vs ->
  get_video_metadata file (Return doc)
  = get_video_metadata file (Return (JDict [("streams", JList [vs])])).
Proof.
  intros Hdoc Hpre Hvs. unfold get_video_metadata.
  rewrite (probe_first_video_stream doc pre vs post Hdoc Hpre Hvs).
  reflexivity.
Qed.

(** X13. A document none of whose streams is a video stream (an audio
    file, or no stream at all) gives no metadata and the text
    [No video stream found.], so that the file is reported as an analysis
    failure. *)
Theorem no_video_stream_is_reported file doc streams :
  has_streams doc streams ->
  Forall other_stream streams ->
  get_video_metadata file (Return doc) = (None, Some "No video stream found.").
Proof.
  intros Hdoc Hs.
  unfold get_video_metadata, probe, has_streams in *. cbn [bind].
  rewrite Hdoc. cbn [bind iterate].
  rewrite <- (app_nil_r streams), (first_video_skips streams [] Hs).
  reflexivity.
Qed.

(** X14. A first video stream that lacks its width, or has a width and
    lacks its height, fails the analysis: no metadata, and an error text
    that names the file and carries the KeyError of the missing member. *)
Theorem missing_dimension_fails_the_analysis file doc pre members post key :
  has_streams doc (pre ++ JDict members :: post) ->
  Forall other_stream pre ->
  is_video_stream (JDict members) ->
  (key = "width" /\ dict_find "width" members = None) \/
  (key = "height" /\ dict_find "height" members = None /\
   exists v n, dict_find "width" members = Some v /\ int v = Return n) ->
  get_video_metadata file (Return doc)
  = (None,
     Some ("Failed to get video metadata for " ++ basename file ++ "."
             ++ nl ++ nl ++ "Error: '" ++ key ++ "'")).
Proof.
  intros Hdoc Hpre Hvs Hkey.
  unfold get_video_metadata.
  rewrite (probe_first_video_stream doc pre (JDict members) post Hdoc Hpre Hvs).
  destruct Hvs as (kind & Hk & Hv).
  unfold probe.
  cbn [bind iterate subscript dict_find String.eqb Ascii.eqb Bool.eqb
         first_video].
  cbn [subscript] in Hk. rewrite Hk. cbn [bind]. rewrite Hv.
  destruct Hkey as [(-> & Hw) | (-> & Hh & v & n & Hw & Hn)].
  - cbn [bind subscript]. rewrite Hw. reflexivity.
  - cbn [bind subscript]. rewrite Hw. cbn [bind]. rewrite Hn. cbn [bind].
    rewrite Hh. reflexivity.
Qed.

(** ** [int] on the text of an integer *)

Lemma chars_from_ascii c s :
  Unicode.byte c < 128 ->
  Unicode.chars_from 0 (String c s)
  = (Unicode.byte c, String c "") :: Unicode.chars_from 0 s.
Proof.
  intros Hc. cbn [Unicode.chars_from]. unfold Unicode.first_char.
  rewrite (proj2 (Z.ltb_lt _ _) Hc). cbn [Nat.sub substring].
  destruct s; reflexivity.
Qed.

Lemma codepoints_digits d :
  Unicode.codepoints (NilEmpty.string_of_uint d) = digit_codes d.
Proof.
  unfold Unicode.codepoints, Unicode.chars.
  induction d; cbn [NilEmpty.string_of_uint digit_codes]; [reflexivity | ..];
    (rewrite chars_from_ascii by (vm_compute; reflexivity);
     cbn [map fst]; rewrite IHd; reflexivity).
Qed.

Lemma digit_codes_ascii d :
  forallb (fun c => c <? 128) (digit_codes d) = true.
Proof. induction d; cbn [digit_codes forallb]; auto. Qed.

Lemma digit_codes_length d :
  Z.of_nat (String.length (NilEmpty.string_of_uint d))
  = Z.of_nat (List.length (digit_codes d)).
Proof.
  induction d; cbn [NilEmpty.string_of_uint digit_codes String.length List.length];
    lia.
Qed.

Lemma scan_digits_acc d : forall digits acc,
  scan_digits false digits (Z.pos acc) (digit_codes d)
  = Some (digits + Z.of_nat (List.length (digit_codes d)),
          Z.pos (Pos.of_uint_acc d acc), []).
Proof.
  induction d; intros digits acc;
    cbn [digit_codes scan_digits Pos.of_uint_acc List.length];
    [rewrite Z.add_0_r; reflexivity | ..];
    (change (is_digit _) with true; cbv iota;
     match goal with
     | |- scan_digits false _ ?a _ = _ =>
         match goal with
         | |- context [Pos.of_uint_acc _ ?b] =>
             replace a with (Z.pos b) by lia
         end
     end;
     rewrite IHd; do 3 f_equal; lia).
Qed.

Lemma scan_digits_of_uint d : forall digits,
  scan_digits false digits 0 (digit_codes d)
  = Some (digits + Z.of_nat (List.length (digit_codes d)), Z.of_uint d, []).
Proof.
  unfold Z.of_uint.
  induction d; intros digits;
    cbn [digit_codes scan_digits Pos.of_uint List.length];
    [rewrite Z.add_0_r; reflexivity | ..];
    change (is_digit _) with true; cbv iota;
    [ change (10 * 0 + _) with 0; rewrite IHd; do 3 f_equal; lia | ..];
    (match goal with
     | |- scan_digits false _ ?a _ = _ =>
         match goal with
         | |- context [Pos.of_uint_acc _ ?b] =>
             change a with (Z.pos b)
         end
     end;
     rewrite scan_digits_acc; do 3 f_equal; lia).
Qed.

Lemma digit_codes_head d :
  d <> Decimal.Nil ->
  skip_space (digit_codes d) = digit_codes d /\
  sign_and_digits (digit_codes d) = (false, digit_codes d) /\
  leads_with_underscore (digit_codes d) = false /\
  0 < Z.of_nat (List.length (digit_codes d)).
Proof.
  intros Hnil. destruct d; [contradiction | ..];
    cbn [digit_codes List.length];
    (split; [reflexivity|]; split; [reflexivity|]; split; [reflexivity | lia]).
Qed.

(** What [int] makes of the digits of a positive number, with or without
    a minus sign before them. *)
Lemma int_of_digits (negative : bool) (p : positive) :
  int_of_str ((if negative then "-" else "") ++ NilEmpty.string_of_uint (Pos.to_uint p))
  = if int_max_str_digits
       <? Z.of_nat (String.length (NilEmpty.string_of_uint (Pos.to_uint p)))
    then Raise (ValueError
                  ("Exceeds the limit (" ++ str_int int_max_str_digits
                     ++ " digits) for integer string conversion: value has "
                     ++ str_int (Z.of_nat (String.length
                                             (NilEmpty.string_of_uint (Pos.to_uint p))))
                     ++ " digits; use sys.set_int_max_str_digits() to increase the limit"))
    else Return (if negative then Z.neg p else Z.pos p).
Proof.
  pose proof (DecimalPos.Unsigned.to_uint_nonnil p) as Hnil.
  pose proof (DecimalPos.Unsigned.of_to p) as Hval.
  rewrite digit_codes_length.
  assert (Hcodes : Unicode.codepoints
                     ((if negative then "-" else "")
                        ++ NilEmpty.string_of_uint (Pos.to_uint p))
                   = ((if negative then [45] else [])
                        ++ digit_codes (Pos.to_uint p))%list).
  { destruct negative; cbn [append app]; [|apply codepoints_digits].
    unfold Unicode.codepoints, Unicode.chars.
    rewrite chars_from_ascii by (vm_compute; reflexivity).
    cbn [map fst]. f_equal. apply codepoints_digits. }
  assert (Hascii : to_ascii ((if negative then [45] else [])
                               ++ digit_codes (Pos.to_uint p))%list
                   = ((if negative then [45] else [])
                        ++ digit_codes (Pos.to_uint p))%list).
  { unfold to_ascii. rewrite forallb_app, digit_codes_ascii.
    destruct negative; reflexivity. }
  pose proof (scan_digits_of_uint (Pos.to_uint p) 0) as Hscan.
  unfold Z.of_uint in Hscan. rewrite Hval in Hscan. cbn [Z.of_N] in Hscan.
  rewrite Z.add_0_l in Hscan.
  destruct (digit_codes_head _ Hnil) as (Hskip & Hsign & Hlead & Hlen).
  unfold int_of_str. rewrite Hcodes, Hascii.
  assert (Hbody : sign_and_digits
                    (skip_space ((if negative then [45] else [])
                                   ++ digit_codes (Pos.to_uint p))%list)
                  = (negative, digit_codes (Pos.to_uint p))).
  { destruct negative; cbn [app]; [reflexivity|]. rewrite Hskip. exact Hsign. }
  rewrite Hbody, Hlead, Hscan.
  destruct (int_max_str_digits <? _); [reflexivity|].
  rewrite (proj2 (Z.eqb_neq _ _)) by lia.
  destruct negative; reflexivity.
Qed.

(** [int] reads the text [str] writes for an integer as that integer, up
    to the limit on the number of digits. *)
Lemma int_of_str_str_int (n : Z) :
  int_of_str (str_int n)
  = if int_max_str_digits <? digits_of n
    then Raise (ValueError
                  ("Exceeds the limit (" ++ str_int int_max_str_digits
                     ++ " digits) for integer string conversion: value has "
                     ++ str_int (digits_of n)
                     ++ " digits; use sys.set_int_max_str_digits() to increase the limit"))
    else Return n.
Proof.
  assert (Hpos : forall p,
             NilZero.string_of_uint (Pos.to_uint p)
             = NilEmpty.string_of_uint (Pos.to_uint p)).
  { intros p. pose proof (DecimalPos.Unsigned.to_uint_nonnil p) as Hn.
    destruct (Pos.to_uint p); [contradiction|reflexivity..]. }
  unfold digits_of, str_int.
  destruct n as [|p|p]; cbn [Z.abs Z.to_int NilZero.string_of_int].
  - reflexivity.
  - rewrite Hpos. exact (int_of_digits false p).
  - rewrite Hpos. exact (int_of_digits true p).
Qed.

(** X15. A rotate tag that is the decimal text of an integer, as
    [str] writes it (["90"], ["-90"], ["270"]), is read as that integer,
    and the analysis succeeds with that rotation, when the text has at
    most 4300 digits; with more digits [int] refuses the text and the
    analysis fails. *)
Theorem rotate_tag_in_decimal_is_read file doc members w h n :
  video_stream_of doc members ->
  int_field members "width" w -> int_field members "height" h ->
  rotate_present members (JStr (str_int n)) ->
  get_video_metadata file (Return doc)
  = if digits_of n <=? 4300
    then (Some {| width := w; height := h; rotation := n |}, None)
    else (None,
          Some (error_detail file
                  (ValueError
                     ("Exceeds the limit (4300 digits) for integer string conversion: value has "
                        ++ str_int (digits_of n)
                        ++ " digits; use sys.set_int_max_str_digits() to increase the limit")))).
Proof.
  intros Hv Hw Hh Hr. unfold get_video_metadata.
  rewrite (probe_rotate_present doc members w h _ Hv Hw Hh Hr).
  cbn [int]. rewrite int_of_str_str_int.
  unfold int_max_str_digits. rewrite Z.leb_antisym.
  destruct (4300 <? digits_of n); reflexivity.
Qed.

(** * The window *)

(** ** Dropping files *)

Lemma exists_in_spec f tree :
  exists_in f tree = true <-> In f (map data tree).
Proof.
  unfold exists_in. rewrite existsb_exists. split.
  - intros (it & Hin & Heq). apply String.eqb_eq in Heq. subst f.
    apply in_map. exact Hin.
  - intros Hin. apply in_map_iff in Hin. destruct Hin as (it & <- & Hin).
    exists it. split; [exact Hin | apply String.eqb_refl].
Qed.

Lemma paths_snoc tree f0 f :
  In f (map data (tree ++ [queued_item f0])) <-> In f (map data tree) \/ f = f0.
Proof.
  rewrite map_app, in_app_iff. cbn [map In queued_item data]. intuition.
Qed.

Lemma dropEvent_spec isfile urls : forall tree,
  exists new,
    dropEvent isfile urls tree = (tree ++ map queued_item new)%list /\
    NoDup new /\
    forall f, In f new <->
              (In f urls /\ isfile f = true /\ ~ In f (map data tree)).
Proof.
  induction urls as [|f0 rest IH]; intros tree; cbn [dropEvent].
  - exists []. rewrite app_nil_r. split; [reflexivity|].
    split; [constructor|]. intros f. cbn [In]. tauto.
  - destruct (isfile f0) eqn:Hfile;
      [destruct (exists_in f0 tree) eqn:Hex; cbn [negb]|].
    + destruct (IH tree) as (new & Heq & Hnd & Hiff). exists new.
      split; [exact Heq|]. split; [exact Hnd|].
      intros f. rewrite Hiff. cbn [In]. split.
      * intros (H1 & H2 & H3). auto.
      * intros ([<- | H1] & H2 & H3); [|auto].
        exfalso. apply H3. apply exists_in_spec. exact Hex.
    + destruct (IH (tree ++ [queued_item f0])%list) as (new & Heq & Hnd & Hiff).
      exists (f0 :: new).
      split; [rewrite Heq, <- app_assoc; reflexivity|]. split.
      * constructor; [|exact Hnd]. intros Hin. apply Hiff in Hin.
        destruct Hin as (_ & _ & Hn). apply Hn. apply paths_snoc.
        right. reflexivity.
      * intros f. cbn [In]. rewrite Hiff, paths_snoc. split.
        -- intros [<- | (H1 & H2 & H3)].
           ++ split; [left; reflexivity|]. split; [exact Hfile|].
              intros Hin. apply exists_in_spec in Hin. rewrite Hin in Hex.
              discriminate Hex.
           ++ split; [right; exact H1|]. split; [exact H2|].
              intros Hin. apply H3. left. exact Hin.
        -- intros (H1 & H2 & H3).
           destruct (string_dec f0 f) as [-> | Hne]; [left; reflexivity|].
           right. destruct H1 as [H1 | H1]; [contradiction|].
           split; [exact H1|]. split; [exact H2|].
           intros [Hin | Heq']; [contradiction | congruence].
    + destruct (IH tree) as (new & Heq & Hnd & Hiff). exists new.
      split; [exact Heq|]. split; [exact Hnd|].
      intros f. rewrite Hiff. cbn [In]. split.
      * intros (H1 & H2 & H3). auto.
      * intros ([<- | H1] & H2 & H3); [congruence | auto].
Qed.

Lemma filter_both {A : Type} (P Q R : A -> bool) (l : list A) :
  (forall x, R x = Q x && P x) ->
  filter R l = filter P (filter Q l).
Proof.
  intros H. induction l as [|x l IH]; [reflexivity|].
  cbn [filter]. rewrite H. destruct (Q x); cbn [andb filter].
  - destruct (P x); rewrite IH; reflexivity.
  - exact IH.
Qed.

Lemma filter_absorbs {A : Type} (P Q : A -> bool) (l : list A) :
  (forall x, P x = true -> Q x = true) ->
  filter P (filter Q l) = filter P l.
Proof.
  intros H. induction l as [|x l IH]; [reflexivity|].
  cbn [filter]. destruct (Q x) eqn:HQ; cbn [filter].
  - rewrite IH. reflexivity.
  - destruct (P x) eqn:HP; [|exact IH].
    rewrite (H x HP) in HQ. discriminate HQ.
Qed.

Lemma exists_in_snoc g f0 tree :
  exists_in g (tree ++ [queued_item f0]) = exists_in g tree || (f0 =? g)%string.
Proof.
  unfold exists_in. rewrite existsb_app. cbn [existsb queued_item data].
  rewrite orb_false_r. reflexivity.
Qed.

(** The rows a drop appends are those of the dropped paths that are files
    and have no row yet, each where it first occurs among the URLs. *)
Lemma dropEvent_first_occurrences isfile urls : forall tree,
  dropEvent isfile urls tree
  = (tree ++ map queued_item
               (filter (fun f => isfile f && negb (exists_in f tree))
                  (first_occurrences urls)))%list.
Proof.
  induction urls as [|f0 rest IH]; intros tree;
    cbn [dropEvent first_occurrences filter map].
  - rewrite app_nil_r. reflexivity.
  - rewrite IH.
    destruct (isfile f0 && negb (exists_in f0 tree)) eqn:Hnew.
    + apply andb_true_iff in Hnew. destruct Hnew as (Hfile & Hex).
      rewrite Hfile, Hex. cbn [map]. rewrite <- app_assoc. cbn [app].
      do 3 f_equal. apply filter_both.
      intros g. rewrite exists_in_snoc, (String.eqb_sym f0 g).
      destruct (g =? f0)%string, (isfile g), (exists_in g tree); reflexivity.
    + assert (Htree : (if isfile f0
                       then if negb (exists_in f0 tree)
                            then (tree ++ [queued_item f0])%list else tree
                       else tree) = tree).
      { destruct (isfile f0); [|reflexivity].
        cbn [andb] in Hnew. rewrite Hnew. reflexivity. }
      rewrite Htree. do 2 f_equal. symmetry. apply filter_absorbs.
      intros g Hg. apply negb_true_iff. apply String.eqb_neq. intros ->.
      rewrite Hg in Hnew. discriminate Hnew.
Qed.

(** X16. A drop appends to the tree one Queued row for each dropped path
    that is a file and has no row yet, in the order in which these paths
    first occur among the URLs; the rows that were there stay as they
    are, and the new paths come last, in that order, in the list of files
    a start collects. *)
Theorem drop_appends_each_new_file_once isfile urls tree :
  let new := filter (fun f => isfile f && negb (exists_in f tree))
               (first_occurrences urls) in
  dropEvent isfile urls tree = (tree ++ map queued_item new)%list /\
  NoDup new /\
  (forall f, In f new <->
             (In f urls /\ isfile f = true /\ ~ In f (map data tree))) /\
  queued_files (dropEvent isfile urls tree)
  = (queued_files tree ++ new)%list.
Proof.
  cbv zeta.
  pose proof (dropEvent_first_occurrences isfile urls tree) as Hfirst.
  destruct (dropEvent_spec isfile urls tree) as (new & Heq & Hnd & Hiff).
  assert (Hnew : new = filter (fun f => isfile f && negb (exists_in f tree))
                         (first_occurrences urls)).
  { rewrite Hfirst in Heq. apply app_inv_head in Heq.
    apply (f_equal (map data)) in Heq. rewrite !map_map in Heq.
    cbn [queued_item data] in Heq. rewrite !map_id in Heq.
    symmetry. exact Heq. }
  rewrite <- Hnew.
  split; [exact Heq|]. split; [exact Hnd|]. split; [exact Hiff|].
  rewrite Heq. unfold queued_files. rewrite filter_app, map_app. f_equal.
  clear. induction new as [|f new IH]; [reflexivity|].
  cbn [map filter queued_item status String.eqb Ascii.eqb Bool.eqb data].
  cbn [map filter queued_item status data] in IH. rewrite IH. reflexivity.
Qed.

Lemma NoDup_snoc {A : Type} (l : list A) (x : A) :
  NoDup l -> ~ In x l -> NoDup (l ++ [x]).
Proof.
  induction l as [|a l IH]; intros Hnd Hx; cbn [app].
  - constructor; [intros [] | constructor].
  - inversion Hnd as [|? ? Ha Hl]; subst. constructor.
    + rewrite in_app_iff. cbn [In]. intros [H | [H | []]]; [contradiction|].
      subst. apply Hx. left. reflexivity.
    + apply IH; [exact Hl|]. intros H. apply Hx. right. exact H.
Qed.

Lemma dropEvent_NoDup isfile urls : forall tree,
  NoDup (map data tree) -> NoDup (map data (dropEvent isfile urls tree)).
Proof.
  induction urls as [|f0 rest IH]; intros tree Hnd; cbn [dropEvent];
    [exact Hnd|].
  apply IH.
  destruct (isfile f0); [|exact Hnd].
  destruct (exists_in f0 tree) eqn:Hex; cbn [negb]; [exact Hnd|].
  rewrite map_app. cbn [map queued_item data]. apply NoDup_snoc; [exact Hnd|].
  intros Hin. apply exists_in_spec in Hin. rewrite Hin in Hex. discriminate Hex.
Qed.

Lemma dropEvent_keeps isfile urls : forall tree f,
  In f (map data tree) -> In f (map data (dropEvent isfile urls tree)).
Proof.
  induction urls as [|f0 rest IH]; intros tree f Hin; cbn [dropEvent];
    [exact Hin|].
  apply IH.
  destruct (isfile f0); [|exact Hin].
  destruct (negb (exists_in f0 tree)); [|exact Hin].
  apply paths_snoc. left. exact Hin.
Qed.

Lemma dropEvent_covers isfile urls : forall tree f,
  In f urls -> isfile f = true ->
  In f (map data (dropEvent isfile urls tree)).
Proof.
  induction urls as [|f0 rest IH]; intros tree f Hin Hfile; cbn [dropEvent];
    [destruct Hin|].
  destruct Hin as [-> | Hin]; [|apply IH; assumption].
  apply dropEvent_keeps. rewrite Hfile.
  destruct (exists_in f tree) eqn:Hex; cbn [negb].
  - apply exists_in_spec. exact Hex.
  - apply paths_snoc. right. reflexivity.
Qed.

Lemma dropEvent_noop isfile urls : forall tree,
  (forall f, In f urls -> isfile f = true -> In f (map data tree)) ->
  dropEvent isfile urls tree = tree.
Proof.
  induction urls as [|f0 rest IH]; intros tree Hall; cbn [dropEvent];
    [reflexivity|].
  destruct (isfile f0) eqn:Hfile.
  - rewrite (proj2 (exists_in_spec f0 tree)
               (Hall f0 (or_introl eq_refl) Hfile)).
    cbn [negb]. apply IH. intros f Hin. apply Hall. right. exact Hin.
  - apply IH. intros f Hin. apply Hall. right. exact Hin.
Qed.

(** X17. A tree whose rows have distinct paths keeps them distinct under
    any drop, and dropping the same files a second time changes
    nothing. *)
Theorem drop_keeps_paths_distinct isfile urls tree :
  NoDup (map data tree) ->
  NoDup (map data (dropEvent isfile urls tree)) /\
  dropEvent isfile urls (dropEvent isfile urls tree)
  = dropEvent isfile urls tree.
Proof.
  intros Hnd. split; [apply dropEvent_NoDup; exact Hnd|].
  apply dropEvent_noop. intros f Hin Hfile.
  apply dropEvent_covers; assumption.
Qed.

(** ** The status of a row *)

Lemma find_row_set_status f s tree :
  find_row f (set_status f s tree)
  = option_map (with_status s) (find_row f tree).
Proof.
  unfold find_row.
  induction tree as [|it tree IH]; cbn [set_status find option_map];
    [reflexivity|].
  destruct (data it =? f)%string eqn:Hd; cbn [find data].
  - rewrite Hd. reflexivity.
  - rewrite Hd. exact IH.
Qed.

Lemma find_row_set_status_other f f' s tree :
  f' <> f ->
  find_row f' (set_status f s tree) = find_row f' tree.
Proof.
  intros Hne. unfold find_row.
  induction tree as [|it tree IH]; cbn [set_status find]; [reflexivity|].
  destruct (data it =? f)%string eqn:Hd; cbn [find data].
  - apply String.eqb_eq in Hd.
    rewrite (proj2 (String.eqb_neq (data it) f')) by congruence.
    reflexivity.
  - destruct (data it =? f')%string; [reflexivity | exact IH].
Qed.

Lemma set_status_paths f s tree :
  map data (set_status f s tree) = map data tree /\
  map label (set_status f s tree) = map label tree.
Proof.
  induction tree as [|it tree (IHd & IHl)]; cbn [set_status map];
    [split; reflexivity|].
  destruct (data it =? f)%string; cbn [map data label];
    [split; reflexivity|].
  rewrite IHd, IHl. split; reflexivity.
Qed.

(** X18. A status update reaches the first row of its path and no other:
    that row gets the text and the colour of the text, the first row of
    any other path is what it was, a path without row changes nothing,
    and no row changes its path or its label. *)
Theorem status_update_reaches_its_row f s tree :
  find_row f (set_status f s tree) = option_map (with_status s) (find_row f tree) /\
  (forall f', f' <> f -> find_row f' (set_status f s tree) = find_row f' tree) /\
  (find_row f tree = None -> set_status f s tree = tree) /\
  map data (set_status f s tree) = map data tree /\
  map label (set_status f s tree) = map label tree.
Proof.
  split; [apply find_row_set_status|].
  split; [intros f'; apply find_row_set_status_other|].
  split; [|apply set_status_paths].
  unfold find_row.
  induction tree as [|it tree IH]; cbn [set_status find]; [reflexivity|].
  destruct (data it =? f)%string; [discriminate|].
  intros Hnone. rewrite (IH Hnone). reflexivity.
Qed.

(** ** The window under the signals of the worker *)

(** An event of [run] is [finished] or belongs to the iteration of a file
    of the batch that the loop reached with the flag set. *)
Lemma run_In self env ev :
  In ev (fst (run self env)) ->
  ev = finished \/
  exists k file,
    nth_error (files_to_process self) k = Some file /\
    is_running (env k) = true /\
    In ev (fst (process_file (selected_ratio_str self)
                  (Z.of_nat (List.length (files_to_process self)))
                  (Z.of_nat k) file (env k))).
Proof.
  unfold run. intros Hin.
  pose proof (run_from_In (selected_ratio_str self)
                (Z.of_nat (List.length (files_to_process self))) env
                (files_to_process self) 0%nat ev) as HIn.
  destruct (run_from _ _ env 0 _) as [evs [e|]]; cbn [fst] in *.
  - right. exact (HIn Hin).
  - apply in_app_or in Hin. destruct Hin as [Hin | [<- | []]];
      [right; exact (HIn Hin) | left; reflexivity].
Qed.

Lemma run_status self env f s :
  In (update_status f s) (fst (run self env)) ->
  In f (files_to_process self) /\ In s worker_statuses.
Proof.
  intros Hin. destruct (run_In self env _ Hin) as [H | (k & file & Hk & _ & Hev)];
    [discriminate H|].
  apply process_file_events in Hev. destruct Hev as (-> & Hs).
  split; [exact (nth_error_In _ _ Hk) | exact Hs].
Qed.

(** X19. The colour of every status the worker reports: green for Done
    and for nothing else, red for the two failures and for nothing else,
    white for the three that tell of work under way. *)
Theorem status_colours_of_the_worker self env f s :
  In (update_status f s) (fst (run self env)) ->
  status_color s
  = if (s =? "✅ Done")%string then "#4CAF50"
    else if ((s =? "❌ Analyze Failed") || (s =? "❌ Error"))%string then "#F44336"
    else "#FFFFFF".
Proof.
  intros Hin. destruct (run_status self env f s Hin) as (_ & Hs).
  cbn [worker_statuses In] in Hs.
  repeat (destruct Hs as [<- | Hs]; [vm_compute; reflexivity|]).
  destruct Hs.
Qed.

Lemma handle_cons self ev evs :
  handle self (ev :: evs) = handle (deliver self ev) evs.
Proof. reflexivity. Qed.

Lemma handle_app self evs evs' :
  handle self (evs ++ evs') = handle (handle self evs) evs'.
Proof. unfold handle. apply fold_left_app. Qed.

Lemma deliver_paths self ev :
  map data (file_list_tree (deliver self ev)) = map data (file_list_tree self) /\
  map label (file_list_tree (deliver self ev)) = map label (file_list_tree self).
Proof.
  destruct ev; cbn [deliver on_update_status on_show_error
                      on_conversion_finished setValue file_list_tree];
    try (split; reflexivity).
  apply set_status_paths.
Qed.

Lemma signals_rows_kept evs : forall self,
  map data (file_list_tree (handle self evs)) = map data (file_list_tree self) /\
  map label (file_list_tree (handle self evs)) = map label (file_list_tree self) /\
  aspect_ratio_choice (handle self evs) = aspect_ratio_choice self /\
  worker (handle self evs) = worker self /\
  dialogs (handle self evs)
  = (dialogs self
       ++ map (fun e => critical (fst e) (snd e)) (error_events evs))%list.
Proof.
  induction evs as [|ev evs IH]; intros self.
  - cbn [handle fold_left error_events flat_map map]. rewrite app_nil_r.
    repeat split; reflexivity.
  - rewrite handle_cons.
    destruct (IH (deliver self ev)) as (Hd & Hl & Ha & Hw & Hdl).
    destruct (deliver_paths self ev) as (Hd' & Hl').
    rewrite Hd, Hl, Ha, Hw, Hdl, Hd', Hl'.
    repeat split; try (destruct ev; reflexivity).
    destruct ev; cbn [deliver on_update_status on_show_error
                        on_conversion_finished setValue dialogs error_events
                        flat_map map app fst snd];
      try reflexivity.
    rewrite <- app_assoc. reflexivity.
Qed.

(** X20. The signals of the worker leave the rows in place: whatever the
    batch, the window has the same paths and labels in the same order
    afterwards (no row added, removed, moved or renamed), the same
    selection and the same worker; and it has shown one critical message
    box for each error event, in their order, and no other. *)
Theorem signals_leave_the_rows_in_place self w env :
  let after := handle self (fst (run w env)) in
  map data (file_list_tree after) = map data (file_list_tree self) /\
  map label (file_list_tree after) = map label (file_list_tree self) /\
  aspect_ratio_choice after = aspect_ratio_choice self /\
  worker after = worker self /\
  dialogs after
  = (dialogs self
       ++ map (fun e => critical (fst e) (snd e))
            (error_events (fst (run w env))))%list /\
  Forall (fun e => In (fst e) ["Analysis Error"; "Conversion Error"])
    (error_events (fst (run w env))).
Proof.
  cbv zeta.
  destruct (signals_rows_kept (fst (run w env)) self) as (H1 & H2 & H3 & H4 & H5).
  repeat (split; [assumption|]).
  apply Forall_forall. intros [title message] Hin.
  unfold error_events in Hin. apply in_flat_map in Hin.
  destruct Hin as (ev & Hev & Hin).
  destruct ev; cbn [In] in Hin; try contradiction.
  destruct Hin as [Hin | []]. injection Hin as <- <-.
  destruct (run_In w env _ Hev) as [H | (k & file & _ & _ & Hp)];
    [discriminate H|].
  exact (process_file_events _ _ _ _ _ _ Hp).
Qed.

Lemma last_cons {A : Type} (l : list A) (a d : A) :
  last (a :: l) d = last l a.
Proof.
  revert a d. induction l as [|b l IH]; intros a d; [reflexivity|].
  change (last (a :: b :: l) d) with (last (b :: l) d).
  rewrite !IH. reflexivity.
Qed.

Lemma handle_progress evs : forall self,
  Forall (fun p => 0 <= p <= 100) (progress_events evs) ->
  progress_value (handle self evs)
  = last (progress_events evs) (progress_value self).
Proof.
  induction evs as [|ev evs IH]; intros self Hr; [reflexivity|].
  rewrite handle_cons.
  destruct ev as [cmd|fp st|p|title message|rm|];
    cbn [progress_events flat_map app] in *;
    try (rewrite IH by exact Hr; reflexivity).
  inversion Hr as [|? ? Hp Hr']; subst.
  fold (progress_events evs) in *.
  rewrite IH by exact Hr'. rewrite last_cons.
  cbn [deliver setValue progress_value].
  replace ((0 <=? p) && (p <=? 100)) with true; [reflexivity|].
  symmetry. apply andb_true_iff. split; apply Z.leb_le; lia.
Qed.

Lemma run_progress_in_range self env :
  Forall (fun p => 0 <= p <= 100) (progress_events (fst (run self env))).
Proof.
  unfold run.
  set (n := Z.of_nat (List.length (files_to_process self))).
  pose proof (run_from_progress (selected_ratio_str self) n env
                (files_to_process self) 0%nat ltac:(unfold n; lia)) as [_ Hf].
  assert (Hr : Forall (fun p => 0 <= p <= 100)
                 (progress_events (fst (run_from (selected_ratio_str self) n env 0
                                          (files_to_process self))))).
  { eapply Forall_impl; [|exact Hf].
    intros p (k & Hk & Ek). apply (progress_of_bounds k n p); [lia | exact Ek]. }
  destruct (run_from _ n env 0 _) as [evs [e|]]; cbn [fst] in *; [exact Hr|].
  rewrite progress_events_app. cbn [progress_events flat_map app].
  rewrite app_nil_r. exact Hr.
Qed.

(** X21. The progress bar follows the worker: no value the worker
    reports falls outside the range of the bar, so after the signals of a
    batch the bar shows the last value reported, and what it showed
    before when none was. *)
Theorem progress_bar_shows_the_last_progress self w env :
  progress_value (handle self (fst (run w env)))
  = last (progress_events (fst (run w env))) (progress_value self).
Proof. apply handle_progress. apply run_progress_in_range. Qed.

Lemma handle_buttons evs : forall self,
  count_finished evs = 0%nat ->
  convert_button (handle self evs) = convert_button self /\
  clear_button (handle self evs) = clear_button self /\
  statusBar (handle self evs) = statusBar self.
Proof.
  induction evs as [|ev evs IH]; intros self Hc; [repeat split|].
  rewrite handle_cons.
  assert (Hc' : count_finished evs = 0%nat)
    by (destruct ev; try discriminate Hc; exact Hc).
  destruct (IH (deliver self ev) Hc') as (H1 & H2 & H3).
  rewrite H1, H2, H3.
  destruct ev; try discriminate Hc; repeat split.
Qed.

(** X22. A batch disables the two buttons, and only [finished] enables
    them again: when [run] returns, the window ends with both buttons
    enabled and the message that all conversions are complete; when an
    exception leaves [run], both buttons stay disabled and the message of
    the status bar is what it was. *)
Theorem buttons_come_back_iff_run_returns self env :
  queued_files (file_list_tree self) <> [] ->
  exists w,
    worker (start_conversion self) = Some w /\
    files_to_process w = queued_files (file_list_tree self) /\
    selected_ratio_str w = currentText self /\
    let after := handle (start_conversion self) (fst (run w env)) in
    match snd (run w env) with
    | None =>
        convert_button after = true /\ clear_button after = true /\
        statusBar after = "🎉 All conversions complete!"
    | Some _ =>
        convert_button after = false /\ clear_button after = false /\
        statusBar after = statusBar self
    end.
Proof.
  intros Hq.
  exists {| files_to_process := queued_files (file_list_tree self);
            selected_ratio_str := currentText self |}.
  set (w := {| files_to_process := _ |}).
  assert (Hstart : worker (start_conversion self) = Some w /\
                   convert_button (start_conversion self) = false /\
                   clear_button (start_conversion self) = false /\
                   statusBar (start_conversion self) = statusBar self).
  { unfold start_conversion, w.
    destruct (queued_files (file_list_tree self)); [contradiction|].
    repeat split. }
  destruct Hstart as (Hw & Hb1 & Hb2 & Hsb).
  split; [exact Hw|]. split; [reflexivity|]. split; [reflexivity|].
  cbv zeta.
  pose proof (finished_or_not w env) as Hfin.
  destruct (snd (run w env)) as [e|].
  - destruct (handle_buttons _ (start_conversion self) Hfin) as (H1 & H2 & H3).
    rewrite H1, H2, H3. auto.
  - destruct Hfin as (evs & -> & Hc). rewrite handle_app.
    repeat split; reflexivity.
Qed.

(** ** Rows that were started *)

Lemma set_status_rows f s tree :
  NoDup (map data tree) ->
  forall it1, In it1 (set_status f s tree) ->
  exists it, In it tree /\ data it1 = data it /\
             ((data it <> f /\ status it1 = status it) \/
              (data it = f /\ status it1 = s)).
Proof.
  induction tree as [|it0 tree IH]; intros Hnd it1 Hin; [destruct Hin|].
  cbn [map] in Hnd. inversion Hnd as [|? ? Hfresh Hnd']; subst.
  cbn [set_status] in Hin.
  destruct (data it0 =? f)%string eqn:Hd.
  - apply String.eqb_eq in Hd. destruct Hin as [<- | Hin].
    + exists it0. split; [left; reflexivity|]. split; [reflexivity|].
      right. split; [exact Hd | reflexivity].
    + exists it1. split; [right; exact Hin|]. split; [reflexivity|].
      left. split; [|reflexivity]. intros Heq. apply Hfresh.
      rewrite Hd, <- Heq. apply in_map. exact Hin.
  - apply String.eqb_neq in Hd. destruct Hin as [<- | Hin].
    + exists it0. split; [left; reflexivity|]. split; [reflexivity|].
      left. split; [exact Hd | reflexivity].
    + destruct (IH Hnd' it1 Hin) as (it & Hit & Hrest).
      exists it. split; [right; exact Hit | exact Hrest].
Qed.

Lemma status_paths_In f s evs :
  In (update_status f s) evs -> In f (status_paths evs).
Proof.
  intros Hin. unfold status_paths. apply in_flat_map.
  exists (update_status f s). split; [exact Hin | left; reflexivity].
Qed.

(** Every row after the signals is a row of before, with its path; its
    status is what it was, when no status of the trace is about its path,
    or the text of a status of the trace about its path. *)
Lemma handle_rows evs : forall self,
  NoDup (map data (file_list_tree self)) ->
  forall it', In it' (file_list_tree (handle self evs)) ->
  exists it, In it (file_list_tree self) /\ data it' = data it /\
             ((status it' = status it /\ ~ In (data it) (status_paths evs)) \/
              (exists s, In (update_status (data it) s) evs /\ status it' = s)).
Proof.
  induction evs as [|ev evs IH]; intros self Hnd it' Hin.
  - exists it'. split; [exact Hin|]. split; [reflexivity|].
    left. split; [reflexivity | intros []].
  - rewrite handle_cons in Hin.
    assert (Hnd1 : NoDup (map data (file_list_tree (deliver self ev))))
      by (rewrite (proj1 (deliver_paths self ev)); exact Hnd).
    destruct (IH (deliver self ev) Hnd1 it' Hin) as (it1 & Hit1 & Hd1 & Hs1).
    assert (Hstep : exists it, In it (file_list_tree self) /\
                      data it1 = data it /\
                      ((status it1 = status it /\
                        ~ In (data it) (status_paths [ev])) \/
                       (exists s, ev = update_status (data it) s /\
                                  status it1 = s))).
    { destruct ev as [cmd|fp st|p|title message|rm|];
        try (exists it1; split; [exact Hit1|]; split; [reflexivity|];
             left; split; [reflexivity | intros []]).
      cbn [deliver on_update_status file_list_tree] in Hit1.
      destruct (set_status_rows _ _ _ Hnd it1 Hit1)
        as (it & Hit & Hd & [(Hne & Hs) | (He & Hs)]);
        exists it; (split; [exact Hit|]); (split; [exact Hd|]).
      - left. split; [exact Hs|]. cbn. intros [H | []]. congruence.
      - right. exists st. split; [rewrite He; reflexivity | exact Hs]. }
    destruct Hstep as (it & Hit & Hd & Hs).
    exists it. split; [exact Hit|]. split; [congruence|].
    rewrite Hd in Hs1.
    destruct Hs1 as [(Hs1 & Hn1) | (s & Hev & Hs1)].
    + destruct Hs as [(Hs & Hn) | (s & -> & Hs)].
      * left. split; [congruence|].
        change (ev :: evs) with ([ev] ++ evs)%list.
        unfold status_paths in *. rewrite flat_map_app, in_app_iff. tauto.
      * right. exists s. split; [left; reflexivity | congruence].
    + right. exists s. split; [right; exact Hev | exact Hs1].
Qed.

Lemma queued_row f tree :
  In f (queued_files tree) <->
  exists it, In it tree /\ status it = "Queued" /\ data it = f.
Proof.
  unfold queued_files. rewrite in_map_iff. split.
  - intros (it & Hd & Hin). apply filter_In in Hin. destruct Hin as (Hin & Hs).
    apply String.eqb_eq in Hs. eauto.
  - intros (it & Hin & Hs & Hd). exists it. split; [exact Hd|].
    apply filter_In. split; [exact Hin|]. rewrite Hs. reflexivity.
Qed.

Lemma worker_status_is_not_Queued s :
  In s worker_statuses -> s <> "Queued".
Proof.
  cbn [worker_statuses In]. intros H Heq. subst s.
  repeat (destruct H as [H | H]; [discriminate H|]). exact H.
Qed.

(** X23. A file the worker has started is never queued again: in a tree
    of distinct paths, once the worker has reported any status for a path,
    the list of queued files the next start would collect does not hold
    that path, whatever became of the file and of the batch. *)
Theorem started_file_is_not_queued_again self w env f s :
  NoDup (map data (file_list_tree self)) ->
  In (update_status f s) (fst (run w env)) ->
  ~ In f (queued_files (file_list_tree (handle self (fst (run w env))))).
Proof.
  intros Hnd Hev Hq.
  apply queued_row in Hq. destruct Hq as (it' & Hin & Hs & Hd).
  destruct (handle_rows _ self Hnd it' Hin)
    as (it & _ & Hd' & [(_ & Hn) | (s' & Hev' & Hs')]).
  - apply Hn. rewrite <- Hd', Hd. exact (status_paths_In _ _ _ Hev).
  - apply run_status in Hev'. destruct Hev' as (_ & Hw).
    apply (worker_status_is_not_Queued s' Hw). congruence.
Qed.





(** * The progress of the last file *)

(** The float before 1. *)
Lemma below_one_rounded :
  rounded (inject_Z (2 ^ 53 - 1) / inject_Z (2 ^ 53))
          (Float.quot (2 ^ 53 - 1) (2 ^ 53)) /\
  (val (Float.quot (2 ^ 53 - 1) (2 ^ 53)) <= 1)%Q /\
  Qfloor (val (Float.mul (Float.quot (2 ^ 53 - 1) (2 ^ 53)) (Float.of_int 100))) = 99.
Proof.
  split; [|split; vm_compute; [discriminate | reflexivity]].
  change (2 ^ 53 - 1) with 9007199254740991.
  change (2 ^ 53) with 9007199254740992.
  apply quot_rounded.
  apply Qlt_le_trans with (pow2 1); [reflexivity|]. apply pow2_le. lia.
Qed.

(** The value of line 112 is 100 for the last index and for no other. *)
Lemma progress_of_full i n p :
  0 <= i < n -> n <= 2 ^ 53 ->
  progress_of i n = Return p ->
  (p = 100 <-> i = n - 1).
Proof.
  intros Hin Hn Hp. split.
  - intros ->. destruct (Z.eq_dec i (n - 1)) as [E | Hne]; [exact E|]. exfalso.
    destruct (progress_of_rounded i n Hin) as (q & r & Hq & Hq1 & Hr & E).
    rewrite E in Hp. injection Hp as Hp.
    destruct below_one_rounded as (Hb & Hb1 & Hb99).
    pose proof (percent_rounded _ (proj1 Hb) Hb1) as Hbr.
    assert (Hle : (inject_Z (i + 1) / inject_Z n
                   <= inject_Z (2 ^ 53 - 1) / inject_Z (2 ^ 53))%Q).
    { apply Qle_shift_div_l;
        [apply inject_Z_pos; apply Z.pow_pos_nonneg; lia|].
      unfold Qdiv. rewrite <- Qmult_assoc, (Qmult_comm (/ _)), Qmult_assoc.
      apply Qle_shift_div_r; [apply inject_Z_pos; lia|].
      rewrite <- !inject_Z_mult, <- Zle_Qle.
      assert (0 < 2 ^ 53) by (apply Z.pow_pos_nonneg; lia). nia. }
    pose proof (rounded_mono _ _ _ _ Hq Hb Hle) as Hqb.
    assert (Hrb : (val r <= val (Float.mul (Float.quot (2 ^ 53 - 1) (2 ^ 53)) (Float.of_int 100)))%Q).
    { eapply rounded_mono; [exact Hr | exact Hbr |].
      apply Qmult_le_compat_r; [exact Hqb | lra]. }
    apply Qfloor_resp_le in Hrb. lia.
  - intros ->. rewrite progress_of_last in Hp by lia. congruence.
Qed.

(** A progress value in the trace of an iteration is the value of line
    112 at its index, and the analysis of its file had succeeded. *)
Lemma process_file_progress ratio n i file w v :
  In (update_progress v) (fst (process_file ratio n i file w)) ->
  progress_of i n = Return v /\
  exists md, get_video_metadata file (ffprobe_reply w) = (Some md, None).
Proof.
  intros Hin. split.
  - destruct (process_file_shape ratio n i file w) as (_ & [Hp | (p' & Hp & Ep)]).
    + assert (Hin' : In v (progress_events
                              (fst (process_file ratio n i file w)))).
      { unfold progress_events. apply in_flat_map.
        exists (update_progress v). split; [exact Hin | left; reflexivity]. }
      rewrite Hp in Hin'. destruct Hin'.
    + assert (Hin' : In v (progress_events
                              (fst (process_file ratio n i file w)))).
      { unfold progress_events. apply in_flat_map.
        exists (update_progress v). split; [exact Hin | left; reflexivity]. }
      rewrite Hp in Hin'. destruct Hin' as [<- | []]. exact Ep.
  - revert Hin. iteration_cases ratio n i file w; cbn [fst app In];
      intros Hin;
      repeat match goal with
             | H : _ \/ _ |- _ => destruct H as [H | H]
             | H : False |- _ => destruct H
             | H : _ = update_progress _ |- _ => first [discriminate H | clear H]
             end.
    all: pose proof (get_video_metadata_cases file (ffprobe_reply w)) as Hcases;
      rewrite Hg in Hcases;
      destruct Hcases as [(d & Hd & Ht') | (md' & Hd)];
      [ injection Hd as _ ->; rewrite Ht' in Ht; discriminate Ht
      | exists md'; exact Hd ].
Qed.

(** X25. The progress reaches 100 with the last file only: in a batch of
    at most 2^53 files, the value 100 is reported only by the iteration of
    the last file, reached with the flag set, and only when the analysis
    of that file succeeded.  A batch whose last file fails the analysis,
    or that is stopped before it, ends below 100. *)
Theorem full_progress_only_after_the_last_file self env :
  Z.of_nat (List.length (files_to_process self)) <= 2 ^ 53 ->
  In (update_progress 100) (fst (run self env)) ->
  exists file md,
    nth_error (files_to_process self)
      (List.length (files_to_process self) - 1) = Some file /\
    is_running (env (List.length (files_to_process self) - 1)%nat) = true /\
    get_video_metadata file
      (ffprobe_reply (env (List.length (files_to_process self) - 1)%nat))
    = (Some md, None).
Proof.
  intros Hn Hin.
  destruct (run_In self env _ Hin) as [H | (k & file & Hk & Hr & Hev)];
    [discriminate H|].
  destruct (process_file_progress _ _ _ _ _ _ Hev) as (Hp & md & Hg).
  assert (Hlt : (k < List.length (files_to_process self))%nat)
    by (apply nth_error_Some; congruence).
  assert (Hrange : 0 <= Z.of_nat k
                   < Z.of_nat (List.length (files_to_process self))) by lia.
  pose proof (proj1 (progress_of_full _ _ _ Hrange Hn Hp) eq_refl) as Hlast.
  replace (List.length (files_to_process self) - 1)%nat with k by lia.
  exists file, md. repeat split; assumption.
Qed.

(** * The selection and the start of the program *)

(** X26. The entries of the combo box are the modes the worker knows:
    the pad mode and the keys of [ratio_map], no more and no less; so the
    text of a selected entry is a mode for which line 85 raises no
    KeyError. *)
Theorem selection_is_a_known_mode self :
  (aspect_ratio_choice self < List.length aspect_ratio_items)%nat ->
  valid_mode (currentText self) /\
  forall m, valid_mode m <-> In m aspect_ratio_items.
Proof.
  intros Hsel.
  assert (Hiff : forall m, valid_mode m <-> In m aspect_ratio_items).
  { intros m. unfold valid_mode, aspect_ratio_items.
    cbn [ratio_map map fst In]. intuition congruence. }
  split; [|exact Hiff].
  apply Hiff. unfold currentText. apply nth_In. exact Hsel.
Qed.

(** X27. The program opens its window exactly when both tools answer
    [-version] with status 0; a tool that is missing or exits with another
    status gives the Dependency Not Found message and no window, ffprobe
    not being tried when ffmpeg failed; any other exception of a tool
    leaves [main]. *)
Theorem main_opens_the_window_iff_both_tools_run ffmpeg ffprobe :
  (forall window,
     main ffmpeg ffprobe = Return (window_shown window) <->
     ffmpeg = tool_exit_0 /\ ffprobe = tool_exit_0 /\ window = setup_ui) /\
  (forall e,
     main ffmpeg ffprobe = Raise e <->
     ffmpeg = tool_raises e \/ (ffmpeg = tool_exit_0 /\ ffprobe = tool_raises e)) /\
  (forall d,
     main ffmpeg ffprobe = Return (dependency_not_found d) ->
     d = critical "Dependency Not Found"
           "FFmpeg and FFprobe are not in your system's PATH. Please install FFmpeg." /\
     (ffmpeg <> tool_exit_0 -> forall other, main ffmpeg other = main ffmpeg ffprobe)).
Proof.
  split; [|split].
  - intros window. split.
    + destruct ffmpeg, ffprobe; cbn; intros H; try discriminate H.
      injection H as <-. repeat split.
    + intros (-> & -> & ->). reflexivity.
  - intros e. split.
    + destruct ffmpeg, ffprobe; cbn; intros H; try discriminate H;
        injection H as <-; auto.
    + intros [-> | (-> & ->)]; reflexivity.
  - intros d. destruct ffmpeg, ffprobe; cbn; intros H; try discriminate H;
      injection H as <-; (split; [reflexivity|]); intros Hne other;
      try contradiction; reflexivity.
Qed.

(** * Instances *)

Lemma stop_flag_ends_the_loop_witness :
  run_from "Keep Original (Pad)" 3 Sample.stop_after_first 0
    (["/videos/a.mp4"] ++ ["/videos/b.mov"; "/videos/c.mkv"])
  = run_from "Keep Original (Pad)" 3 Sample.stop_after_first 0
      ["/videos/a.mp4"].
Proof.
  apply (stop_flag_ends_the_loop "Keep Original (Pad)" 3
           Sample.stop_after_first ["/videos/a.mp4"]
           ["/videos/b.mov"; "/videos/c.mkv"] 0%nat).
  reflexivity.
Defined.

Lemma done_means_both_passes_succeeded_witness :
  exists k md,
    nth_error (files_to_process Sample.three_files) k = Some "/videos/b.mov" /\
    is_running Sample.converts = true /\
    get_video_metadata "/videos/b.mov" (ffprobe_reply Sample.converts)
    = (Some md, None) /\
    pass1_reply Sample.converts = Return tt /\
    pass2_reply Sample.converts = Return tt.
Proof.
  apply (done_means_both_passes_succeeded Sample.three_files
           (fun _ => Sample.converts) "/videos/b.mov").
  vm_compute. repeat first [left; reflexivity | right].
Defined.

Lemma iteration_statuses_are_ordered_witness :
  Forall (eq "/videos/b.mov")
    (status_paths
       (fst (process_file "Keep Original (Pad)" 3 1 "/videos/b.mov"
               Sample.no_video))) /\
  In (status_texts
        (fst (process_file "Keep Original (Pad)" 3 1 "/videos/b.mov"
                Sample.no_video)),
      map fst
        (error_events
           (fst (process_file "Keep Original (Pad)" 3 1 "/videos/b.mov"
                   Sample.no_video))))
    [ (["⚙️ Analyzing..."; "❌ Analyze Failed"], ["Analysis Error"]);
      (["⚙️ Analyzing..."; "🏃 Pass 1..."; "❌ Error"], ["Conversion Error"]);
      (["⚙️ Analyzing..."; "🏃 Pass 1..."; "🏁 Pass 2..."; "❌ Error"],
       ["Conversion Error"]);
      (["⚙️ Analyzing..."; "🏃 Pass 1..."; "🏁 Pass 2..."; "✅ Done"], []) ].
Proof.
  apply (iteration_statuses_are_ordered "Keep Original (Pad)" 3 1
           "/videos/b.mov" Sample.no_video).
  lia.
Defined.


Lemma unexpected_exception_escapes_witness :
  (exists progress,
     progress_of 0 2 = Return progress /\
     run_from "Keep Original (Pad)" 2 (fun _ => Scene.no_encoder) 0
       ["/videos/a.mp4"; "/videos/b.mov"]
     = (([ update_status "/videos/a.mp4" "⚙️ Analyzing...";
           subprocess_run (ffprobe_cmd "/videos/a.mp4");
           update_status "/videos/a.mp4" "🏃 Pass 1...";
           subprocess_run
             (first_pass_cmd "/videos/a.mp4" (fst (fst (pad_plan 1920 1080)))) ]
         ++ []
         ++ [update_progress progress] ++ cleanup Scene.no_encoder)%list,
        Some (OtherException "[Errno 2] No such file or directory: 'ffmpeg'"))) /\
  (exists progress,
     progress_of 0 2 = Return progress /\
     run_from "Keep Original (Pad)" 2 (fun _ => Scene.encoder_lost) 0
       ["/videos/a.mp4"; "/videos/b.mov"]
     = (([ update_status "/videos/a.mp4" "⚙️ Analyzing...";
           subprocess_run (ffprobe_cmd "/videos/a.mp4");
           update_status "/videos/a.mp4" "🏃 Pass 1...";
           subprocess_run
             (first_pass_cmd "/videos/a.mp4" (fst (fst (pad_plan 1920 1080)))) ]
         ++ [ update_status "/videos/a.mp4" "🏁 Pass 2...";
              subprocess_run
                (second_pass_cmd "/videos/a.mp4" (fst (fst (pad_plan 1920 1080)))
                   "/videos/a_whatsapp.mp4") ]
         ++ [update_progress progress] ++ cleanup Scene.encoder_lost)%list,
        Some (OtherException "[Errno 2] No such file or directory: 'ffmpeg'"))).
Proof.
  split.
  - apply (unexpected_exception_escapes "Keep Original (Pad)" 2
             (fun _ => Scene.no_encoder) 0 "/videos/a.mp4" ["/videos/b.mov"]
             {| width := 1920; height := 1080; rotation := 0 |}
             (fst (fst (pad_plan 1920 1080))) 1280 720).
    + reflexivity.
    + lia.
    + reflexivity.
    + reflexivity.
    + reflexivity.
    + left. reflexivity.
  - apply (unexpected_exception_escapes "Keep Original (Pad)" 2
             (fun _ => Scene.encoder_lost) 0 "/videos/a.mp4" ["/videos/b.mov"]
             {| width := 1920; height := 1080; rotation := 0 |}
             (fst (fst (pad_plan 1920 1080))) 1280 720).
    + reflexivity.
    + lia.
    + reflexivity.
    + reflexivity.
    + reflexivity.
    + right. split; reflexivity.
Defined.

Lemma zero_height_ends_a_crop_batch_witness :
  run_from "Crop to 1:1 (Square)" 2 (fun _ => Scene.flat) 0
    ["/videos/a.mp4"; "/videos/b.mov"]
  = ([ update_status "/videos/a.mp4" "⚙️ Analyzing...";
       subprocess_run (ffprobe_cmd "/videos/a.mp4") ],
     Some (ZeroDivisionError "division by zero")).
Proof.
  apply (zero_height_ends_a_crop_batch "Crop to 1:1 (Square)" (Float.lit 1 0) 2
           (fun _ => Scene.flat) 0 "/videos/a.mp4" ["/videos/b.mov"]
           {| width := 1920; height := 0; rotation := 0 |});
    reflexivity.
Defined.

Lemma unknown_mode_raises_KeyError_witness :
  run_from "Crop to 4:3" 2 (fun _ => Sample.converts) 0
    ["/videos/a.mp4"; "/videos/b.mov"]
  = ([ update_status "/videos/a.mp4" "⚙️ Analyzing...";
       subprocess_run (ffprobe_cmd "/videos/a.mp4") ],
     Some (KeyError "Crop to 4:3")).
Proof.
  apply (unknown_mode_raises_KeyError "Crop to 4:3" 2
           (fun _ => Sample.converts) 0 "/videos/a.mp4" ["/videos/b.mov"]
           {| width := 1920; height := 1080; rotation := 0 |}).
  - discriminate.
  - reflexivity.
  - reflexivity.
  - reflexivity.
Defined.

Lemma analysis_reads_the_first_video_stream_witness :
  get_video_metadata "/videos/a.mp4" (Return Scene.mixed)
  = get_video_metadata "/videos/a.mp4"
      (Return (JDict [("streams", JList [JDict (Sample.video [])])])).
Proof.
  apply (analysis_reads_the_first_video_stream "/videos/a.mp4" Scene.mixed
           [Scene.audio] (JDict (Sample.video [])) [JNull]).
  - reflexivity.
  - constructor; [|constructor]. eexists. split; reflexivity.
  - eexists. split; reflexivity.
Defined.

Lemma no_video_stream_is_reported_witness :
  get_video_metadata "/music/a.mp3"
    (Return (JDict [("streams", JList [Scene.audio])]))
  = (None, Some "No video stream found.").
Proof.
  apply (no_video_stream_is_reported "/music/a.mp3"
           (JDict [("streams", JList [Scene.audio])]) [Scene.audio]).
  - reflexivity.
  - constructor; [|constructor]. eexists. split; reflexivity.
Defined.

Lemma missing_dimension_fails_the_analysis_witness :
  get_video_metadata "/videos/a.mp4"
    (Return (JDict [("streams", JList [Scene.audio; JDict Scene.no_height])]))
  = (None,
     Some ("Failed to get video metadata for " ++ basename "/videos/a.mp4" ++ "."
             ++ nl ++ nl ++ "Error: '" ++ "height" ++ "'")).
Proof.
  apply (missing_dimension_fails_the_analysis "/videos/a.mp4"
           (JDict [("streams", JList [Scene.audio; JDict Scene.no_height])])
           [Scene.audio] Scene.no_height [] "height").
  - reflexivity.
  - constructor; [|constructor]. eexists. split; reflexivity.
  - eexists. split; reflexivity.
  - right. split; [reflexivity|]. split; [reflexivity|].
    exists (JInt 1920), 1920. split; reflexivity.
Defined.

Lemma rotate_tag_in_decimal_is_read_witness :
  get_video_metadata "/videos/a.mp4"
    (Return (Sample.doc (Sample.rotated "-90")))
  = (Some {| width := 1920; height := 1080; rotation := -90 |}, None).
Proof.
  apply (rotate_tag_in_decimal_is_read "/videos/a.mp4"
           (Sample.doc (Sample.rotated "-90"))
           (Sample.video (Sample.rotated "-90")) 1920 1080 (-90)).
  - eexists _, _. repeat split; reflexivity.
  - eexists. split; reflexivity.
  - eexists. split; reflexivity.
  - eexists. split; reflexivity.
Defined.

Lemma drop_keeps_paths_distinct_witness :
  NoDup (map data
           (dropEvent (fun f => (f =? "/videos/a.mp4")%string)
              ["/videos/a.mp4"; "/videos"; "/videos/a.mp4"] [])) /\
  dropEvent (fun f => (f =? "/videos/a.mp4")%string)
    ["/videos/a.mp4"; "/videos"; "/videos/a.mp4"]
    (dropEvent (fun f => (f =? "/videos/a.mp4")%string)
       ["/videos/a.mp4"; "/videos"; "/videos/a.mp4"] [])
  = dropEvent (fun f => (f =? "/videos/a.mp4")%string)
      ["/videos/a.mp4"; "/videos"; "/videos/a.mp4"] [].
Proof.
  apply (drop_keeps_paths_distinct (fun f => (f =? "/videos/a.mp4")%string)
           ["/videos/a.mp4"; "/videos"; "/videos/a.mp4"] []).
  constructor.
Defined.

Lemma status_colours_of_the_worker_witness :
  status_color "✅ Done" = "#4CAF50".
Proof.
  apply (status_colours_of_the_worker Sample.three_files
           (fun _ => Sample.converts) "/videos/a.mp4" "✅ Done").
  vm_compute. repeat first [left; reflexivity | right].
Defined.

Lemma buttons_come_back_iff_run_returns_witness :
  exists w,
    worker (start_conversion Scene.two_dropped) = Some w /\
    files_to_process w = queued_files (file_list_tree Scene.two_dropped) /\
    selected_ratio_str w = currentText Scene.two_dropped /\
    let after := handle (start_conversion Scene.two_dropped)
                   (fst (run w (fun _ => Scene.flat))) in
    match snd (run w (fun _ => Scene.flat)) with
    | None =>
        convert_button after = true /\ clear_button after = true /\
        statusBar after = "🎉 All conversions complete!"
    | Some _ =>
        convert_button after = false /\ clear_button after = false /\
        statusBar after = statusBar Scene.two_dropped
    end.
Proof.
  apply (buttons_come_back_iff_run_returns Scene.two_dropped
           (fun _ => Scene.flat)).
  vm_compute. discriminate.
Defined.

Lemma started_file_is_not_queued_again_witness :
  ~ In "/videos/a.mp4"
      (queued_files
         (file_list_tree
            (handle Scene.two_dropped
               (fst (run Scene.two_files Sample.stop_after_first))))).
Proof.
  apply (started_file_is_not_queued_again Scene.two_dropped Scene.two_files
           Sample.stop_after_first "/videos/a.mp4" "⚙️ Analyzing...").
  - vm_compute. repeat constructor; cbn [In]; intuition discriminate.
  - vm_compute. left. reflexivity.
Defined.


Lemma full_progress_only_after_the_last_file_witness :
  exists file md,
    nth_error (files_to_process Sample.three_files)
      (List.length (files_to_process Sample.three_files) - 1) = Some file /\
    is_running Sample.converts = true /\
    get_video_metadata file (ffprobe_reply Sample.converts) = (Some md, None).
Proof.
  apply (full_progress_only_after_the_last_file Sample.three_files
           (fun _ => Sample.converts)).
  - vm_compute. discriminate.
  - vm_compute. repeat first [left; reflexivity | right].
Defined.

Lemma selection_is_a_known_mode_witness :
  valid_mode (currentText setup_ui) /\
  forall m, valid_mode m <-> In m aspect_ratio_items.
Proof.
  apply (selection_is_a_known_mode setup_ui). vm_compute. lia.
Defined.
